(** * Webhook receiver: signature check, timestamp normalisation, event
      classification and the event store of [app.py].

    The development embeds the functions of [app.py] together with the part of
    the Python runtime they call ([str] methods, [hmac]/[hashlib.sha1],
    [datetime], subscripting of JSON values) and proves the properties of the
    specification about them.

    Conventions.
    - A Python [str] is represented by its UTF-8 encoding as a Rocq [string]
      (one [ascii] per byte); ASCII text is represented by itself.  A [str]
      holding lone surrogates has no UTF-8 encoding and is outside the
      model; [PyStr.encodable] tells the strings that stand for a [str].
    - A Python [bytes] is a [list byte].
    - A Python exception is a value of [exn]; a call that may raise returns
      [result]. *)

From Stdlib Require Import ZArith List Strings.String Strings.Ascii Strings.Byte Bool Lia.
From Stdlib Require Import Sorting.Permutation Sorting.Sorted.
Import ListNotations.

Local Open Scope string_scope.
Local Open Scope Z_scope.

(** ** Exceptions *)

Inductive exn : Type :=
| ValueError
| TypeError
| KeyError
| AttributeError
| OverflowError.

Inductive result (A : Type) : Type :=
| Ok (a : A)
| Raise (e : exn).

Arguments Ok {A} a.
Arguments Raise {A} e.

Definition bind {A B : Type} (r : result A) (k : A -> result B) : result B :=
  match r with
  | Ok a => k a
  | Raise e => Raise e
  end.

Notation "x <- r ;; k" := (bind r (fun x => k))
  (at level 61, r at next level, right associativity).
Notation "' p <- r ;; k" := (bind r (fun p => k))
  (at level 61, p pattern, r at next level, right associativity).

(** ** Python [str] methods used by the source *)

Module PyStr.

(** [s.split(sep)] for a one-character separator: the pieces between the
    occurrences of [sep]; never the empty list. *)
Fixpoint split (s : string) (sep : ascii) : list string :=
  match s with
  | EmptyString => [EmptyString]
  | String c rest =>
      if Ascii.eqb c sep then EmptyString :: split rest sep
      else match split rest sep with
           | piece :: pieces => String c piece :: pieces
           | [] => [String c EmptyString]
           end
  end.

(** [s.endswith(suffix)]. *)
Fixpoint endswith (s suffix : string) : bool :=
  String.eqb s suffix ||
  match s with
  | EmptyString => false
  | String _ rest => endswith rest suffix
  end.

(** [s.replace(old, new)] for a one-character [old]: every occurrence. *)
Fixpoint replace (s : string) (old : ascii) (new : string) : string :=
  match s with
  | EmptyString => EmptyString
  | String c rest =>
      if Ascii.eqb c old then new ++ replace rest old new
      else String c (replace rest old new)
  end.

(** [s.isascii()]: no byte of the encoding has its top bit set. *)
Fixpoint isascii (s : string) : bool :=
  match s with
  | EmptyString => true
  | String c rest => (N.ltb (N_of_ascii c) 128) && isascii rest
  end.

(** Truth value of a [str]: non-empty. *)
Definition truthy (s : string) : bool :=
  match s with
  | EmptyString => false
  | String _ _ => true
  end.

(** [s.encode()] (UTF-8). *)
Definition encode (s : string) : list byte := list_byte_of_string s.

(** The byte strings that are the UTF-8 encoding of a [str], that is the
    strings of this model: well-formed sequences, the three-byte forms of
    the surrogates excluded.  A [str] holding a lone surrogate, which
    [os.getenv] yields for a byte of the environment that is not UTF-8,
    has no such encoding: its [encode()] raises [UnicodeEncodeError]. *)
Definition continuation (lo hi : N) (c : ascii) : bool :=
  N.leb lo (N_of_ascii c) && N.leb (N_of_ascii c) hi.

Fixpoint encodable (s : string) : bool :=
  match s with
  | EmptyString => true
  | String c rest =>
      let n := N_of_ascii c in
      if N.ltb n 128 then encodable rest
      else
        match rest with
        | String c1 rest1 =>
            if N.leb 194 n && N.leb n 223 then
              continuation 128 191 c1 && encodable rest1
            else
              match rest1 with
              | String c2 rest2 =>
                  if N.leb 224 n && N.leb n 239 then
                    continuation (if N.eqb n 224 then 160 else 128)
                                 (if N.eqb n 237 then 159 else 191) c1
                    && continuation 128 191 c2 && encodable rest2
                  else
                    match rest2 with
                    | String c3 rest3 =>
                        N.leb 240 n && N.leb n 244
                        && continuation (if N.eqb n 240 then 144 else 128)
                                        (if N.eqb n 244 then 143 else 191) c1
                        && continuation 128 191 c2
                        && continuation 128 191 c3 && encodable rest3
                    | EmptyString => false
                    end
              | EmptyString => false
              end
        | EmptyString => false
        end
  end.

(** [a, b = xs]: unpacking into exactly two names. *)
Definition unpack2 {A : Type} (xs : list A) : result (A * A) :=
  match xs with
  | [a; b] => Ok (a, b)
  | _ => Raise ValueError
  end.

(** [xs[-1]]. *)
Definition last_item (xs : list string) : string := List.last xs EmptyString.

(** [str(n)] of a non-negative [int]. *)
Fixpoint digits (fuel : nat) (n : Z) (acc : string) : string :=
  match fuel with
  | O => acc
  | S fuel' =>
      let acc' := String (ascii_of_N (Z.to_N (48 + n mod 10))) acc in
      if n <? 10 then acc' else digits fuel' (n / 10) acc'
  end.

Definition str_of_nonneg (n : Z) : string :=
  digits (S (Z.to_nat (Z.log2 n))) n EmptyString.

(** ['%0wd' % n] for a non-negative [n]: decimal, left-padded with zeros to
    at least [w] characters. *)
Fixpoint zfill (missing : nat) (s : string) : string :=
  match missing with
  | O => s
  | S m => String "0"%char (zfill m s)
  end.

Definition pad0 (w : nat) (n : Z) : string :=
  let s := str_of_nonneg n in
  zfill (w - String.length s) s.

End PyStr.

(** ** [hashlib.sha1] (FIPS 180-4) *)

Module Sha1.

Definition byte_val (b : byte) : Z := Z.of_N (Byte.to_N b).

Definition byte_of_Z (z : Z) : byte :=
  match Byte.of_N (Z.to_N (Z.land z 255)) with
  | Some b => b
  | None => x00
  end.

Definition wrap32 (x : Z) : Z := Z.land x 0xFFFFFFFF.

Definition add32 (x y : Z) : Z := wrap32 (x + y).

Definition rotl (n x : Z) : Z :=
  wrap32 (Z.lor (Z.shiftl x n) (Z.shiftr x (32 - n))).

Definition not32 (x : Z) : Z := Z.lxor x 0xFFFFFFFF.

(** Big-endian 32-bit words of a byte sequence whose length is a multiple
    of four. *)
Fixpoint words (bs : list Z) : list Z :=
  match bs with
  | b0 :: b1 :: b2 :: b3 :: rest =>
      Z.lor (Z.shiftl b0 24) (Z.lor (Z.shiftl b1 16) (Z.lor (Z.shiftl b2 8) b3))
      :: words rest
  | _ => []
  end.

Definition be_bytes (width : nat) (x : Z) : list Z :=
  map (fun i => Z.land (Z.shiftr x (8 * Z.of_nat i)) 255) (rev (seq 0 width)).

(** Message padding: a one bit, zeros up to 56 modulo 64 bytes, and the bit
    length as a 64-bit big-endian integer. *)
Definition pad (msg : list Z) : list Z :=
  let len := Z.of_nat (List.length msg) in
  (msg ++ [0x80] ++ repeat 0 (Z.to_nat ((55 - len) mod 64))
       ++ be_bytes 8 (8 * len))%list.

(** Message schedule, most recent word first: sixteen block words extended
    to eighty. *)
Fixpoint expand (n : nat) (ws : list Z) : list Z :=
  match n with
  | O => ws
  | S n' =>
      let w := rotl 1 (Z.lxor (Z.lxor (nth 2 ws 0) (nth 7 ws 0))
                              (Z.lxor (nth 13 ws 0) (nth 15 ws 0))) in
      expand n' (w :: ws)
  end.

Definition schedule (block : list Z) : list Z := rev (expand 64 (rev block)).

Definition state : Type := Z * Z * Z * Z * Z.

Definition round (s : state) (tw : nat * Z) : state :=
  let '(a, b, c, d, e) := s in
  let '(t, w) := tw in
  let '(f, k) :=
    if (t <? 20)%nat then
      (Z.lor (Z.land b c) (Z.land (not32 b) d), 0x5A827999)
    else if (t <? 40)%nat then
      (Z.lxor (Z.lxor b c) d, 0x6ED9EBA1)
    else if (t <? 60)%nat then
      (Z.lor (Z.lor (Z.land b c) (Z.land b d)) (Z.land c d), 0x8F1BBCDC)
    else
      (Z.lxor (Z.lxor b c) d, 0xCA62C1D6) in
  let temp := wrap32 (rotl 5 a + f + e + k + w) in
  (temp, a, rotl 30 b, c, d).

Definition compress (h : state) (block : list Z) : state :=
  let '(h0, h1, h2, h3, h4) := h in
  let '(a, b, c, d, e) :=
    fold_left round (combine (seq 0 80) (schedule block)) h in
  (add32 h0 a, add32 h1 b, add32 h2 c, add32 h3 d, add32 h4 e).

(** One word of input: it joins the pending block, which is compressed into
    the state once it holds sixteen words. *)
Definition absorb (st : state * list Z) (w : Z) : state * list Z :=
  let '(h, pending) := st in
  let pending' := (pending ++ [w])%list in
  if (List.length pending' =? 16)%nat then (compress h pending', [])
  else (h, pending').

Definition init : state :=
  (0x67452301, 0xEFCDAB89, 0x98BADCFE, 0x10325476, 0xC3D2E1F0).

Definition digest_of_state (h : state) : list byte :=
  let '(h0, h1, h2, h3, h4) := h in
  map byte_of_Z
      (be_bytes 4 h0 ++ be_bytes 4 h1 ++ be_bytes 4 h2 ++ be_bytes 4 h3
                ++ be_bytes 4 h4)%list.

Definition sha1 (msg : list byte) : list byte :=
  digest_of_state
    (fst (fold_left absorb (words (pad (map byte_val msg))) (init, []))).

End Sha1.

(** ** [hmac] (RFC 2104) over SHA-1 *)

Module Hmac.

Definition block_size : nat := 64.

Definition xor_byte (pad : Z) (b : byte) : byte :=
  Sha1.byte_of_Z (Z.lxor (Sha1.byte_val b) pad).

(** [hmac.new(key, msg, hashlib.sha1).digest()]. *)
Definition digest (key msg : list byte) : list byte :=
  let key0 :=
    if (block_size <? List.length key)%nat then Sha1.sha1 key else key in
  let key1 := (key0 ++ repeat x00 (block_size - List.length key0))%list in
  let inner := Sha1.sha1 (map (xor_byte 0x36) key1 ++ msg)%list in
  Sha1.sha1 (map (xor_byte 0x5C) key1 ++ inner)%list.

Definition hex_chars : list ascii :=
  list_ascii_of_string "0123456789abcdef".

Definition hex_digit (n : nat) : ascii := nth n hex_chars "0"%char.

Definition hex_of_byte (b : byte) : string :=
  let n := N.to_nat (Byte.to_N b) in
  String (hex_digit (n / 16)) (String (hex_digit (n mod 16)) EmptyString).

Fixpoint hexlify (bs : list byte) : string :=
  match bs with
  | [] => EmptyString
  | b :: rest => hex_of_byte b ++ hexlify rest
  end.

(** [hmac.new(key, msg, hashlib.sha1).hexdigest()]. *)
Definition hexdigest (key msg : list byte) : string :=
  hexlify (digest key msg).

(** [hmac.compare_digest(a, b)] on two [str]: both must be ASCII, otherwise
    [TypeError]; the comparison itself is plain equality (its running time
    is not modelled). *)
Definition compare_digest (a b : string) : result bool :=
  if PyStr.isascii a && PyStr.isascii b then Ok (String.eqb a b)
  else Raise TypeError.

End Hmac.

(** ** [datetime]: the proleptic Gregorian calendar, ISO parsing, conversion
       to UTC and [strftime] *)

Module Datetime.

Definition MINYEAR : Z := 1.
Definition MAXYEAR : Z := 9999.
Definition MAXORDINAL : Z := 3652059.

Definition is_leap (year : Z) : bool :=
  (year mod 4 =? 0) && (negb (year mod 100 =? 0) || (year mod 400 =? 0)).

Definition days_before_year (year : Z) : Z :=
  let y := year - 1 in
  y * 365 + y / 4 - y / 100 + y / 400.

Definition DAYS_IN_MONTH : list Z :=
  [-1; 31; 28; 31; 30; 31; 30; 31; 31; 30; 31; 30; 31].

Definition DAYS_BEFORE_MONTH : list Z :=
  [-1; 0; 31; 59; 90; 120; 151; 181; 212; 243; 273; 304; 334].

Definition item (table : list Z) (i : Z) : Z := nth (Z.to_nat i) table 0.

Definition days_in_month (year month : Z) : Z :=
  if (month =? 2) && is_leap year then 29 else item DAYS_IN_MONTH month.

Definition days_before_month (year month : Z) : Z :=
  item DAYS_BEFORE_MONTH month
  + (if (2 <? month) && is_leap year then 1 else 0).

(** [_ymd2ord]: 1 January of year 1 is day 1. *)
Definition ymd2ord (year month day : Z) : Z :=
  days_before_year year + days_before_month year month + day.

Definition DI400Y : Z := 146097.
Definition DI100Y : Z := 36524.
Definition DI4Y : Z := 1461.

(** The last step of [_ord2ymd]: month and day of the month for the
    zero-based day [n] of a year.  The month is estimated by a shift; the
    estimate is exact or one too large. *)
Definition find_month (n : Z) (leapyear : bool) : Z * Z :=
  let month := Z.shiftr (n + 50) 5 in
  let preceding :=
    item DAYS_BEFORE_MONTH month
    + (if (2 <? month) && leapyear then 1 else 0) in
  if n <? preceding then
    let month := month - 1 in
    let preceding :=
      preceding - (item DAYS_IN_MONTH month
                   + (if (month =? 2) && leapyear then 1 else 0)) in
    (month, n - preceding + 1)
  else (month, n - preceding + 1).

(** [_ord2ymd]. *)
Definition ord2ymd (ordinal : Z) : Z * Z * Z :=
  let n := ordinal - 1 in
  let n400 := n / DI400Y in
  let n := n mod DI400Y in
  let year := n400 * 400 + 1 in
  let n100 := n / DI100Y in
  let n := n mod DI100Y in
  let n4 := n / DI4Y in
  let n := n mod DI4Y in
  let n1 := n / 365 in
  let n := n mod 365 in
  let year := year + n100 * 100 + n4 * 4 + n1 in
  if (n1 =? 4) || (n100 =? 4) then (year - 1, 12, 31)
  else
    let leapyear := (n1 =? 3) && (negb (n4 =? 24) || (n100 =? 3)) in
    let '(month, d) := find_month n leapyear in
    (year, month, d).

(** A [datetime].  [tzinfo] is [None] for a naive value and otherwise the
    UTC offset of its fixed-offset [timezone], in microseconds;
    [timezone.utc] is the offset zero. *)
Record datetime : Type := mkdatetime {
  year : Z;
  month : Z;
  day : Z;
  hour : Z;
  minute : Z;
  second : Z;
  microsecond : Z;
  tzinfo : option Z
}.

Definition utc : option Z := Some 0.

(** The field checks of the [datetime] constructor. *)
Definition check_fields (dt : datetime) : bool :=
  (MINYEAR <=? year dt) && (year dt <=? MAXYEAR)
  && (1 <=? month dt) && (month dt <=? 12)
  && (1 <=? day dt) && (day dt <=? days_in_month (year dt) (month dt))
  && (0 <=? hour dt) && (hour dt <=? 23)
  && (0 <=? minute dt) && (minute dt <=? 59)
  && (0 <=? second dt) && (second dt <=? 59)
  && (0 <=? microsecond dt) && (microsecond dt <=? 999999).

Definition new_datetime (dt : datetime) : result datetime :=
  if check_fields dt then Ok dt else Raise ValueError.

Definition US_PER_SECOND : Z := 1000000.
Definition US_PER_DAY : Z := 86400 * US_PER_SECOND.

(** [timezone(offset)]: the offset must be strictly between -24 and +24
    hours. *)
Definition new_timezone (offset_us : Z) : result Z :=
  if (- US_PER_DAY <? offset_us) && (offset_us <? US_PER_DAY)
  then Ok offset_us else Raise ValueError.

(** *** [datetime.fromisoformat]

    The parser of the interpreter's C implementation (CPython 3.11), which
    reads the UTF-8 encoding of the text as a NUL-terminated buffer.  It
    accepts the extended and the basic calendar date and ISO week dates,
    any single character between date and time, hours alone, minutes and
    seconds with or without colons, a fraction of any length after [.] or
    [,], and an offset [Z] or [+HH[[:]MM[[:]SS[.ffffff]]]].  Its scanning
    also lets through what no grammar lists: one stray character in front
    of the offset sign, any text between a fraction of six digits and the
    sign, and text after a NUL character in some places.  The definitions
    follow the scanning, so that they agree with the interpreter on every
    text, accepted or refused. *)

Definition is_digit (c : ascii) : bool :=
  let n := N_of_ascii c in (N.leb 48 n) && (N.leb n 57).

Definition digit_val (c : ascii) : Z := Z.of_N (N_of_ascii c) - 48.

(** Exactly [n] decimal digits at the head of [s]: their value and the rest
    of [s]. *)
Fixpoint parse_digits (n : nat) (acc : Z) (s : string) : option (Z * string) :=
  match n with
  | O => Some (acc, s)
  | S n' =>
      match s with
      | String c rest =>
          if is_digit c then parse_digits n' (10 * acc + digit_val c) rest
          else None
      | EmptyString => None
      end
  end.

Definition expect (c : ascii) (s : string) : option string :=
  match s with
  | String c' rest => if Ascii.eqb c c' then Some rest else None
  | EmptyString => None
  end.

Definition obind {A B : Type} (o : option A) (k : A -> option B) : option B :=
  match o with
  | Some a => k a
  | None => None
  end.

(** The character at the head of the buffer: [NUL] at its end. *)
Definition head (s : string) : ascii :=
  match s with
  | String c _ => c
  | EmptyString => zero
  end.

(** The character at index [i] of the buffer: [NUL] at its end. *)
Definition byte_at (s : string) (i : nat) : ascii :=
  match String.get i s with
  | Some c => c
  | None => zero
  end.

Fixpoint drop (n : nat) (s : string) : string :=
  match n, s with
  | S n', String _ rest => drop n' rest
  | _, _ => s
  end.

Fixpoint count_digits (s : string) : nat :=
  match s with
  | String c rest => if is_digit c then S (count_digits rest) else O
  | EmptyString => O
  end.

(** [len(dtstr)] of the [str]: the bytes that do not continue a UTF-8
    sequence. *)
Fixpoint code_points (s : string) : nat :=
  match s with
  | EmptyString => O
  | String c rest =>
      if N.eqb (N.land (N_of_ascii c) 192) 128 then code_points rest
      else S (code_points rest)
  end.

(** [_find_isoformat_datetime_separator]: where the date ends, told from
    the characters at 4 and 5 and, for week dates, from what follows. *)
Definition find_isoformat_datetime_separator (dtstr : string) : option nat :=
  let len := String.length dtstr in
  if (len =? 7)%nat then Some 7%nat
  else if Ascii.eqb (byte_at dtstr 4) "-" then
    if Ascii.eqb (byte_at dtstr 5) "W" then
      if (len <? 8)%nat then None
      else if (8 <? len)%nat && Ascii.eqb (byte_at dtstr 8) "-" then
        if (len =? 9)%nat then None
        else if (10 <? len)%nat && is_digit (byte_at dtstr 10) then Some 8%nat
        else Some 10%nat
      else Some 8%nat
    else Some 10%nat
  else if Ascii.eqb (byte_at dtstr 4) "W" then
    let idx := (7 + count_digits (drop 7 dtstr))%nat in
    if (idx <? 9)%nat then Some idx
    else if Nat.even idx then Some 7%nat
    else Some 8%nat
  else Some 8%nat.

(** Monday is 0. *)
Definition weekday (year month day : Z) : Z :=
  (ymd2ord year month day + 6) mod 7.

(** The ordinal of the Monday that starts ISO week 1 of [year]. *)
Definition iso_week1_monday (year : Z) : Z :=
  let first_day := ymd2ord year 1 1 in
  let first_weekday := (first_day + 6) mod 7 in
  let week1_monday := first_day - first_weekday in
  if 3 <? first_weekday then week1_monday + 7 else week1_monday.

(** [iso_to_ymd].  The year 0, which the digits can spell, has no week
    that reaches a valid date. *)
Definition iso_to_ymd (iso_year iso_week iso_day : Z) : option (Z * Z * Z) :=
  if iso_year <? MINYEAR then None
  else if ((iso_week <=? 0) || (53 <=? iso_week))
          && negb ((iso_week =? 53)
                   && ((weekday iso_year 1 1 =? 3)
                       || ((weekday iso_year 1 1 =? 2) && is_leap iso_year)))
  then None
  else if (iso_day <=? 0) || (8 <=? iso_day) then None
  else
    let day_1 := iso_week1_monday iso_year in
    let day_offset := (iso_week - 1) * 7 + iso_day - 1 in
    Some (ord2ymd (day_1 + day_offset)).

(** [parse_isoformat_date]: [YYYY-MM-DD], [YYYYMMDD], [YYYY-Www[-D]] or
    [YYYYWww[D]] at the head of the buffer; [len] is where the date ends. *)
Definition parse_isoformat_date (dtstr : string) (len : nat)
  : option (Z * Z * Z) :=
  obind (parse_digits 4 0 dtstr) (fun '(year, p) =>
  let uses_separator := Ascii.eqb (head p) "-" in
  let p := if uses_separator then drop 1 p else p in
  if Ascii.eqb (head p) "W" then
    obind (parse_digits 2 0 (drop 1 p)) (fun '(iso_week, p) =>
    if (String.length dtstr - String.length p <? len)%nat then
      obind (if uses_separator then expect "-" p else Some p) (fun p =>
      obind (parse_digits 1 0 p) (fun '(iso_day, _) =>
      iso_to_ymd year iso_week iso_day))
    else iso_to_ymd year iso_week 1)
  else
    obind (parse_digits 2 0 p) (fun '(month, p) =>
    obind (if uses_separator then expect "-" p else Some p) (fun p =>
    obind (parse_digits 2 0 p) (fun '(day, _) =>
    Some (year, month, day))))).

(** The fraction of a second: up to six digits are read and scaled to
    microseconds, further digits are skipped.  The last component tells
    whether the character then met is something other than [NUL]; [term]
    is the character that follows the text [p]. *)
Definition parse_fraction (h m s : Z) (p : string) (term : ascii)
  : option (Z * Z * Z * Z * bool) :=
  let to_parse := Nat.min (String.length p) 6 in
  obind (parse_digits to_parse 0 p) (fun '(us, p) =>
  let us := us * 10 ^ Z.of_nat (6 - to_parse) in
  let p := drop (count_digits p) p in
  let next := match p with String c _ => c | EmptyString => term end in
  Some (h, m, s, us, negb (Ascii.eqb next zero))).

(** What the scanner does with the character after a two-digit
    component. *)
Inductive hms_step : Type :=
| Stop (more : bool)
| Component (p : string)
| Fraction (p : string)
| Malformed.

(** [p] is the text after the two digits and [term] the character after
    that text.  The first component decides whether colons separate the
    components. *)
Definition after_component (first has_separator : bool) (p : string)
           (term : ascii) : hms_step * bool :=
  let '(c, rest, at_end) :=
    match p with
    | EmptyString => (term, EmptyString, true)
    | String c EmptyString => (c, EmptyString, true)
    | String c rest => (c, rest, false)
    end in
  let has_separator := if first then Ascii.eqb c ":" else has_separator in
  (if at_end then Stop (negb (Ascii.eqb c zero))
   else if has_separator && Ascii.eqb c ":" then Component rest
   else if Ascii.eqb c "." || Ascii.eqb c "," then Fraction rest
   else if negb has_separator then Component p
   else Malformed,
   has_separator).

(** [parse_hh_mm_ss_ff] on the text [t] followed by the character [term]:
    hour, minute, second, microsecond, and whether text is left. *)
Definition parse_hh_mm_ss_ff (t : string) (term : ascii)
  : option (Z * Z * Z * Z * bool) :=
  obind (parse_digits 2 0 t) (fun '(h, p) =>
  let '(step, has_separator) := after_component true true p term in
  match step with
  | Stop more => Some (h, 0, 0, 0, more)
  | Fraction p => parse_fraction h 0 0 p term
  | Malformed => None
  | Component p =>
    obind (parse_digits 2 0 p) (fun '(m, p) =>
    match fst (after_component false has_separator p term) with
    | Stop more => Some (h, m, 0, 0, more)
    | Fraction p => parse_fraction h m 0 p term
    | Malformed => None
    | Component p =>
      obind (parse_digits 2 0 p) (fun '(s, p) =>
      match fst (after_component false has_separator p term) with
      | Stop more => Some (h, m, s, 0, more)
      | Fraction p | Component p => parse_fraction h m s p term
      | Malformed => None
      end)
    end)
  end).

Definition is_tz_start (c : ascii) : bool :=
  Ascii.eqb c "Z" || Ascii.eqb c "+" || Ascii.eqb c "-".

(** The time text up to the first [Z], [+] or [-], and the text from that
    character on. *)
Fixpoint split_tz (s : string) : string * string :=
  match s with
  | EmptyString => (EmptyString, EmptyString)
  | String c rest =>
      if is_tz_start c then (EmptyString, s)
      else let '(t, tz) := split_tz rest in (String c t, tz)
  end.

Definition offset_us (sign h m s us : Z) : Z :=
  sign * (((h * 60 + m) * 60 + s) * US_PER_SECOND + us).

(** The [tzinfo] for the offset read: [timezone.utc] when its whole seconds
    are zero, whatever its fraction. *)
Definition parse_tz (sign : Z) (tzstr : string) : result Z :=
  match parse_hh_mm_ss_ff tzstr zero with
  | None => Raise ValueError
  | Some (_, _, _, _, true) => Raise ValueError
  | Some (h, m, s, us, false) =>
      if (h * 60 + m) * 60 + s =? 0 then Ok 0
      else new_timezone (offset_us sign h m s us)
  end.

(** [parse_isoformat_time] with the making of the [tzinfo]. *)
Definition parse_isoformat_time (tstr : string)
  : result (Z * Z * Z * Z * option Z) :=
  let '(timestr, tz) := split_tz tstr in
  match parse_hh_mm_ss_ff timestr (head tz) with
  | None => Raise ValueError
  | Some (h, m, s, us, more) =>
      match tz with
      | EmptyString =>
          if more then Raise ValueError else Ok (h, m, s, us, None)
      | String c tzstr =>
          if Ascii.eqb c "Z" then
            if Ascii.eqb (head tzstr) zero then Ok (h, m, s, us, Some 0)
            else Raise ValueError
          else
            tzi <- parse_tz (if Ascii.eqb c "-" then -1 else 1) tzstr ;;
            Ok (h, m, s, us, Some tzi)
      end
  end.

(** The separator between date and time is one character, that is one
    UTF-8 sequence: its length is read off the lead byte. *)
Definition skip_char (s : string) : string :=
  match s with
  | EmptyString => EmptyString
  | String c _ =>
      let n := N_of_ascii c in
      if N.ltb n 128 then drop 1 s
      else if N.eqb (N.land n 240) 224 then drop 3 s
      else if N.eqb (N.land n 240) 240 then drop 4 s
      else drop 2 s
  end.

Definition fromisoformat (date_string : string) : result datetime :=
  if (code_points date_string <? 7)%nat then Raise ValueError
  else
    match find_isoformat_datetime_separator date_string with
    | None => Raise ValueError
    | Some sep =>
        match parse_isoformat_date date_string sep with
        | None => Raise ValueError
        | Some (y, m, d) =>
            if (sep <? String.length date_string)%nat then
              '(hh, mm, ss, us, tzi) <-
                parse_isoformat_time (skip_char (drop sep date_string)) ;;
              new_datetime (mkdatetime y m d hh mm ss us tzi)
            else new_datetime (mkdatetime y m d 0 0 0 0 None)
        end
    end.

(** *** Arithmetic *)

Definition toordinal (dt : datetime) : Z :=
  ymd2ord (year dt) (month dt) (day dt).

(** Microseconds from the start of day 0 to [dt], on [dt]'s own clock. *)
Definition to_micro (dt : datetime) : Z :=
  (((toordinal dt * 24 + hour dt) * 60 + minute dt) * 60 + second dt)
  * US_PER_SECOND + microsecond dt.

(** [dt + timedelta(microseconds=delta)]; the [tzinfo] is kept. *)
Definition add_timedelta (dt : datetime) (delta : Z) : result datetime :=
  let total := to_micro dt + delta in
  let days := total / US_PER_DAY in
  let seconds := (total mod US_PER_DAY) / US_PER_SECOND in
  let us := total mod US_PER_SECOND in
  let hh := seconds / 3600 in
  let rem := seconds mod 3600 in
  let mm := rem / 60 in
  let ss := rem mod 60 in
  if (0 <? days) && (days <=? MAXORDINAL) then
    let '(y, m, d) := ord2ymd days in
    Ok (mkdatetime y m d hh mm ss us (tzinfo dt))
  else Raise OverflowError.

(** [dt.replace(tzinfo=tz)]. *)
Definition replace_tzinfo (dt : datetime) (tz : option Z) : datetime :=
  mkdatetime (year dt) (month dt) (day dt) (hour dt) (minute dt)
             (second dt) (microsecond dt) tz.

(** [utc = (self - myoffset).replace(tzinfo=tz)] followed by
    [tz.fromutc(utc)], which for [timezone.utc] adds its zero offset. *)
Definition shift_to_utc (dt : datetime) (myoffset : Z) : result datetime :=
  u <- add_timedelta dt (- myoffset) ;;
  add_timedelta (replace_tzinfo u utc) 0.

(** What the host contributes: the offset east of UTC, in seconds, that
    its [localtime] reports at a POSIX time ([tm_gmtoff]; [time_t] has 64
    bits), and whether its [strftime] pads [%Y] to four digits (the C
    library of Linux prints years below 1000 unpadded). *)
Record platform : Type := mkplatform {
  tm_gmtoff : Z -> Z;
  pads_year : bool
}.

Definition MONTHNAMES : list string :=
  [EmptyString; "January"; "February"; "March"; "April"; "May"; "June"; "July";
   "August"; "September"; "October"; "November"; "December"].

Definition month_name (m : Z) : string := nth (Z.to_nat m) MONTHNAMES EmptyString.

Definition hour12 (h : Z) : Z :=
  let r := h mod 12 in if r =? 0 then 12 else r.

Section Host.

Variable host : platform.

(** Seconds from the start of day 0 to 1 January 1970. *)
Definition EPOCH : Z := 719163 * 86400.

(** Seconds from the start of day 0 to [dt], on [dt]'s own clock. *)
Definition to_seconds (dt : datetime) : Z :=
  ((toordinal dt * 24 + hour dt) * 60 + minute dt) * 60 + second dt.

(** [local(u)]: the local wall clock, in seconds from the start of day 0,
    at [u] seconds of UTC.  The wall clock is put together from the fields
    of [localtime], which is refused for a year outside 1 to 9999. *)
Definition local (u : Z) : result Z :=
  let lt := u + tm_gmtoff host (u - EPOCH) in
  if (86400 <=? lt) && (lt <? (MAXORDINAL + 1) * 86400) then Ok lt
  else Raise ValueError.

Definition max_fold_seconds : Z := 24 * 3600.

(** [local_to_seconds] for [fold=0]: the UTC second whose local wall clock
    reads [dt]; the earlier one when two do, and the later of the two
    guesses when none does. *)
Definition local_to_seconds (dt : datetime) : result Z :=
  let t := to_seconds dt in
  lt <- local t ;;
  let a := lt - t in
  let u1 := t - a in
  t1 <- local u1 ;;
  b <- (if t1 =? t
        then lt <- local (u1 - max_fold_seconds) ;;
             Ok (lt - (u1 - max_fold_seconds))
        else Ok (t1 - u1)) ;;
  if (t1 =? t) && (a =? b) then Ok u1
  else
    let u2 := t - b in
    t2 <- local u2 ;;
    if t2 =? t then Ok u2
    else if t1 =? t then Ok u1
    else Ok (Z.max u1 u2).

(** [local_timezone_from_local]: the fixed-offset [timezone] of the local
    zone at the naive [dt], as its offset in microseconds. *)
Definition local_timezone_from_local (dt : datetime) : result Z :=
  seconds <- local_to_seconds dt ;;
  new_timezone (tm_gmtoff host (seconds - EPOCH) * US_PER_SECOND).

(** The offset of that zone in seconds; a whole day, which no [timezone]
    has, when [local_to_seconds] finds none. *)
Definition local_utcoffset (dt : datetime) : Z :=
  match local_to_seconds dt with
  | Ok seconds => tm_gmtoff host (seconds - EPOCH)
  | Raise _ => 86400
  end.

(** [dt.astimezone(timezone.utc)]. *)
Definition astimezone_utc (dt : datetime) : result datetime :=
  myoffset <-
    match tzinfo dt with
    | None => local_timezone_from_local dt
    | Some off => Ok off
    end ;;
  match tzinfo dt with
  | Some 0 => Ok dt                            (* tz is mytz *)
  | _ => shift_to_utc dt myoffset
  end.

(** *** [strftime] in the C locale *)

Definition directive (dt : datetime) (d : ascii) : string :=
  if Ascii.eqb d "B" then month_name (month dt)
  else if Ascii.eqb d "Y" then
    (if pads_year host then PyStr.pad0 4 (year dt)
     else PyStr.str_of_nonneg (year dt))
  else if Ascii.eqb d "m" then PyStr.pad0 2 (month dt)
  else if Ascii.eqb d "d" then PyStr.pad0 2 (day dt)
  else if Ascii.eqb d "H" then PyStr.pad0 2 (hour dt)
  else if Ascii.eqb d "I" then PyStr.pad0 2 (hour12 (hour dt))
  else if Ascii.eqb d "M" then PyStr.pad0 2 (minute dt)
  else if Ascii.eqb d "S" then PyStr.pad0 2 (second dt)
  else if Ascii.eqb d "p" then (if hour dt <? 12 then "AM" else "PM")
  else if Ascii.eqb d "%" then "%"
  else String "%" (String d EmptyString).

Fixpoint strftime (dt : datetime) (format : string) : string :=
  match format with
  | EmptyString => EmptyString
  | String c rest =>
      if Ascii.eqb c "%" then
        match rest with
        | String d rest' => (directive dt d ++ strftime dt rest')%string
        | EmptyString => "%"
        end
      else String c (strftime dt rest)
  end.

End Host.

End Datetime.

(** ** JSON values as Python objects *)

Module Json.

(** A Python [float], kept only as far as the source can observe it (its
    truth value). *)
Inductive pyfloat : Type :=
| FNan
| FInf (negative : bool)
| FFinite (negative : bool) (mantissa : N) (exponent : Z).

(** The result of [json.loads]: [None], [bool], [int], [float], [str],
    [list] and [dict] with [str] keys. *)
#[local] Set Warnings "-register-all".
Inductive json : Type :=
| JNull
| JBool (b : bool)
| JInt (n : Z)
| JFloat (f : pyfloat)
| JStr (s : string)
| JArr (items : list json)
| JObj (fields : list (string * json)).

Fixpoint lookup (fields : list (string * json)) (key : string) : option json :=
  match fields with
  | [] => None
  | (k, v) :: rest => if String.eqb k key then Some v else lookup rest key
  end.

(** [v[key]] for a [str] key: [KeyError] on a [dict] without the key,
    [TypeError] on anything that is not a [dict]. *)
Definition getitem (v : json) (key : string) : result json :=
  match v with
  | JObj fields =>
      match lookup fields key with
      | Some x => Ok x
      | None => Raise KeyError
      end
  | _ => Raise TypeError
  end.

(** [v.get(key, default)]: only a [dict] has the method. *)
Definition get (v : json) (key : string) (default : json) : result json :=
  match v with
  | JObj fields =>
      match lookup fields key with
      | Some x => Ok x
      | None => Ok default
      end
  | _ => Raise AttributeError
  end.

(** [v.split(sep)]: only a [str] has the method. *)
Definition split (v : json) (sep : ascii) : result (list string) :=
  match v with
  | JStr s => Ok (PyStr.split s sep)
  | _ => Raise AttributeError
  end.

(** [v == s] for a [str] literal [s]. *)
Definition eq_str (v : json) (s : string) : bool :=
  match v with
  | JStr s' => String.eqb s' s
  | _ => false
  end.

(** Truth value. *)
Definition truthy (v : json) : bool :=
  match v with
  | JNull => false
  | JBool b => b
  | JInt n => negb (n =? 0)
  | JFloat (FFinite _ 0%N _) => false
  | JFloat _ => true
  | JStr s => PyStr.truthy s
  | JArr items => match items with [] => false | _ => true end
  | JObj fields => match fields with [] => false | _ => true end
  end.

End Json.

(** ** The application: [app.py] *)

Import Json.

(** [d.get(key, default)] on a [dict] with [int] keys, written as the
    sequence of its items. *)
Fixpoint dict_get (d : list (Z * string)) (key : Z) (default : string)
  : string :=
  match d with
  | [] => default
  | (k, v) :: rest => if k =? key then v else dict_get rest key default
  end.

(** [os.getenv(name, default)] over the process environment. *)
Definition getenv (environ : string -> option string) (name default : string)
  : string :=
  match environ name with
  | Some v => v
  | None => default
  end.

(** [SECRET_TOKEN = os.getenv("SECRET_TOKEN", default)] with the empty
    string as default. *)
Definition SECRET_TOKEN_of (environ : string -> option string) : string :=
  getenv environ "SECRET_TOKEN" EmptyString.

(** An inbound HTTP request as the handler reads it: the raw body, the two
    headers ([None] when absent) and the result of
    [request.get_json(silent=True)] ([None] when the body is not JSON). *)
Record request : Type := mkrequest {
  data : list byte;
  X_Hub_Signature : option string;
  X_GitHub_Event : option string;
  get_json : option json
}.

(** What a view returns: [jsonify({"status": s}), code], or the error page
    of [abort(code, description)]. *)
Inductive response : Type :=
| jsonify_status (status : string) (code : Z)
| abort (code : Z) (description : string).

(** A document of the events collection. *)
Record doc : Type := mkdoc {
  inserted_at : Z;
  formatted : string
}.

(** [collection.insert_one(doc)]: the collection is the sequence of its
    documents in insertion order. *)
Definition insert_one (collection : list doc) (d : doc) : list doc :=
  (collection ++ [d])%list.

(** Control leaving a block of the handler: fall through with a value,
    [return] a response, or an exception nobody caught. *)
Inductive flow (A : Type) : Type :=
| Next (a : A)
| Return (r : response)
| Throw (e : exn).

Arguments Next {A} a.
Arguments Return {A} r.
Arguments Throw {A} e.

Section App.

(** The configured shared secret. *)
Variable SECRET_TOKEN : string.

(** The host the process runs on. *)
Variable host : Datetime.platform.

(** [str(v)] of a JSON value that is not a [str], as an f-string field
    renders it. *)
Variable str_of : json -> string.

(** [verify_signature(payload_bytes, signature_header)]. *)
Definition verify_signature (payload_bytes : list byte)
           (signature_header : option string) : result bool :=
  match signature_header with
  | None => Ok true
  | Some header =>
      if negb (PyStr.truthy SECRET_TOKEN) || negb (PyStr.truthy header)
      then Ok true
      else
        match PyStr.unpack2 (PyStr.split header "=") with
        | Raise ValueError => Ok false
        | Raise e => Raise e
        | Ok (sha_name, signature) =>
            if negb (String.eqb sha_name "sha1") then Ok false
            else
              Hmac.compare_digest
                (Hmac.hexdigest (PyStr.encode SECRET_TOKEN) payload_bytes)
                signature
        end
  end.

(** The ordinal suffix of a day of the month (step 4 of
    [format_timestamp]). *)
Definition suffix (day : Z) : string :=
  if (11 <=? day) && (day <=? 13) then "th"
  else dict_get [(1, "st"); (2, "nd"); (3, "rd")] (day mod 10) "th".

(** Step 1 of [format_timestamp]: a trailing [Z] is rewritten for
    [fromisoformat]. *)
Definition ts_fixed (iso_ts : string) : string :=
  if PyStr.endswith iso_ts "Z" then PyStr.replace iso_ts "Z" "+00:00"
  else iso_ts.

(** [format_timestamp(iso_ts)]. *)
Definition format_timestamp (iso_ts : string) : result string :=
  dt <- Datetime.fromisoformat (ts_fixed iso_ts) ;;
  dt_utc <- Datetime.astimezone_utc host dt ;;
  let day := Datetime.day dt_utc in
  let rest := Datetime.strftime host dt_utc "%B %Y - %I:%M %p UTC" in
  Ok (PyStr.str_of_nonneg day ++ suffix day ++ " " ++ rest)%string.

(** [format_timestamp(ts)] called with whatever the payload held: a value
    that is not a [str] has no [endswith]. *)
Definition call_format_timestamp (ts : json) : result string :=
  match ts with
  | JStr iso_ts => format_timestamp iso_ts
  | _ => Raise AttributeError
  end.

(** A replacement field [{v}] of an f-string. *)
Definition fmt (v : json) : string :=
  match v with
  | JStr s => s
  | _ => str_of v
  end.

Definition quote : string := String (ascii_of_N 34) EmptyString.

Definition set_formatted (d : doc) (s : string) : doc :=
  mkdoc (inserted_at d) s.

(** The [push] branch of [handle_webhook]. *)
Definition handle_push (payload : json) (d : doc) : flow doc :=
  match
    (pusher <- getitem payload "pusher" ;;
     author <- getitem pusher "name" ;;
     ref <- getitem payload "ref" ;;
     pieces <- Json.split ref "/" ;;
     let to_branch := PyStr.last_item pieces in
     head_commit <- getitem payload "head_commit" ;;
     ts <- getitem head_commit "timestamp" ;;
     Ok (author, to_branch, ts))
  with
  | Raise KeyError => Return (jsonify_status "ignored-key-error" 200)
  | Raise e => Throw e
  | Ok (author, to_branch, ts) =>
      match
        (when <- call_format_timestamp ts ;;
         Ok (quote ++ fmt author ++ quote ++ " pushed to " ++ quote
                   ++ to_branch ++ quote ++ " on " ++ when)%string)
      with
      | Ok formatted_string => Next (set_formatted d formatted_string)
      | Raise _ => Return (jsonify_status "error-formatting" 200)
      end
  end.

(** The four lookups shared by the two pull-request branches; [stamp] is
    [created_at] or [merged_at]. *)
Definition pull_request_fields (pr : json) (stamp : string)
  : result (json * json * json * json) :=
  user <- getitem pr "user" ;;
  author <- getitem user "login" ;;
  head <- getitem pr "head" ;;
  from_branch <- getitem head "ref" ;;
  base <- getitem pr "base" ;;
  to_branch <- getitem base "ref" ;;
  ts <- getitem pr stamp ;;
  Ok (author, from_branch, to_branch, ts).

Definition opened_text (author from_branch to_branch : json) (when : string)
  : string :=
  (quote ++ fmt author ++ quote ++ " submitted a pull request from " ++ quote
         ++ fmt from_branch ++ quote ++ " to " ++ quote ++ fmt to_branch
         ++ quote ++ " on " ++ when)%string.

Definition merged_text (author from_branch to_branch : json) (when : string)
  : string :=
  (quote ++ fmt author ++ quote ++ " merged branch " ++ quote
         ++ fmt from_branch ++ quote ++ " to " ++ quote ++ fmt to_branch
         ++ quote ++ " on " ++ when)%string.

(** One pull-request branch: the guarded lookups, then the guarded
    formatting. *)
Definition pull_request_branch (pr : json) (stamp : string)
           (text : json -> json -> json -> string -> string) (d : doc)
  : flow doc :=
  match pull_request_fields pr stamp with
  | Raise KeyError => Return (jsonify_status "ignored-key-error" 200)
  | Raise e => Throw e
  | Ok (author, from_branch, to_branch, ts) =>
      match
        (when <- call_format_timestamp ts ;;
         Ok (text author from_branch to_branch when))
      with
      | Ok formatted_string => Next (set_formatted d formatted_string)
      | Raise _ => Return (jsonify_status "error-formatting" 200)
      end
  end.

(** The [pull_request] branch of [handle_webhook]. *)
Definition handle_pull_request (payload : json) (d : doc) : flow doc :=
  match
    (action <- get payload "action" (JStr EmptyString) ;;
     pr <- get payload "pull_request" (JObj []) ;;
     Ok (action, pr))
  with
  | Raise e => Throw e
  | Ok (action, pr) =>
      if eq_str action "opened" then
        pull_request_branch pr "created_at" opened_text d
      else
        match
          (if eq_str action "closed"
           then merged <- get pr "merged" (JBool false) ;; Ok (truthy merged)
           else Ok false)
        with
        | Raise e => Throw e
        | Ok true => pull_request_branch pr "merged_at" merged_text d
        | Ok false => Return (jsonify_status "ignored-pull-action" 200)
        end
  end.

(** [handle_webhook()]: the response (or the exception that escapes the
    view) and the collection afterwards.  [utcnow] is the clock reading
    taken for [inserted_at]. *)
Definition handle_webhook (utcnow : Z) (req : request)
           (collection : list doc) : result response * list doc :=
  let signature := X_Hub_Signature req in
  match verify_signature (data req) signature with
  | Raise e => (Raise e, collection)
  | Ok false => (Ok (abort 403 "Invalid signature"), collection)
  | Ok true =>
      let event_type :=
        match X_GitHub_Event req with Some e => e | None => EmptyString end in
      match get_json req with
      | None | Some JNull =>
          (Ok (jsonify_status "no-json-payload" 400), collection)
      | Some payload =>
          let d := mkdoc utcnow EmptyString in
          let outcome :=
            if String.eqb event_type "push" then handle_push payload d
            else if String.eqb event_type "pull_request"
                 then handle_pull_request payload d
                 else Return (jsonify_status "ignored-event" 200) in
          match outcome with
          | Next d' =>
              (Ok (jsonify_status "stored" 201), insert_one collection d')
          | Return r => (Ok r, collection)
          | Throw e => (Raise e, collection)
          end
      end
  end.

End App.


(** ** The read path: [get_events] *)

(** One step of [cursor.sort("inserted_at", -1)]: a document put into a
    sequence already in descending order of [inserted_at]. *)
Fixpoint insert_desc (d : doc) (sorted : list doc) : list doc :=
  match sorted with
  | [] => [d]
  | x :: rest =>
      if inserted_at x <=? inserted_at d then d :: x :: rest
      else x :: insert_desc d rest
  end.

(** [collection.find().sort("inserted_at", -1)]: the documents in descending
    order of [inserted_at].  Documents with equal [inserted_at] keep their
    insertion order; the server promises no order among them, and no
    property below depends on it. *)
Definition find_sorted_desc (collection : list doc) : list doc :=
  fold_right insert_desc [] collection.

(** [get_events()]: the [formatted] field of the fifty documents with the
    latest [inserted_at], latest first, and the status code. *)
Definition get_events (collection : list doc) : list string * Z :=
  let docs := firstn 50 (find_sorted_desc collection) in
  let results := map formatted docs in
  (results, 200).
(** * Specification vocabulary

    The notions the properties are stated with, defined without reference to
    the functions of the application. *)

(** Number of occurrences of a character in a text. *)
Fixpoint occurrences (c : ascii) (s : string) : nat :=
  match s with
  | EmptyString => O
  | String c' rest =>
      if Ascii.eqb c' c then S (occurrences c rest) else occurrences c rest
  end.

(** Hexadecimal digits, either case. *)
Definition is_hex_char (c : ascii) : bool :=
  let n := N_of_ascii c in
  ((N.leb 48 n) && (N.leb n 57))
  || ((N.leb 97 n) && (N.leb n 102))
  || ((N.leb 65 n) && (N.leb n 70)).

Fixpoint is_hex (s : string) : bool :=
  match s with
  | EmptyString => true
  | String c rest => is_hex_char c && is_hex rest
  end.

(** The header GitHub sends for a digest text. *)
Definition sha1_header (digest : string) : string := ("sha1=" ++ digest)%string.

(** Bit [i] of a byte sequence flipped (bit 0 is the least significant bit of
    the first byte). *)
Fixpoint flip_bit (i : nat) (bs : list byte) : list byte :=
  match bs with
  | [] => []
  | b :: rest =>
      if (i <? 8)%nat
      then Sha1.byte_of_Z (Z.lxor (Sha1.byte_val b) (Z.shiftl 1 (Z.of_nat i)))
             :: rest
      else b :: flip_bit (i - 8) rest
  end.

(** The value of a hexadecimal digit, and the byte two of them denote. *)
Definition hex_val (c : ascii) : N :=
  let n := N_of_ascii c in
  if N.leb 97 n then (n - 87)%N else (n - 48)%N.

Definition byte_of_hex (s : string) : option byte :=
  match s with
  | String hi (String lo EmptyString) =>
      Byte.of_N (16 * hex_val hi + hex_val lo)
  | _ => None
  end.

(** The ordinal suffix of a day of the month, as the specification words it:
    11 to 13 take [th]; otherwise the last digit decides. *)
Definition ordinal_suffix (d : Z) : string :=
  if (11 <=? d) && (d <=? 13) then "th"
  else
    match d mod 10 with
    | 1 => "st"
    | 2 => "nd"
    | 3 => "rd"
    | _ => "th"
    end.

Definition full_month_name (m : Z) : string :=
  match m with
  | 1 => "January" | 2 => "February" | 3 => "March" | 4 => "April"
  | 5 => "May" | 6 => "June" | 7 => "July" | 8 => "August"
  | 9 => "September" | 10 => "October" | 11 => "November" | 12 => "December"
  | _ => EmptyString
  end.

(** The hour of a 12-hour clock and its half of the day. *)
Definition clock12 (h : Z) : Z :=
  if h =? 0 then 12 else if h <=? 12 then h else h - 12.

Definition meridiem (h : Z) : string := if h <? 12 then "AM" else "PM".

Definition decimal_digit (n : Z) : ascii := ascii_of_N (Z.to_N (48 + n)).

(** A number below 100 written with exactly two digits. *)
Definition two_digits (n : Z) : string :=
  String (decimal_digit (n / 10))
         (String (decimal_digit (n mod 10)) EmptyString).

(** The year as the host prints it. *)
Definition year_text (host : Datetime.platform) (y : Z) : string :=
  if Datetime.pads_year host then PyStr.pad0 4 y else PyStr.str_of_nonneg y.

(** [{day}{ordinalSuffix} {FullMonthName} {Year} - {hh}:{mm} {AM|PM} UTC]. *)
Definition rendered (host : Datetime.platform) (u : Datetime.datetime)
  : string :=
  (PyStr.str_of_nonneg (Datetime.day u) ++ ordinal_suffix (Datetime.day u)
   ++ " " ++ full_month_name (Datetime.month u)
   ++ " " ++ year_text host (Datetime.year u)
   ++ " - " ++ two_digits (clock12 (Datetime.hour u))
   ++ ":" ++ two_digits (Datetime.minute u)
   ++ " " ++ meridiem (Datetime.hour u) ++ " UTC")%string.

(** Two datetimes reading the same on calendar and clock. *)
Definition same_clock (u v : Datetime.datetime) : Prop :=
  (Datetime.year u, Datetime.month u, Datetime.day u)
  = (Datetime.year v, Datetime.month v, Datetime.day v)
  /\ (Datetime.hour u, Datetime.minute u, Datetime.second u,
      Datetime.microsecond u)
     = (Datetime.hour v, Datetime.minute v, Datetime.second v,
        Datetime.microsecond v).

(** The UTC offset in force for a parsed timestamp, in microseconds: its own
    when it carries one, the host's local one when it is naive. *)
Definition utcoffset_us (host : Datetime.platform) (dt : Datetime.datetime)
  : Z :=
  match Datetime.tzinfo dt with
  | Some off => off
  | None => Datetime.local_utcoffset host dt * Datetime.US_PER_SECOND
  end.

(** The value found by following a path of keys through objects: the
    option-returning accessor of the specification. *)
Fixpoint at_path (v : json) (path : list string) : option json :=
  match path with
  | [] => Some v
  | key :: rest =>
      match v with
      | JObj fields =>
          match Json.lookup fields key with
          | Some x => at_path x rest
          | None => None
          end
      | _ => None
      end
  end.

(** A path that ends at an absent key: every value met on the way is an
    object, and one of them lacks the next key. *)
Fixpoint key_absent (v : json) (path : list string) : bool :=
  match path with
  | [] => false
  | key :: rest =>
      match v with
      | JObj fields =>
          match Json.lookup fields key with
          | Some x => key_absent x rest
          | None => true
          end
      | _ => false
      end
  end.

(** The text after the last [/] of a ref. *)
Fixpoint last_segment (s : string) : string :=
  match s with
  | EmptyString => EmptyString
  | String c rest =>
      if (0 <? occurrences "/" rest)%nat then last_segment rest
      else if Ascii.eqb c "/" then rest
      else s
  end.


(** The three sentences of the specification, for the texts of their
    fields and a normalised timestamp. *)
Definition pushed_sentence (author branch when : string) : string :=
  (quote ++ author ++ quote ++ " pushed to " ++ quote ++ branch ++ quote
         ++ " on " ++ when)%string.

Definition submitted_sentence (author from_branch to_branch when : string)
  : string :=
  (quote ++ author ++ quote ++ " submitted a pull request from " ++ quote
         ++ from_branch ++ quote ++ " to " ++ quote ++ to_branch ++ quote
         ++ " on " ++ when)%string.

Definition merged_sentence (author from_branch to_branch when : string)
  : string :=
  (quote ++ author ++ quote ++ " merged branch " ++ quote ++ from_branch
         ++ quote ++ " to " ++ quote ++ to_branch ++ quote ++ " on " ++ when)%string.

Inductive event_sentence (when : string) : string -> Prop :=
| sentence_pushed (author branch : string) :
    event_sentence when (pushed_sentence author branch when)
| sentence_submitted (author from_branch to_branch : string) :
    event_sentence when (submitted_sentence author from_branch to_branch when)
| sentence_merged (author from_branch to_branch : string) :
    event_sentence when (merged_sentence author from_branch to_branch when).

(** What the handler has read from a delivery when it stores: the event
    type, the fields of the payload, the timestamp field [ts] among them,
    and the sentence built from them and the normalised timestamp [when]. *)
Definition classified (str_of : json -> string) (event : option string)
           (payload : json) (ts when sentence : string) : Prop :=
  (event = Some "push"
   /\ exists (author : json) (ref : string),
        at_path payload ["pusher"; "name"] = Some author
        /\ at_path payload ["ref"] = Some (JStr ref)
        /\ at_path payload ["head_commit"; "timestamp"] = Some (JStr ts)
        /\ sentence
           = pushed_sentence (fmt str_of author) (last_segment ref) when)
  \/ (event = Some "pull_request"
      /\ exists (fields : list (string * json))
                (pr author from_branch to_branch : json),
           payload = JObj fields
           /\ Json.lookup fields "pull_request" = Some pr
           /\ at_path pr ["user"; "login"] = Some author
           /\ at_path pr ["head"; "ref"] = Some from_branch
           /\ at_path pr ["base"; "ref"] = Some to_branch
           /\ ((Json.lookup fields "action" = Some (JStr "opened")
                /\ at_path pr ["created_at"] = Some (JStr ts)
                /\ sentence
                   = submitted_sentence (fmt str_of author)
                                        (fmt str_of from_branch)
                                        (fmt str_of to_branch) when)
               \/ (Json.lookup fields "action" = Some (JStr "closed")
                   /\ (exists m : json,
                          at_path pr ["merged"] = Some m
                          /\ truthy m = true)
                   /\ at_path pr ["merged_at"] = Some (JStr ts)
                   /\ sentence
                      = merged_sentence (fmt str_of author)
                                        (fmt str_of from_branch)
                                        (fmt str_of to_branch) when))).

(** A pull-request payload that is closed without being merged: the pull
    request is absent, or an object whose [merged] is absent or false in
    Python's sense. *)
Definition closed_unmerged (fields : list (string * json)) : Prop :=
  Json.lookup fields "action" = Some (JStr "closed")
  /\ (Json.lookup fields "pull_request" = None
      \/ exists pr,
           Json.lookup fields "pull_request" = Some (JObj pr)
           /\ (Json.lookup pr "merged" = None
               \/ exists m, Json.lookup pr "merged" = Some m
                            /\ truthy m = false)).

(** A delivery with no signature header. *)
Definition unsigned_delivery (event : string) (payload : json) : request :=
  mkrequest [] None (Some event) (Some payload).

(** A rendering of non-string field values for the examples. *)
Definition plain_str_of (v : json) : string := "?".

(** The check that [find_month] places the zero-based day [n] of a year in a
    month of the calendar, on the right day. *)
Definition month_ok (leapyear : bool) (n : Z) : bool :=
  let '(m, d) := Datetime.find_month n leapyear in
  (1 <=? m) && (m <=? 12) && (1 <=? d)
  && (d <=? (if (m =? 2) && leapyear then 29
             else Datetime.item Datetime.DAYS_IN_MONTH m))
  && (Datetime.item Datetime.DAYS_BEFORE_MONTH m
      + (if (2 <? m) && leapyear then 1 else 0) + d
      =? n + 1).

(** ** Example data *)

(** A Linux host on UTC, and one on a fixed +05:30. *)
Definition utc_host : Datetime.platform :=
  Datetime.mkplatform (fun _ => 0) false.

Definition ist_host : Datetime.platform :=
  Datetime.mkplatform (fun _ => 19800) false.

(** Payloads of the examples. *)
Definition alice_push : json :=
  JObj [("pusher", JObj [("name", JStr "alice")]);
        ("ref", JStr "refs/heads/main");
        ("head_commit", JObj [("timestamp", JStr "2021-04-01T21:30:00Z")])].

Definition push_numeric_ref : json :=
  JObj [("pusher", JObj [("name", JStr "alice")]);
        ("ref", JInt 5);
        ("head_commit", JObj [("timestamp", JStr "2021-04-01T21:30:00Z")])].


Definition push_string_pusher : json :=
  JObj [("pusher", JStr "alice");
        ("ref", JStr "refs/heads/main");
        ("head_commit", JObj [("timestamp", JStr "2021-04-01T21:30:00Z")])].

Definition bob_pull_request (action : string) (merged : json) : json :=
  JObj [("action", JStr action);
        ("pull_request",
         JObj [("merged", merged);
               ("user", JObj [("login", JStr "bob")]);
               ("head", JObj [("ref", JStr "feature")]);
               ("base", JObj [("ref", JStr "main")]);
               ("created_at", JStr "2021-04-01T09:00:00Z");
               ("merged_at", JStr "2021-04-02T12:00:00Z")])].

(** The fields of an object. *)
Definition fields_of (v : json) : list (string * json) :=
  match v with
  | JObj fields => fields
  | _ => []
  end.


(** ** Vocabulary of the further properties *)

(** Non-increasing order of [inserted_at]. *)
Definition newer_or_equal (a b : doc) : Prop := inserted_at b <= inserted_at a.

(** A pull-request object lacking a required field in the way the handler
    tolerates: the first of [user.login], [head.ref], [base.ref] and the
    timestamp field that cannot be read ends at an absent key. *)
Definition pull_request_key_missing (pr : json) (stamp : string) : Prop :=
  key_absent pr ["user"; "login"] = true
  \/ (at_path pr ["user"; "login"] <> None
      /\ key_absent pr ["head"; "ref"] = true)
  \/ (at_path pr ["user"; "login"] <> None
      /\ at_path pr ["head"; "ref"] <> None
      /\ key_absent pr ["base"; "ref"] = true)
  \/ (at_path pr ["user"; "login"] <> None
      /\ at_path pr ["head"; "ref"] <> None
      /\ at_path pr ["base"; "ref"] <> None
      /\ key_absent pr [stamp] = true).

(** A timestamp value the formatting step fails on: not a string, or a
    string [format_timestamp] raises on. *)
Definition unformattable (host : Datetime.platform) (ts : json) : Prop :=
  forall iso_ts : string,
    ts = JStr iso_ts -> exists e : exn, format_timestamp host iso_ts = Raise e.

(** The UTC date of an instant, counted in microseconds, is one [datetime]
    supports. *)
Definition supported_instant (micro : Z) : Prop :=
  0 < micro / Datetime.US_PER_DAY <= Datetime.MAXORDINAL.

Definition US_PER_MINUTE : Z := 60000000.
(** * Properties of the runtime model *)

Section SplitFacts.

Variable sep : ascii.

Lemma split_not_nil (s : string) : PyStr.split s sep <> [].
Proof.
  destruct s as [|c rest]; simpl; [discriminate|].
  destruct (Ascii.eqb c sep); [discriminate|].
  destruct (PyStr.split rest sep); discriminate.
Qed.

Lemma split_length (s : string) :
  List.length (PyStr.split s sep) = S (occurrences sep s).
Proof.
  induction s as [|c rest IH]; simpl; [reflexivity|].
  destruct (Ascii.eqb c sep); simpl; [now rewrite IH|].
  destruct (PyStr.split rest sep) as [|piece pieces] eqn:E.
  - now destruct (split_not_nil rest).
  - exact IH.
Qed.

Lemma split_without_sep (s : string) :
  occurrences sep s = O -> PyStr.split s sep = [s].
Proof.
  induction s as [|c rest IH]; simpl; [reflexivity|].
  destruct (Ascii.eqb c sep); [discriminate|].
  intros H. now rewrite (IH H).
Qed.

Lemma split_at_first_sep (a b : string) :
  occurrences sep a = O ->
  PyStr.split (a ++ String sep b) sep = a :: PyStr.split b sep.
Proof.
  induction a as [|c rest IH]; simpl.
  - intros _. now rewrite Ascii.eqb_refl.
  - destruct (Ascii.eqb c sep); [discriminate|].
    intros H. now rewrite (IH H).
Qed.

End SplitFacts.

Lemma unpack2_other {A : Type} (xs : list A) :
  List.length xs <> 2%nat -> PyStr.unpack2 xs = Raise ValueError.
Proof.
  destruct xs as [|a [|b [|c xs]]]; simpl; intros H; try reflexivity.
  now destruct H.
Qed.

Lemma truthy_nonempty (s : string) : s <> EmptyString -> PyStr.truthy s = true.
Proof. destruct s; [intros H; now destruct H | reflexivity]. Qed.

Lemma is_hex_char_plain (c : ascii) :
  is_hex_char c = true ->
  Ascii.eqb c "=" = false /\ N.ltb (N_of_ascii c) 128 = true.
Proof.
  destruct c as [[] [] [] [] [] [] [] []]; vm_compute; intros H;
    first [discriminate H | split; reflexivity].
Qed.

Lemma is_hex_plain (s : string) :
  is_hex s = true -> occurrences "=" s = O /\ PyStr.isascii s = true.
Proof.
  induction s as [|c rest IH]; simpl; [now split|].
  intros H. apply andb_prop in H. destruct H as [Hc Hrest].
  destruct (is_hex_char_plain c Hc) as [Hne Hlt].
  destruct (IH Hrest) as [Hocc Hasc].
  rewrite Hne, Hlt. now split.
Qed.

Lemma hex_of_byte_is_hex (b : byte) : is_hex (Hmac.hex_of_byte b) = true.
Proof. destruct b; reflexivity. Qed.

Lemma is_hex_app (a b : string) :
  is_hex (a ++ b) = is_hex a && is_hex b.
Proof.
  induction a as [|c rest IH]; simpl; [reflexivity|].
  now rewrite IH, andb_assoc.
Qed.

Lemma hexlify_is_hex (bs : list byte) : is_hex (Hmac.hexlify bs) = true.
Proof.
  induction bs as [|b rest IH]; [reflexivity|].
  change (Hmac.hexlify (b :: rest))
    with (Hmac.hex_of_byte b ++ Hmac.hexlify rest)%string.
  now rewrite is_hex_app, hex_of_byte_is_hex, IH.
Qed.

Lemma byte_of_hex_of_byte (b : byte) :
  byte_of_hex (Hmac.hex_of_byte b) = Some b.
Proof. destruct b; reflexivity. Qed.

Lemma two_chars_app_inj (a b c d : ascii) (s t : string) :
  (String a (String b EmptyString) ++ s)%string
  = (String c (String d EmptyString) ++ t)%string ->
  String a (String b EmptyString) = String c (String d EmptyString) /\ s = t.
Proof. simpl. intros H. injection H as -> -> ->. now split. Qed.

Lemma hexlify_injective (xs ys : list byte) :
  Hmac.hexlify xs = Hmac.hexlify ys -> xs = ys.
Proof.
  revert ys. induction xs as [|x xs IH]; intros [|y ys];
    try reflexivity; try discriminate.
  intros H.
  change (Hmac.hexlify (x :: xs))
    with (Hmac.hex_of_byte x ++ Hmac.hexlify xs)%string in H.
  change (Hmac.hexlify (y :: ys))
    with (Hmac.hex_of_byte y ++ Hmac.hexlify ys)%string in H.
  apply two_chars_app_inj in H. destruct H as [Hxy Hrest].
  change (Hmac.hex_of_byte x = Hmac.hex_of_byte y) in Hxy.
  apply (f_equal byte_of_hex) in Hxy.
  rewrite !byte_of_hex_of_byte in Hxy. injection Hxy as ->.
  now rewrite (IH ys Hrest).
Qed.

Lemma flip_byte_changes (b : byte) (i : nat) :
  (i < 8)%nat ->
  Sha1.byte_of_Z (Z.lxor (Sha1.byte_val b) (Z.shiftl 1 (Z.of_nat i))) <> b.
Proof.
  intros Hi.
  do 8 (destruct i as [|i]; [destruct b; vm_compute; discriminate|]).
  lia.
Qed.

Lemma flip_bit_changes (bs : list byte) (i : nat) :
  (i < 8 * List.length bs)%nat -> flip_bit i bs <> bs.
Proof.
  revert i. induction bs as [|b rest IH]; simpl; intros i Hi; [lia|].
  destruct (i <? 8)%nat eqn:E.
  - apply Nat.ltb_lt in E. intros H. injection H as H.
    now apply (flip_byte_changes b i E).
  - apply Nat.ltb_ge in E. intros H. injection H as H.
    apply (IH (i - 8)%nat); [lia|exact H].
Qed.

Lemma sha1_length (msg : list byte) : List.length (Sha1.sha1 msg) = 20%nat.
Proof.
  unfold Sha1.sha1.
  destruct (fst _) as [[[[h0 h1] h2] h3] h4]. reflexivity.
Qed.

Lemma digest_length (key msg : list byte) :
  List.length (Hmac.digest key msg) = 20%nat.
Proof. unfold Hmac.digest. apply sha1_length. Qed.

Lemma compare_digest_ascii (a b : string) :
  PyStr.isascii a = true -> PyStr.isascii b = true ->
  Hmac.compare_digest a b = Ok (String.eqb a b).
Proof. unfold Hmac.compare_digest. now intros -> ->. Qed.

(** With a secret configured, a header [sha1=<hex>] is accepted exactly when
    the hex text is the HMAC of the body. *)
Lemma verify_signature_well_formed (secret : string) (body : list byte)
      (digest : string) :
  secret <> EmptyString -> is_hex digest = true ->
  verify_signature secret body (Some (sha1_header digest))
  = Ok (String.eqb (Hmac.hexdigest (PyStr.encode secret) body) digest).
Proof.
  intros Hsecret Hhex.
  destruct (is_hex_plain digest Hhex) as [Hocc Hascii].
  assert (Hsplit : PyStr.split (sha1_header digest) "=" = ["sha1"; digest]).
  { change (sha1_header digest) with ("sha1" ++ String "=" digest)%string.
    rewrite (split_at_first_sep "=" "sha1" digest eq_refl).
    now rewrite (split_without_sep "=" digest Hocc). }
  unfold verify_signature.
  rewrite (truthy_nonempty secret Hsecret), Hsplit.
  change (PyStr.truthy (sha1_header digest)) with true.
  cbn [PyStr.unpack2 negb orb]. change (String.eqb "sha1" "sha1") with true.
  cbn [negb].
  apply compare_digest_ascii; [|exact Hascii].
  apply is_hex_plain, hexlify_is_hex.
Qed.

(** * The calendar *)

Module CalendarFacts.
Import Datetime.

Lemma month_ok_all :
  forallb (fun i => month_ok false (Z.of_nat i) && month_ok true (Z.of_nat i))
          (seq 0 365) = true.
Proof. vm_compute. reflexivity. Qed.

Lemma find_month_ok (leapyear : bool) (n : Z) :
  0 <= n < 365 -> month_ok leapyear n = true.
Proof.
  intros Hn. pose proof month_ok_all as H.
  rewrite forallb_forall in H.
  specialize (H (Z.to_nat n)).
  rewrite Z2Nat.id in H by lia.
  assert (Hin : In (Z.to_nat n) (seq 0 365)) by (apply in_seq; lia).
  apply H in Hin. apply andb_prop in Hin.
  destruct leapyear; tauto.
Qed.

Lemma days_before_year_cycles (n400 n100 n4 n1 : Z) :
  0 <= n400 -> 0 <= n100 <= 3 -> 0 <= n4 <= 24 -> 0 <= n1 <= 3 ->
  days_before_year (n400 * 400 + 1 + n100 * 100 + n4 * 4 + n1)
  = n400 * DI400Y + n100 * DI100Y + n4 * DI4Y + n1 * 365.
Proof.
  intros H400 H100 H4 H1. unfold days_before_year, DI400Y, DI100Y, DI4Y.
  Z.div_mod_to_equations. lia.
Qed.

Lemma is_leap_cycles (n400 n100 n4 n1 : Z) :
  0 <= n400 -> 0 <= n100 <= 3 -> 0 <= n4 <= 24 -> 0 <= n1 <= 3 ->
  is_leap (n400 * 400 + 1 + n100 * 100 + n4 * 4 + n1)
  = (n1 =? 3) && (negb (n4 =? 24) || (n100 =? 3)).
Proof.
  intros H400 H100 H4 H1. unfold is_leap.
  destruct (n1 =? 3) eqn:E1; destruct (n4 =? 24) eqn:E4;
    destruct (n100 =? 3) eqn:E100; cbn [negb andb orb];
    rewrite ?Z.eqb_eq, ?Z.eqb_neq in *;
    repeat match goal with
           | |- context [?a mod ?b =? 0] =>
               let E := fresh "E" in
               destruct (a mod b =? 0) eqn:E;
               rewrite ?Z.eqb_eq, ?Z.eqb_neq in E
           end; cbn [negb andb orb]; try reflexivity; exfalso;
    Z.div_mod_to_equations; lia.
Qed.

(** The decomposition of a zero-based day number into cycles. *)
Lemma cycles (n : Z) :
  0 <= n ->
  let n400 := n / DI400Y in
  let r400 := n mod DI400Y in
  let n100 := r400 / DI100Y in
  let r100 := r400 mod DI100Y in
  let n4 := r100 / DI4Y in
  let r4 := r100 mod DI4Y in
  let n1 := r4 / 365 in
  let r1 := r4 mod 365 in
  0 <= n400 /\ 0 <= n100 <= 4 /\ 0 <= n4 <= 24 /\ 0 <= n1 <= 4
  /\ 0 <= r1 < 365
  /\ n = n400 * DI400Y + n100 * DI100Y + n4 * DI4Y + n1 * 365 + r1
  /\ (n100 = 4 -> n4 = 0 /\ n1 = 0 /\ r1 = 0)
  /\ (n1 = 4 -> r1 = 0 /\ n4 <= 23).
Proof.
  intros Hn. unfold DI400Y, DI100Y, DI4Y. cbv zeta.
  Z.div_mod_to_equations. lia.
Qed.

Lemma ord2ymd_valid (n : Z) :
  1 <= n ->
  let '(y, m, d) := ord2ymd n in
  1 <= y /\ 1 <= m <= 12 /\ 1 <= d <= days_in_month y m
  /\ ymd2ord y m d = n.
Proof.
  intros Hn. unfold ord2ymd.
  pose proof (cycles (n - 1) ltac:(lia)) as H. cbv zeta in H.
  set (n400 := (n - 1) / DI400Y) in *.
  set (r400 := (n - 1) mod DI400Y) in *.
  set (n100 := r400 / DI100Y) in *.
  set (r100 := r400 mod DI100Y) in *.
  set (n4 := r100 / DI4Y) in *.
  set (r4 := r100 mod DI4Y) in *.
  set (n1 := r4 / 365) in *.
  set (r1 := r4 mod 365) in *.
  destruct H as (H400 & H100 & H4 & H1 & Hr1 & Hsum & Hend100 & Hend1).
  cbv zeta.
  destruct ((n1 =? 4) || (n100 =? 4)) eqn:Eend.
  - (* 31 December closing a 4-year or a 400-year cycle *)
    assert (Hyear : exists a b c,
               0 <= a /\ 0 <= b <= 3 /\ 0 <= c <= 24
               /\ n400 * 400 + 1 + n100 * 100 + n4 * 4 + n1 - 1
                  = a * 400 + 1 + b * 100 + c * 4 + 3
               /\ n = a * DI400Y + b * DI100Y + c * DI4Y + 3 * 365 + 366
               /\ (c <> 24 \/ b = 3)).
    { apply orb_prop in Eend. rewrite !Z.eqb_eq in Eend.
      destruct (Z.eq_dec n100 4) as [E100|E100].
      - destruct (Hend100 E100) as (-> & -> & Er1).
        exists n400, 3, 24. unfold DI400Y, DI100Y, DI4Y in *. lia.
      - assert (E1 : n1 = 4) by tauto.
        destruct (Hend1 E1) as (Er1 & Hn4).
        exists n400, n100, n4. unfold DI400Y, DI100Y, DI4Y in *. lia. }
    destruct Hyear as (a & b & c & Ha & Hb & Hc & -> & -> & Hleap).
    assert (Hl : is_leap (a * 400 + 1 + b * 100 + c * 4 + 3) = true).
    { rewrite is_leap_cycles by lia. cbn [Z.eqb Pos.eqb andb].
      destruct Hleap as [Hne | ->].
      - apply Z.eqb_neq in Hne. now rewrite Hne.
      - now rewrite orb_true_r. }
    unfold ymd2ord, days_in_month, days_before_month.
    rewrite days_before_year_cycles by lia. rewrite Hl.
    change (item DAYS_BEFORE_MONTH 12) with 334.
    change (item DAYS_IN_MONTH 12) with 31.
    cbn [Z.eqb Z.ltb Z.compare Pos.eqb Pos.compare Pos.compare_cont andb].
    unfold DI400Y, DI100Y, DI4Y. lia.
  - apply orb_false_elim in Eend. rewrite !Z.eqb_neq in Eend.
    destruct Eend as [E1 E100].
    set (leapyear := (n1 =? 3) && (negb (n4 =? 24) || (n100 =? 3))).
    pose proof (find_month_ok leapyear r1 Hr1) as Hm.
    unfold month_ok in Hm.
    destruct (find_month r1 leapyear) as [m d].
    rewrite !andb_true_iff, !Z.leb_le, Z.eqb_eq in Hm.
    destruct Hm as ((((Hm1 & Hm12) & Hd1) & Hdim) & Hbefore).
    unfold ymd2ord, days_in_month, days_before_month.
    rewrite is_leap_cycles by lia. fold leapyear.
    rewrite days_before_year_cycles by lia.
    repeat split; lia.
Qed.

Lemma days_before_year_mono (y : Z) :
  MAXYEAR < y -> MAXORDINAL <= days_before_year y.
Proof.
  unfold MAXYEAR, MAXORDINAL, days_before_year.
  intros Hy. Z.div_mod_to_equations. lia.
Qed.

Lemma days_before_month_nonneg (y m : Z) :
  1 <= m <= 12 -> 0 <= days_before_month y m.
Proof.
  intros Hm. unfold days_before_month.
  assert (H : 0 <= item DAYS_BEFORE_MONTH m).
  { assert (Hc : m = 1 \/ m = 2 \/ m = 3 \/ m = 4 \/ m = 5 \/ m = 6
                 \/ m = 7 \/ m = 8 \/ m = 9 \/ m = 10 \/ m = 11 \/ m = 12)
      by lia.
    repeat (destruct Hc as [-> | Hc]; [vm_compute; discriminate|]).
    subst m. vm_compute. discriminate. }
  destruct ((2 <? m) && is_leap y); lia.
Qed.

(** [date.fromordinal] yields a valid date of the years 1 to 9999, and
    [toordinal] is its inverse. *)
Lemma fromordinal_valid (n : Z) :
  1 <= n <= MAXORDINAL ->
  let '(y, m, d) := ord2ymd n in
  MINYEAR <= y <= MAXYEAR /\ 1 <= m <= 12 /\ 1 <= d <= days_in_month y m
  /\ ymd2ord y m d = n.
Proof.
  intros Hn. pose proof (ord2ymd_valid n ltac:(lia)) as H.
  destruct (ord2ymd n) as [[y m] d].
  destruct H as (Hy & Hm & Hd & Hord).
  repeat split; try lia; [unfold MINYEAR; lia|].
  destruct (Z_le_gt_dec y MAXYEAR) as [Hle|Hgt]; [exact Hle|exfalso].
  pose proof (days_before_year_mono y ltac:(lia)).
  pose proof (days_before_month_nonneg y m Hm).
  unfold ymd2ord in Hord. lia.
Qed.

Lemma days_before_next_year (y : Z) :
  days_before_year (y + 1)
  = days_before_year y + 365 + (if is_leap y then 1 else 0).
Proof.
  unfold days_before_year, is_leap.
  replace (y + 1 - 1) with y by lia.
  destruct (y mod 4 =? 0) eqn:E4; destruct (y mod 100 =? 0) eqn:E100;
    destruct (y mod 400 =? 0) eqn:E400; cbn [negb andb orb];
    rewrite ?Z.eqb_eq, ?Z.eqb_neq in *; Z.div_mod_to_equations; lia.
Qed.

Lemma days_before_year_le (y y' : Z) :
  y <= y' -> days_before_year y <= days_before_year y'.
Proof.
  intros H. unfold days_before_year. Z.div_mod_to_equations. lia.
Qed.

Ltac month_cases m Hm :=
  let Hc := fresh "Hc" in
  assert (Hc : m = 1 \/ m = 2 \/ m = 3 \/ m = 4 \/ m = 5 \/ m = 6
               \/ m = 7 \/ m = 8 \/ m = 9 \/ m = 10 \/ m = 11 \/ m = 12)
    by lia;
  clear Hm;
  repeat (destruct Hc as [Hc | Hc]; [subst m|]); [..|subst m].

Ltac eval_items :=
  repeat match goal with
         | |- context [item ?t ?k] =>
             let v := eval vm_compute in (item t k) in
             change (item t k) with v
         | |- context [if ?c then _ else _] =>
             let v := eval vm_compute in c in
             progress change c with v
         end;
  cbv iota.

(** The day of the year of a valid month and day. *)
Lemma day_of_year_range (leap : bool) (m d : Z) :
  1 <= m <= 12 ->
  1 <= d <= (if (m =? 2) && leap then 29 else item DAYS_IN_MONTH m) ->
  1 <= item DAYS_BEFORE_MONTH m + (if (2 <? m) && leap then 1 else 0) + d
    <= 365 + (if leap then 1 else 0).
Proof.
  intros Hm. month_cases m Hm; destruct leap; eval_items; lia.
Qed.

Lemma day_of_year_injective (leap : bool) (m d m' d' : Z) :
  1 <= m <= 12 -> 1 <= m' <= 12 ->
  1 <= d <= (if (m =? 2) && leap then 29 else item DAYS_IN_MONTH m) ->
  1 <= d' <= (if (m' =? 2) && leap then 29 else item DAYS_IN_MONTH m') ->
  item DAYS_BEFORE_MONTH m + (if (2 <? m) && leap then 1 else 0) + d
  = item DAYS_BEFORE_MONTH m' + (if (2 <? m') && leap then 1 else 0) + d' ->
  m = m' /\ d = d'.
Proof.
  intros Hm Hm'.
  month_cases m Hm; month_cases m' Hm'; destruct leap; eval_items; lia.
Qed.

(** [_ymd2ord] is one-to-one on valid dates. *)
Lemma ymd2ord_injective (y m d y' m' d' : Z) :
  1 <= m <= 12 -> 1 <= d <= days_in_month y m ->
  1 <= m' <= 12 -> 1 <= d' <= days_in_month y' m' ->
  ymd2ord y m d = ymd2ord y' m' d' ->
  y = y' /\ m = m' /\ d = d'.
Proof.
  unfold ymd2ord, days_in_month, days_before_month.
  intros Hm Hd Hm' Hd' Heq.
  pose proof (day_of_year_range (is_leap y) m d Hm Hd) as Hr.
  pose proof (day_of_year_range (is_leap y') m' d' Hm' Hd') as Hr'.
  pose proof (days_before_next_year y) as Hn.
  pose proof (days_before_next_year y') as Hn'.
  assert (Hy : y = y').
  { destruct (Z.lt_trichotomy y y') as [Hlt | [Heq' | Hgt]]; [|exact Heq'|].
    - pose proof (days_before_year_le (y + 1) y' ltac:(lia)). lia.
    - pose proof (days_before_year_le (y' + 1) y ltac:(lia)). lia. }
  subst y'. split; [reflexivity|].
  apply (day_of_year_injective (is_leap y)); try assumption. lia.
Qed.

End CalendarFacts.

(** * Datetime arithmetic *)

Module DatetimeFacts.
Import Datetime CalendarFacts.

Lemma check_fields_ranges (dt : datetime) :
  check_fields dt = true ->
  (MINYEAR <= year dt <= MAXYEAR)
  /\ (1 <= month dt <= 12)
  /\ (1 <= day dt <= days_in_month (year dt) (month dt))
  /\ (0 <= hour dt <= 23) /\ (0 <= minute dt <= 59)
  /\ (0 <= second dt <= 59) /\ (0 <= microsecond dt <= 999999).
Proof.
  unfold check_fields. rewrite !andb_true_iff, !Z.leb_le. tauto.
Qed.

Lemma ranges_check_fields (dt : datetime) :
  (MINYEAR <= year dt <= MAXYEAR)
  /\ (1 <= month dt <= 12)
  /\ (1 <= day dt <= days_in_month (year dt) (month dt))
  /\ (0 <= hour dt <= 23) /\ (0 <= minute dt <= 59)
  /\ (0 <= second dt <= 59) /\ (0 <= microsecond dt <= 999999) ->
  check_fields dt = true.
Proof.
  unfold check_fields. rewrite !andb_true_iff, !Z.leb_le. tauto.
Qed.

(** Days, seconds of the day and microseconds of a microsecond count. *)
Lemma clock_split (days h m s us : Z) :
  0 <= h <= 23 -> 0 <= m <= 59 -> 0 <= s <= 59 -> 0 <= us <= 999999 ->
  let total := (((days * 24 + h) * 60 + m) * 60 + s) * US_PER_SECOND + us in
  total / US_PER_DAY = days
  /\ ((total mod US_PER_DAY) / US_PER_SECOND) / 3600 = h
  /\ (((total mod US_PER_DAY) / US_PER_SECOND) mod 3600) / 60 = m
  /\ (((total mod US_PER_DAY) / US_PER_SECOND) mod 3600) mod 60 = s
  /\ total mod US_PER_SECOND = us.
Proof.
  intros Hh Hm Hs Hus. unfold US_PER_DAY, US_PER_SECOND. cbv zeta.
  change (86400 * 1000000) with 86400000000.
  Z.div_mod_to_equations. lia.
Qed.

Lemma clock_join (total : Z) :
  let days := total / US_PER_DAY in
  let seconds := (total mod US_PER_DAY) / US_PER_SECOND in
  let h := seconds / 3600 in
  let m := (seconds mod 3600) / 60 in
  let s := (seconds mod 3600) mod 60 in
  let us := total mod US_PER_SECOND in
  0 <= h <= 23 /\ 0 <= m <= 59 /\ 0 <= s <= 59 /\ 0 <= us <= 999999
  /\ (((days * 24 + h) * 60 + m) * 60 + s) * US_PER_SECOND + us = total.
Proof.
  unfold US_PER_DAY, US_PER_SECOND. cbv zeta.
  change (86400 * 1000000) with 86400000000.
  Z.div_mod_to_equations. lia.
Qed.

(** A sum that stays within the supported dates is a valid datetime at the
    microsecond the sum denotes, and its date is the one [fromordinal]
    gives. *)
Lemma add_timedelta_in_range (dt : datetime) (delta : Z) :
  let total := to_micro dt + delta in
  0 < total / US_PER_DAY <= MAXORDINAL ->
  exists u,
    add_timedelta dt delta = Ok u
    /\ check_fields u = true
    /\ to_micro u = total
    /\ tzinfo u = tzinfo dt
    /\ toordinal u = total / US_PER_DAY
    /\ ord2ymd (toordinal u) = (year u, month u, day u).
Proof.
  intros total Hrange. unfold add_timedelta. fold total.
  assert (Hcond : (0 <? total / US_PER_DAY)
                  && (total / US_PER_DAY <=? MAXORDINAL) = true).
  { apply andb_true_intro. split; [apply Z.ltb_lt | apply Z.leb_le]; lia. }
  rewrite Hcond.
  pose proof (fromordinal_valid (total / US_PER_DAY) ltac:(lia)) as Hdate.
  destruct (ord2ymd (total / US_PER_DAY)) as [[y m] d] eqn:Eymd.
  destruct Hdate as (Hy & Hm & Hd & Hord).
  pose proof (clock_join total) as Hclock. cbv zeta in Hclock.
  destruct Hclock as (Hh & Hmi & Hs & Hus & Hjoin).
  eexists. split; [reflexivity|].
  split; [apply ranges_check_fields; cbn; tauto|].
  unfold to_micro, toordinal. cbn [year month day hour minute second microsecond tzinfo].
  rewrite Hord. repeat split; try assumption; reflexivity.
Qed.

Lemma add_timedelta_out_of_range (dt : datetime) (delta : Z) :
  let total := to_micro dt + delta in
  ~ (0 < total / US_PER_DAY <= MAXORDINAL) ->
  add_timedelta dt delta = Raise OverflowError.
Proof.
  intros total Hrange. unfold add_timedelta. fold total.
  destruct ((0 <? total / US_PER_DAY) && (total / US_PER_DAY <=? MAXORDINAL))
    eqn:E; [|reflexivity].
  apply andb_prop in E. rewrite Z.ltb_lt, Z.leb_le in E. tauto.
Qed.

(** Adding the zero offset of UTC changes nothing. *)
Lemma add_timedelta_zero (u : datetime) :
  check_fields u = true ->
  0 < toordinal u <= MAXORDINAL ->
  ord2ymd (toordinal u) = (year u, month u, day u) ->
  add_timedelta u 0 = Ok u.
Proof.
  intros Hvalid Hord Hymd.
  destruct (check_fields_ranges u Hvalid) as (_ & _ & _ & Hh & Hm & Hs & Hus).
  pose proof (clock_split (toordinal u) (hour u) (minute u) (second u)
                          (microsecond u) Hh Hm Hs Hus) as Hsplit.
  cbv zeta in Hsplit.
  destruct Hsplit as (Hdays & Hhh & Hmm & Hss & Hmicro).
  assert (Hcond : (0 <? toordinal u) && (toordinal u <=? MAXORDINAL) = true).
  { apply andb_true_intro. split; [apply Z.ltb_lt | apply Z.leb_le]; lia. }
  unfold add_timedelta, to_micro. cbv zeta. rewrite Z.add_0_r.
  rewrite Hdays, Hhh, Hmm, Hss, Hmicro, Hcond, Hymd.
  now destruct u.
Qed.

(** Two valid datetimes at the same microsecond read the same. *)
Lemma to_micro_injective (u v : datetime) :
  check_fields u = true -> check_fields v = true ->
  to_micro u = to_micro v ->
  same_clock u v.
Proof.
  intros Hu Hv Heq.
  destruct (check_fields_ranges u Hu) as (_ & Hmu & Hdu & Hhu & Hmiu & Hsu & Husu).
  destruct (check_fields_ranges v Hv) as (_ & Hmv & Hdv & Hhv & Hmiv & Hsv & Husv).
  pose proof (clock_split (toordinal u) _ _ _ _ Hhu Hmiu Hsu Husu) as Su.
  pose proof (clock_split (toordinal v) _ _ _ _ Hhv Hmiv Hsv Husv) as Sv.
  cbv zeta in Su, Sv. unfold to_micro in Heq. rewrite Heq in Su.
  destruct Su as (Su1 & Su2 & Su3 & Su4 & Su5).
  destruct Sv as (Sv1 & Sv2 & Sv3 & Sv4 & Sv5).
  assert (Hord : toordinal u = toordinal v) by congruence.
  destruct (ymd2ord_injective _ _ _ _ _ _ Hmu Hdu Hmv Hdv Hord)
    as (Hy & Hm & Hd).
  unfold same_clock. split; congruence.
Qed.

End DatetimeFacts.

(** * The timestamp normaliser *)

Module NormalizerFacts.
Import Datetime CalendarFacts DatetimeFacts.

Lemma suffix_spec (d : Z) : suffix d = ordinal_suffix d.
Proof.
  unfold suffix, ordinal_suffix.
  destruct ((11 <=? d) && (d <=? 13)); [reflexivity|].
  destruct (d mod 10) as [|p|p]; [reflexivity| |reflexivity].
  destruct p as [[q|q|]|[q|q|]|]; try reflexivity; destruct q; reflexivity.
Qed.

Lemma month_name_spec (m : Z) :
  1 <= m <= 12 -> month_name m = full_month_name m.
Proof.
  intros Hm.
  assert (Hc : m = 1 \/ m = 2 \/ m = 3 \/ m = 4 \/ m = 5 \/ m = 6
               \/ m = 7 \/ m = 8 \/ m = 9 \/ m = 10 \/ m = 11 \/ m = 12)
    by lia.
  repeat (destruct Hc as [-> | Hc]; [reflexivity|]).
  now subst m.
Qed.

Lemma hour12_spec (h : Z) : 0 <= h <= 23 -> hour12 h = clock12 h.
Proof.
  intros Hh. unfold hour12, clock12.
  destruct (h =? 0) eqn:E0; [apply Z.eqb_eq in E0; now subst|].
  apply Z.eqb_neq in E0.
  destruct (h <=? 12) eqn:E12; [apply Z.leb_le in E12|apply Z.leb_gt in E12];
    destruct (h mod 12 =? 0) eqn:Em;
    rewrite ?Z.eqb_eq, ?Z.eqb_neq in Em; Z.div_mod_to_equations; lia.
Qed.

Lemma pad0_two_digits_all :
  forallb (fun i => String.eqb (PyStr.pad0 2 (Z.of_nat i))
                               (two_digits (Z.of_nat i)))
          (seq 0 100) = true.
Proof. vm_compute. reflexivity. Qed.

Lemma pad0_two_digits (n : Z) :
  0 <= n <= 99 -> PyStr.pad0 2 n = two_digits n.
Proof.
  intros Hn. pose proof pad0_two_digits_all as H.
  rewrite forallb_forall in H. specialize (H (Z.to_nat n)).
  rewrite Z2Nat.id in H by lia.
  apply String.eqb_eq, H, in_seq. lia.
Qed.

Lemma clock12_range (h : Z) : 0 <= h <= 23 -> 1 <= clock12 h <= 12.
Proof.
  intros Hh. unfold clock12.
  destruct (h =? 0) eqn:E0; [lia|]. apply Z.eqb_neq in E0.
  destruct (h <=? 12) eqn:E12;
    [apply Z.leb_le in E12|apply Z.leb_gt in E12]; lia.
Qed.

(** Steps 4 to 6 of [format_timestamp] on a valid datetime yield the
    rendering of the specification. *)
Lemma render_valid (host : platform) (u : datetime) :
  check_fields u = true ->
  (PyStr.str_of_nonneg (day u) ++ suffix (day u) ++ " "
     ++ strftime host u "%B %Y - %I:%M %p UTC")%string
  = rendered host u.
Proof.
  intros Hvalid.
  destruct (check_fields_ranges u Hvalid) as (_ & Hm & _ & Hh & Hmi & _ & _).
  unfold rendered, year_text.
  rewrite <- suffix_spec, <- (month_name_spec (month u) Hm).
  rewrite <- (hour12_spec (hour u) Hh).
  rewrite <- (pad0_two_digits (minute u)) by lia.
  rewrite <- (pad0_two_digits (hour12 (hour u)))
    by (rewrite hour12_spec by lia;
        pose proof (clock12_range (hour u) Hh); lia).
  reflexivity.
Qed.

Lemma fromisoformat_valid (s : string) (dt : datetime) :
  fromisoformat s = Ok dt -> check_fields dt = true.
Proof.
  unfold fromisoformat, new_datetime.
  destruct (code_points s <? 7)%nat; [discriminate|].
  destruct (find_isoformat_datetime_separator s) as [sep|]; [|discriminate].
  destruct (parse_isoformat_date s sep) as [[[y m] d]|]; [|discriminate].
  destruct (sep <? String.length s)%nat.
  - destruct (parse_isoformat_time _) as [[[[[hh mm] ss] us] tzi]|e];
      [|discriminate].
    cbn [bind]. destruct (check_fields _) eqn:E; [|discriminate].
    intros H. injection H as <-. exact E.
  - destruct (check_fields _) eqn:E; [|discriminate].
    intros H. injection H as <-. exact E.
Qed.

Lemma parse_tz_raises (sign : Z) (tzstr : string) (e : exn) :
  parse_tz sign tzstr = Raise e -> e = ValueError.
Proof.
  unfold parse_tz, new_timezone.
  destruct (parse_hh_mm_ss_ff tzstr zero) as [[[[[h m] s] us] [|]]|];
    try (intros H; now injection H as <-).
  destruct ((h * 60 + m) * 60 + s =? 0); [discriminate|].
  destruct ((- US_PER_DAY <? _) && _); [discriminate|].
  intros H. now injection H as <-.
Qed.

Lemma parse_isoformat_time_raises (tstr : string) (e : exn) :
  parse_isoformat_time tstr = Raise e -> e = ValueError.
Proof.
  unfold parse_isoformat_time.
  destruct (split_tz tstr) as [timestr tz].
  destruct (parse_hh_mm_ss_ff timestr (head tz)) as [[[[[h m] s] us] more]|];
    [|intros H; now injection H as <-].
  destruct tz as [|c tzstr].
  - destruct more; [intros H; now injection H as <-|discriminate].
  - destruct (Ascii.eqb c "Z").
    + destruct (Ascii.eqb (head tzstr) zero);
        [discriminate|intros H; now injection H as <-].
    + destruct (parse_tz _ tzstr) as [tzi|e'] eqn:Etz; cbn [bind];
        [discriminate|].
      intros H. injection H as <-. exact (parse_tz_raises _ _ _ Etz).
Qed.

(** [fromisoformat] raises nothing but [ValueError]. *)
Lemma fromisoformat_raises (s : string) (e : exn) :
  fromisoformat s = Raise e -> e = ValueError.
Proof.
  unfold fromisoformat, new_datetime.
  destruct (code_points s <? 7)%nat; [intros H; now injection H as <-|].
  destruct (find_isoformat_datetime_separator s) as [sep|];
    [|intros H; now injection H as <-].
  destruct (parse_isoformat_date s sep) as [[[y m] d]|];
    [|intros H; now injection H as <-].
  destruct (sep <? String.length s)%nat.
  - destruct (parse_isoformat_time _) as [[[[[hh mm] ss] us] tzi]|e'] eqn:Et;
      cbn [bind].
    + destruct (check_fields _); [discriminate|intros H; now injection H as <-].
    + intros H. injection H as <-. exact (parse_isoformat_time_raises _ _ Et).
  - destruct (check_fields _); [discriminate|intros H; now injection H as <-].
Qed.

(** The shift to UTC inside the supported dates: a valid datetime at the
    same instant. *)
Lemma shift_to_utc_in_range (dt : datetime) (off : Z) :
  0 < (to_micro dt - off) / US_PER_DAY <= MAXORDINAL ->
  exists u,
    shift_to_utc dt off = Ok u
    /\ check_fields u = true
    /\ to_micro u = to_micro dt - off
    /\ tzinfo u = utc.
Proof.
  intros Hr. unfold shift_to_utc.
  assert (Hr' : 0 < (to_micro dt + - off) / US_PER_DAY <= MAXORDINAL)
    by now rewrite Z.add_opp_r.
  destruct (add_timedelta_in_range dt (- off) Hr')
    as (u1 & -> & Hv1 & Hmicro & _ & Hord & Hymd).
  cbn [bind].
  exists (replace_tzinfo u1 utc). rewrite add_timedelta_zero.
  - split; [reflexivity|]. split; [exact Hv1|]. split; [|reflexivity].
    change (to_micro (replace_tzinfo u1 utc)) with (to_micro u1). lia.
  - exact Hv1.
  - change (toordinal (replace_tzinfo u1 utc)) with (toordinal u1). lia.
  - exact Hymd.
Qed.

Lemma add_timedelta_ok_in_range (dt u : datetime) (delta : Z) :
  add_timedelta dt delta = Ok u ->
  0 < (to_micro dt + delta) / US_PER_DAY <= MAXORDINAL.
Proof.
  intros H.
  destruct (Z_lt_dec 0 ((to_micro dt + delta) / US_PER_DAY)) as [Hlo|Hlo];
    [destruct (Z_le_dec ((to_micro dt + delta) / US_PER_DAY) MAXORDINAL)
      as [Hhi|Hhi]; [now split|]|];
    rewrite add_timedelta_out_of_range in H by lia; discriminate.
Qed.

Lemma add_timedelta_valid (dt u : datetime) (delta : Z) :
  add_timedelta dt delta = Ok u -> check_fields u = true.
Proof.
  intros H. pose proof (add_timedelta_ok_in_range dt u delta H) as Hr.
  destruct (add_timedelta_in_range dt delta Hr) as (u' & Hu' & Hv & _).
  rewrite Hu' in H. now injection H as <-.
Qed.

Lemma shift_to_utc_valid (dt u : datetime) (off : Z) :
  shift_to_utc dt off = Ok u -> check_fields u = true.
Proof.
  unfold shift_to_utc.
  destruct (add_timedelta dt (- off)) as [u1|e]; [|discriminate].
  cbn [bind]. apply add_timedelta_valid.
Qed.

Lemma shift_to_utc_out_of_range (dt : datetime) (off : Z) :
  ~ (0 < (to_micro dt - off) / US_PER_DAY <= MAXORDINAL) ->
  shift_to_utc dt off = Raise OverflowError.
Proof.
  intros Hr. unfold shift_to_utc.
  rewrite add_timedelta_out_of_range; [reflexivity|].
  now rewrite Z.add_opp_r.
Qed.

Lemma new_timezone_seconds (off : Z) :
  -86400 < off < 86400 ->
  new_timezone (off * US_PER_SECOND) = Ok (off * US_PER_SECOND).
Proof.
  intros Hoff. unfold new_timezone.
  assert (Hcond : (- US_PER_DAY <? off * US_PER_SECOND)
                  && (off * US_PER_SECOND <? US_PER_DAY) = true).
  { apply andb_true_intro. unfold US_PER_DAY, US_PER_SECOND.
    split; apply Z.ltb_lt; lia. }
  now rewrite Hcond.
Qed.

Lemma new_timezone_refused (off : Z) :
  ~ (-86400 < off < 86400) ->
  new_timezone (off * US_PER_SECOND) = Raise ValueError.
Proof.
  intros Hoff. unfold new_timezone.
  assert (Hcond : (- US_PER_DAY <? off * US_PER_SECOND)
                  && (off * US_PER_SECOND <? US_PER_DAY) = false).
  { apply andb_false_iff. unfold US_PER_DAY, US_PER_SECOND.
    destruct (Z_lt_dec (-86400) off);
      [right|left]; apply Z.ltb_ge; lia. }
  now rewrite Hcond.
Qed.

Lemma local_raises (host : platform) (u : Z) (e : exn) :
  local host u = Raise e -> e = ValueError.
Proof.
  unfold local. destruct (_ && _); [discriminate|].
  intros H. now injection H as <-.
Qed.

(** The search for the UTC second of a local wall clock raises nothing
    but [ValueError]. *)
Lemma local_to_seconds_raises (host : platform) (dt : datetime) (e : exn) :
  local_to_seconds host dt = Raise e -> e = ValueError.
Proof.
  unfold local_to_seconds. cbv zeta.
  repeat
    match goal with
    | |- context [bind (local host ?u) _] =>
        let E := fresh "E" in
        destruct (local host u) as [?|?] eqn:E; cbn [bind];
        [|intros H; injection H as <-; exact (local_raises _ _ _ E)]
    | |- context [if ?c then _ else _] => destruct c; cbn [bind]
    end;
    discriminate.
Qed.

(** The local zone of a naive datetime: its offset when there is one
    within a day, [ValueError] otherwise. *)
Lemma local_timezone_ok (host : platform) (dt : datetime) :
  -86400 < local_utcoffset host dt < 86400 ->
  local_timezone_from_local host dt
  = Ok (local_utcoffset host dt * US_PER_SECOND).
Proof.
  unfold local_utcoffset, local_timezone_from_local.
  destruct (local_to_seconds host dt) as [seconds|e]; cbn [bind].
  - apply new_timezone_seconds.
  - lia.
Qed.

Lemma local_timezone_refused (host : platform) (dt : datetime) :
  ~ (-86400 < local_utcoffset host dt < 86400) ->
  local_timezone_from_local host dt = Raise ValueError.
Proof.
  unfold local_utcoffset, local_timezone_from_local.
  destruct (local_to_seconds host dt) as [seconds|e] eqn:E; cbn [bind].
  - apply new_timezone_refused.
  - intros _. now rewrite (local_to_seconds_raises host dt e E).
Qed.

(** The conversion to UTC inside the supported dates. *)
Lemma astimezone_utc_in_range (host : platform) (dt : datetime) :
  check_fields dt = true ->
  (tzinfo dt = None -> -86400 < local_utcoffset host dt < 86400) ->
  0 < (to_micro dt - utcoffset_us host dt) / US_PER_DAY <= MAXORDINAL ->
  exists u,
    astimezone_utc host dt = Ok u
    /\ check_fields u = true
    /\ to_micro u = to_micro dt - utcoffset_us host dt
    /\ tzinfo u = utc.
Proof.
  intros Hvalid Hlocal Hrange.
  unfold astimezone_utc, utcoffset_us in *.
  destruct (tzinfo dt) as [off|] eqn:Etz.
  - cbn [bind]. destruct off as [|p|p].
    + exists dt. rewrite Z.sub_0_r.
      split; [reflexivity|]. split; [exact Hvalid|].
      split; [reflexivity|exact Etz].
    + now apply shift_to_utc_in_range.
    + now apply shift_to_utc_in_range.
  - rewrite (local_timezone_ok host dt (Hlocal eq_refl)). cbn [bind].
    now apply shift_to_utc_in_range.
Qed.

(** Whatever [astimezone] returns for a valid datetime is valid. *)
Lemma astimezone_utc_valid (host : platform) (dt u : datetime) :
  check_fields dt = true ->
  astimezone_utc host dt = Ok u ->
  check_fields u = true.
Proof.
  intros Hvalid. unfold astimezone_utc.
  destruct (tzinfo dt) as [[|p|p]|] eqn:Etz; cbn [bind].
  - intros Hu. now injection Hu as <-.
  - apply shift_to_utc_valid.
  - apply shift_to_utc_valid.
  - destruct (local_timezone_from_local host dt) as [off|e]; cbn [bind];
      [apply shift_to_utc_valid | discriminate].
Qed.

Lemma days_in_month_le_31 (y m : Z) : days_in_month y m <= 31.
Proof.
  unfold days_in_month. destruct ((m =? 2) && is_leap y); [lia|].
  unfold item. destruct (Z.to_nat m) as [|n]; [cbn; lia|].
  do 12 (destruct n as [|n]; [cbn; lia|]).
  cbn. destruct n; lia.
Qed.

(** With a parsed timestamp whose UTC date is supported,
    [format_timestamp] renders the valid UTC datetime of the same
    instant. *)
Lemma format_timestamp_in_range (host : platform) (iso_ts : string)
      (dt : datetime) :
  fromisoformat (ts_fixed iso_ts) = Ok dt ->
  (tzinfo dt = None -> -86400 < local_utcoffset host dt < 86400) ->
  0 < (to_micro dt - utcoffset_us host dt) / US_PER_DAY <= MAXORDINAL ->
  exists u,
    format_timestamp host iso_ts = Ok (rendered host u)
    /\ check_fields u = true
    /\ tzinfo u = utc
    /\ to_micro u = to_micro dt - utcoffset_us host dt.
Proof.
  intros Hparse Hlocal Hrange.
  pose proof (fromisoformat_valid _ _ Hparse) as Hvalid.
  destruct (astimezone_utc_in_range host dt Hvalid Hlocal Hrange)
    as (u & Hu & Hv & Hmicro & Htz).
  exists u. unfold format_timestamp. rewrite Hparse. cbn [bind].
  rewrite Hu. cbn [bind]. rewrite (render_valid host u Hv).
  repeat split; assumption.
Qed.

(** What [format_timestamp] returns starts with the day of a valid
    datetime and its suffix. *)
Lemma format_timestamp_ok (host : platform) (iso_ts out : string) :
  format_timestamp host iso_ts = Ok out ->
  exists u, check_fields u = true /\ out = rendered host u.
Proof.
  unfold format_timestamp.
  destruct (fromisoformat (ts_fixed iso_ts)) as [dt|e] eqn:Hparse;
    [|discriminate].
  cbn [bind].
  destruct (astimezone_utc host dt) as [u|e] eqn:Hu; [|discriminate].
  cbn [bind]. intros H. injection H as <-.
  pose proof (astimezone_utc_valid host dt u
                (fromisoformat_valid _ _ Hparse) Hu) as Hv.
  exists u. split; [exact Hv|]. apply (render_valid host u Hv).
Qed.

Lemma ts_fixed_trailing_z (body : string) :
  occurrences "Z" body = 0%nat ->
  ts_fixed (body ++ "Z") = (body ++ "+00:00")%string.
Proof.
  intros Hbody. unfold ts_fixed.
  assert (Hend : PyStr.endswith (body ++ "Z") "Z" = true).
  { clear. induction body as [|c rest IH]; [reflexivity|].
    cbn [append PyStr.endswith]. rewrite IH. apply orb_true_r. }
  rewrite Hend. clear Hend. induction body as [|c rest IH]; [reflexivity|].
  cbn [append PyStr.replace occurrences] in *.
  destruct (Ascii.eqb c "Z"); [discriminate|]. now rewrite IH.
Qed.

End NormalizerFacts.

(** * The timestamp normaliser: further properties *)

Module NormalizerMore.
Import Datetime CalendarFacts DatetimeFacts NormalizerFacts.

Lemma toordinal_range (dt : datetime) :
  check_fields dt = true -> 1 <= toordinal dt <= MAXORDINAL.
Proof.
  intros Hv.
  destruct (check_fields_ranges dt Hv) as (Hy & Hm & Hd & _).
  unfold toordinal, ymd2ord, days_in_month, days_before_month in *.
  pose proof (day_of_year_range (is_leap (year dt)) (month dt) (day dt) Hm Hd)
    as Hdoy.
  pose proof (days_before_next_year (year dt)) as Hnext.
  unfold MINYEAR, MAXYEAR in Hy.
  pose proof (days_before_year_le 1 (year dt) ltac:(lia)) as Hlo.
  pose proof (days_before_year_le (year dt + 1) 10000 ltac:(lia)) as Hhi.
  change (days_before_year 1) with 0 in Hlo.
  change (days_before_year 10000) with 3652059 in Hhi.
  unfold MAXORDINAL. lia.
Qed.

Lemma to_micro_day (dt : datetime) :
  check_fields dt = true -> to_micro dt / US_PER_DAY = toordinal dt.
Proof.
  intros Hv.
  destruct (check_fields_ranges dt Hv) as (_ & _ & _ & Hh & Hm & Hs & Hus).
  exact (proj1 (clock_split (toordinal dt) _ _ _ _ Hh Hm Hs Hus)).
Qed.

(** The outcome of the conversion to UTC of a valid datetime, case by
    case. *)
Lemma astimezone_utc_outcome (host : platform) (dt : datetime) :
  check_fields dt = true ->
  (tzinfo dt = None
   /\ ~ (-86400 < local_utcoffset host dt < 86400)
   /\ astimezone_utc host dt = Raise ValueError)
  \/ ((tzinfo dt = None -> -86400 < local_utcoffset host dt < 86400)
      /\ ~ supported_instant (to_micro dt - utcoffset_us host dt)
      /\ astimezone_utc host dt = Raise OverflowError)
  \/ ((tzinfo dt = None -> -86400 < local_utcoffset host dt < 86400)
      /\ supported_instant (to_micro dt - utcoffset_us host dt)
      /\ exists u, astimezone_utc host dt = Ok u
                   /\ check_fields u = true
                   /\ to_micro u = to_micro dt - utcoffset_us host dt).
Proof.
  intros Hv.
  assert (Hdec : forall x, supported_instant x \/ ~ supported_instant x).
  { intros x. unfold supported_instant.
    destruct (Z_lt_dec 0 (x / US_PER_DAY)); [|right; lia].
    destruct (Z_le_dec (x / US_PER_DAY) MAXORDINAL); [left|right]; lia. }
  destruct (tzinfo dt) as [off|] eqn:Etz.
  - destruct (Hdec (to_micro dt - utcoffset_us host dt)) as [Hs | Hs].
    + right. right. split; [discriminate|]. split; [exact Hs|].
      destruct (astimezone_utc_in_range host dt Hv) as (u & Hu & Hvu & Hm & _);
        [rewrite Etz; discriminate | exact Hs |].
      now exists u.
    + right. left. split; [discriminate|]. split; [exact Hs|].
      unfold astimezone_utc, utcoffset_us in *. rewrite Etz in *. cbn [bind].
      destruct off as [|p|p].
      * exfalso. apply Hs. unfold supported_instant.
        rewrite Z.sub_0_r, (to_micro_day dt Hv).
        pose proof (toordinal_range dt Hv). lia.
      * now apply shift_to_utc_out_of_range.
      * now apply shift_to_utc_out_of_range.
  - destruct (Z_lt_dec (-86400) (local_utcoffset host dt)) as [Hlo|Hlo];
      [destruct (Z_lt_dec (local_utcoffset host dt) 86400) as [Hhi|Hhi]|].
    + destruct (Hdec (to_micro dt - utcoffset_us host dt)) as [Hs | Hs].
      * right. right. split; [intros _; lia|]. split; [exact Hs|].
        destruct (astimezone_utc_in_range host dt Hv) as (u & Hu & Hvu & Hm & _);
          [intros _; lia | exact Hs |].
        now exists u.
      * right. left. split; [intros _; lia|]. split; [exact Hs|].
        unfold astimezone_utc, utcoffset_us in *. rewrite Etz in *.
        rewrite (local_timezone_ok host dt ltac:(lia)). cbn [bind].
        now apply shift_to_utc_out_of_range.
    + left. split; [reflexivity|]. split; [lia|].
      unfold astimezone_utc. rewrite Etz.
      now rewrite (local_timezone_refused host dt ltac:(lia)).
    + left. split; [reflexivity|]. split; [lia|].
      unfold astimezone_utc. rewrite Etz.
      now rewrite (local_timezone_refused host dt ltac:(lia)).
Qed.

(** [format_timestamp] after a successful parse. *)
Lemma format_timestamp_parsed (host : platform) (iso_ts : string)
      (dt : datetime) :
  fromisoformat (ts_fixed iso_ts) = Ok dt ->
  format_timestamp host iso_ts
  = (dt_utc <- astimezone_utc host dt ;;
     Ok (PyStr.str_of_nonneg (day dt_utc) ++ suffix (day dt_utc) ++ " "
           ++ strftime host dt_utc "%B %Y - %I:%M %p UTC")%string).
Proof. intros H. unfold format_timestamp. now rewrite H. Qed.

(** Two valid datetimes in the same minute agree on everything the
    rendering shows. *)
Lemma same_minute_rendered (host : platform) (u v : datetime) :
  check_fields u = true -> check_fields v = true ->
  to_micro u / US_PER_MINUTE = to_micro v / US_PER_MINUTE ->
  rendered host u = rendered host v.
Proof.
  intros Hu Hv Hmin.
  set (cut := fun w : datetime =>
                mkdatetime (year w) (month w) (day w) (hour w) (minute w)
                           0 0 (tzinfo w)).
  assert (Hcut : forall w, check_fields w = true ->
                           check_fields (cut w) = true
                           /\ to_micro (cut w)
                              = US_PER_MINUTE * (to_micro w / US_PER_MINUTE)).
  { intros w Hw.
    destruct (check_fields_ranges w Hw) as (Hy & Hm & Hd & Hh & Hmi & Hs & Hus).
    split.
    - apply ranges_check_fields. unfold cut.
      cbn [year month day hour minute second microsecond].
      repeat split; try tauto; lia.
    - unfold to_micro, cut, toordinal.
      cbn [year month day hour minute second microsecond].
      generalize (ymd2ord (year w) (month w) (day w)). intros n.
      unfold US_PER_MINUTE, US_PER_SECOND. Z.div_mod_to_equations. lia. }
  destruct (Hcut u Hu) as (Hcu & Hmu). destruct (Hcut v Hv) as (Hcv & Hmv).
  assert (Heq : to_micro (cut u) = to_micro (cut v)) by congruence.
  destruct (to_micro_injective (cut u) (cut v) Hcu Hcv Heq) as (Hdate & Hclock).
  unfold cut in Hdate, Hclock.
  cbn [year month day hour minute second microsecond] in Hdate, Hclock.
  injection Hdate as Hy Hm Hd. injection Hclock as Hh Hmi.
  unfold rendered. now rewrite Hy, Hm, Hd, Hh, Hmi.
Qed.

Lemma ts_fixed_offset (body : string) :
  ts_fixed (body ++ "+00:00") = (body ++ "+00:00")%string.
Proof.
  unfold ts_fixed.
  assert (Hend : PyStr.endswith (body ++ "+00:00") "Z" = false).
  { induction body as [|c rest IH]; [reflexivity|].
    cbn [append PyStr.endswith String.eqb]. rewrite IH, orb_false_r.
    destruct (Ascii.eqb c "Z"); [destruct rest; reflexivity | reflexivity]. }
  now rewrite Hend.
Qed.

(** [format_timestamp] after a successful parse, outcome by outcome. *)
Lemma format_timestamp_outcome (host : platform) (iso_ts : string)
      (dt : datetime) :
  fromisoformat (ts_fixed iso_ts) = Ok dt ->
  (tzinfo dt = None
   /\ ~ (-86400 < local_utcoffset host dt < 86400)
   /\ format_timestamp host iso_ts = Raise ValueError)
  \/ ((tzinfo dt = None -> -86400 < local_utcoffset host dt < 86400)
      /\ ~ supported_instant (to_micro dt - utcoffset_us host dt)
      /\ format_timestamp host iso_ts = Raise OverflowError)
  \/ ((tzinfo dt = None -> -86400 < local_utcoffset host dt < 86400)
      /\ supported_instant (to_micro dt - utcoffset_us host dt)
      /\ exists u, format_timestamp host iso_ts = Ok (rendered host u)
                   /\ check_fields u = true
                   /\ to_micro u = to_micro dt - utcoffset_us host dt).
Proof.
  intros Hparse. rewrite (format_timestamp_parsed host iso_ts dt Hparse).
  destruct (astimezone_utc_outcome host dt (fromisoformat_valid _ _ Hparse))
    as [(Hn & Hl & ->) | [(Hl & Hs & ->) | (Hl & Hs & u & -> & Hv & Hm)]].
  - left. split; [exact Hn|]. split; [exact Hl|reflexivity].
  - right. left. split; [exact Hl|]. split; [exact Hs|reflexivity].
  - right. right. split; [exact Hl|]. split; [exact Hs|].
    exists u. cbn [bind]. rewrite (render_valid host u Hv).
    split; [reflexivity|]. split; [exact Hv|exact Hm].
Qed.

End NormalizerMore.

(** * The webhook handler *)

Module HandlerFacts.

Lemma at_path_1 (v x : json) (k : string) :
  at_path v [k] = Some x ->
  exists fields, v = JObj fields /\ Json.lookup fields k = Some x.
Proof.
  destruct v as [| | | | |items|fields]; try discriminate.
  cbn [at_path]. destruct (Json.lookup fields k) as [y|] eqn:E;
    [|discriminate].
  intros H. injection H as ->. now exists fields.
Qed.

Lemma at_path_2 (v x : json) (k1 k2 : string) :
  at_path v [k1; k2] = Some x ->
  exists fields inner,
    v = JObj fields /\ Json.lookup fields k1 = Some (JObj inner)
    /\ Json.lookup inner k2 = Some x.
Proof.
  destruct v as [| | | | |items|fields]; try discriminate.
  cbn [at_path]. destruct (Json.lookup fields k1) as [y|] eqn:E;
    [|discriminate].
  intros H. destruct (at_path_1 y x k2 H) as (inner & -> & Hin).
  now exists fields, inner.
Qed.

Lemma at_path_getitem_1 (v x : json) (k : string) :
  at_path v [k] = Some x -> getitem v k = Ok x.
Proof.
  intros H. destruct (at_path_1 v x k H) as (fields & -> & Hl).
  unfold getitem. now rewrite Hl.
Qed.

Lemma at_path_getitem_2 (v x : json) (k1 k2 : string) :
  at_path v [k1; k2] = Some x ->
  exists inner, getitem v k1 = Ok inner /\ getitem inner k2 = Ok x.
Proof.
  intros H. destruct (at_path_2 v x k1 k2 H) as (fields & inner & -> & H1 & H2).
  exists (JObj inner). unfold getitem. now rewrite H1, H2.
Qed.

Lemma key_absent_1 (v : json) (k : string) :
  key_absent v [k] = true -> getitem v k = Raise KeyError.
Proof.
  destruct v as [| | | | |items|fields]; try discriminate.
  cbn [key_absent getitem].
  destruct (Json.lookup fields k); [discriminate|reflexivity].
Qed.

Lemma key_absent_2 (v : json) (k1 k2 : string) :
  key_absent v [k1; k2] = true ->
  getitem v k1 = Raise KeyError
  \/ exists inner, getitem v k1 = Ok inner
                   /\ getitem inner k2 = Raise KeyError.
Proof.
  destruct v as [| | | | |items|fields]; try discriminate.
  cbn [key_absent getitem].
  destruct (Json.lookup fields k1) as [y|]; [|now left].
  intros H. right. exists y. split; [reflexivity|].
  now apply key_absent_1.
Qed.

Lemma at_path_some_2 (v : json) (k1 k2 : string) :
  at_path v [k1; k2] <> None ->
  exists inner x, getitem v k1 = Ok inner /\ getitem inner k2 = Ok x.
Proof.
  intros H. destruct (at_path v [k1; k2]) as [x|] eqn:E; [|now destruct H].
  destruct (at_path_getitem_2 v x k1 k2 E) as (inner & H1 & H2).
  now exists inner, x.
Qed.

Lemma last_nonempty_tail (x : string) (xs : list string) :
  xs <> [] -> List.last (x :: xs) EmptyString = List.last xs EmptyString.
Proof. destruct xs; [intros H; now destruct H | reflexivity]. Qed.

(** The last piece of a split on [/] is the text after the last [/]. *)
Lemma last_item_split (s : string) :
  PyStr.last_item (PyStr.split s "/") = last_segment s.
Proof.
  unfold PyStr.last_item.
  induction s as [|c rest IH]; [reflexivity|].
  cbn [PyStr.split last_segment].
  pose proof (split_length "/" rest) as Hlen.
  destruct (Ascii.eqb c "/") eqn:Ec.
  - rewrite last_nonempty_tail by apply split_not_nil.
    destruct (0 <? occurrences "/" rest)%nat eqn:Eo; [exact IH|].
    apply Nat.ltb_ge in Eo.
    rewrite (split_without_sep "/" rest) by lia. reflexivity.
  - destruct (PyStr.split rest "/") as [|piece pieces] eqn:Es;
      [now destruct (split_not_nil "/" rest)|].
    destruct (0 <? occurrences "/" rest)%nat eqn:Eo.
    + apply Nat.ltb_lt in Eo.
      rewrite last_nonempty_tail
        by (destruct pieces; [cbn in Hlen; lia | discriminate]).
      rewrite <- IH. symmetry. apply last_nonempty_tail.
      destruct pieces; [cbn in Hlen; lia | discriminate].
    + apply Nat.ltb_ge in Eo.
      rewrite (split_without_sep "/" rest) in Es by lia.
      injection Es as <- <-. reflexivity.
Qed.

Lemma event_sentence_nonempty (when s : string) :
  event_sentence when s -> s <> EmptyString.
Proof. intros [a b|a f t|a f t]; discriminate. Qed.

Section Handler.

Variable SECRET_TOKEN : string.
Variable host : Datetime.platform.
Variable str_of : json -> string.

(** A document leaves the push branch only with a sentence built on a
    timestamp that [format_timestamp] normalised. *)
Lemma handle_push_next (payload : json) (d d' : doc) :
  handle_push host str_of payload d = Next d' ->
  exists ts when,
    format_timestamp host ts = Ok when
    /\ event_sentence when (formatted d')
    /\ inserted_at d' = inserted_at d.
Proof.
  unfold handle_push.
  destruct (bind (getitem payload "pusher") _) as [[[author to_branch] ts]|e];
    [|destruct e; discriminate].
  destruct ts as [| | | |iso_ts| |];
    cbn [call_format_timestamp bind]; try discriminate.
  destruct (format_timestamp host iso_ts) as [when|e] eqn:Ew;
    cbn [bind]; [|discriminate].
  intros H. injection H as <-.
  exists iso_ts, when. split; [exact Ew|]. split; [|reflexivity].
  exact (sentence_pushed when (fmt str_of author) to_branch).
Qed.

Lemma pull_request_branch_next (pr : json) (stamp : string)
      (text : json -> json -> json -> string -> string) (d d' : doc) :
  (forall a f t when,
      event_sentence when (text a f t when)) ->
  pull_request_branch host pr stamp text d = Next d' ->
  exists ts when,
    format_timestamp host ts = Ok when
    /\ event_sentence when (formatted d')
    /\ inserted_at d' = inserted_at d.
Proof.
  intros Htext. unfold pull_request_branch.
  destruct (pull_request_fields pr stamp)
    as [[[[author from_branch] to_branch] ts]|e];
    [|destruct e; discriminate].
  destruct ts as [| | | |iso_ts| |];
    cbn [call_format_timestamp bind]; try discriminate.
  destruct (format_timestamp host iso_ts) as [when|e] eqn:Ew;
    cbn [bind]; [|discriminate].
  intros H. injection H as <-.
  exists iso_ts, when. split; [exact Ew|]. split; [|reflexivity].
  apply Htext.
Qed.

Lemma handle_pull_request_next (payload : json) (d d' : doc) :
  handle_pull_request host str_of payload d = Next d' ->
  exists ts when,
    format_timestamp host ts = Ok when
    /\ event_sentence when (formatted d')
    /\ inserted_at d' = inserted_at d.
Proof.
  unfold handle_pull_request.
  destruct (bind (get payload "action" _) _) as [[action pr]|e];
    [|discriminate].
  destruct (eq_str action "opened").
  - apply pull_request_branch_next. intros a f t when.
    exact (sentence_submitted when (fmt str_of a) (fmt str_of f)
                              (fmt str_of t)).
  - destruct (if eq_str action "closed" then _ else _) as [[|]|e];
      try discriminate.
    apply pull_request_branch_next. intros a f t when.
    exact (sentence_merged when (fmt str_of a) (fmt str_of f)
                           (fmt str_of t)).
Qed.

(** Every run of the handler either leaves the collection as it was or
    appends one document holding an event sentence, answering 201. *)
Lemma handle_webhook_store (utcnow : Z) (req : request)
      (collection : list doc) :
  snd (handle_webhook SECRET_TOKEN host str_of utcnow req collection)
  = collection
  \/ exists ts when sentence,
       format_timestamp host ts = Ok when
       /\ event_sentence when sentence
       /\ handle_webhook SECRET_TOKEN host str_of utcnow req collection
          = (Ok (jsonify_status "stored" 201),
             (collection ++ [mkdoc utcnow sentence])%list).
Proof.
  unfold handle_webhook.
  destruct (verify_signature SECRET_TOKEN (data req) (X_Hub_Signature req))
    as [[|]|e]; try (now left).
  destruct (get_json req) as [payload|]; [|now left].
  assert (Hflow : forall outcome : flow doc,
             (forall d', outcome = Next d' ->
                         exists ts when,
                           format_timestamp host ts = Ok when
                           /\ event_sentence when (formatted d')
                           /\ inserted_at d' = utcnow) ->
             snd (match outcome with
                  | Next d' => (Ok (jsonify_status "stored" 201),
                                insert_one collection d')
                  | Return r => (Ok r, collection)
                  | Throw e => (Raise e, collection)
                  end) = collection
             \/ exists ts when sentence,
                  format_timestamp host ts = Ok when
                  /\ event_sentence when sentence
                  /\ match outcome with
                     | Next d' => (Ok (jsonify_status "stored" 201),
                                   insert_one collection d')
                     | Return r => (Ok r, collection)
                     | Throw e => (Raise e, collection)
                     end
                     = (Ok (jsonify_status "stored" 201),
                        (collection ++ [mkdoc utcnow sentence])%list)).
  { intros [d'|r|e] H; try (now left). right.
    destruct (H d' eq_refl) as (ts & when & Hw & Hs & Ht).
    exists ts, when, (formatted d'). split; [exact Hw|]. split; [exact Hs|].
    unfold insert_one. destruct d' as [t f]. cbn in Ht. now subst t. }
  destruct payload as [| | | | | |fields]; try (now left);
    apply Hflow; intros d';
    (destruct (String.eqb _ "push");
     [apply handle_push_next
     |destruct (String.eqb _ "pull_request");
      [apply handle_pull_request_next|discriminate]]).
Qed.

(** The dispatch of a verified delivery carrying a JSON value. *)
Lemma handle_webhook_dispatch (utcnow : Z) (req : request)
      (payload : json) (collection : list doc) :
  verify_signature SECRET_TOKEN (data req) (X_Hub_Signature req) = Ok true ->
  get_json req = Some payload ->
  payload <> JNull ->
  handle_webhook SECRET_TOKEN host str_of utcnow req collection
  = match
      (if String.eqb (match X_GitHub_Event req with
                      | Some e => e
                      | None => EmptyString
                      end) "push"
       then handle_push host str_of payload (mkdoc utcnow EmptyString)
       else if String.eqb (match X_GitHub_Event req with
                           | Some e => e
                           | None => EmptyString
                           end) "pull_request"
            then handle_pull_request host str_of payload
                                     (mkdoc utcnow EmptyString)
            else Return (jsonify_status "ignored-event" 200))
    with
    | Next d' => (Ok (jsonify_status "stored" 201), insert_one collection d')
    | Return r => (Ok r, collection)
    | Throw e => (Raise e, collection)
    end.
Proof.
  intros Hsig Hjson Hnull. unfold handle_webhook.
  rewrite Hsig, Hjson.
  destruct payload; [now destruct Hnull | reflexivity ..].
Qed.

Lemma handle_push_ok (payload pusher author head_commit : json)
      (ref ts when : string) (d : doc) :
  getitem payload "pusher" = Ok pusher ->
  getitem pusher "name" = Ok author ->
  getitem payload "ref" = Ok (JStr ref) ->
  getitem payload "head_commit" = Ok head_commit ->
  getitem head_commit "timestamp" = Ok (JStr ts) ->
  format_timestamp host ts = Ok when ->
  handle_push host str_of payload d
  = Next (mkdoc (inserted_at d)
                (pushed_sentence (fmt str_of author) (last_segment ref)
                                 when)).
Proof.
  intros H1 H2 H3 H4 H5 H6. unfold handle_push.
  rewrite H1. cbn [bind]. rewrite H2. cbn [bind]. rewrite H3.
  cbn [bind Json.split]. rewrite H4. cbn [bind]. rewrite H5.
  cbn [bind call_format_timestamp]. rewrite H6. cbn [bind].
  rewrite last_item_split. reflexivity.
Qed.


(** Only [TypeError] and [AttributeError] escape the push branch. *)
Lemma handle_push_throw (payload : json) (d : doc) (e : exn) :
  handle_push host str_of payload d = Throw e ->
  e = TypeError \/ e = AttributeError.
Proof.
  unfold handle_push.
  assert (Hget : forall v k x, getitem v k = Raise x ->
                               x = KeyError \/ x = TypeError).
  { intros v k x. unfold getitem.
    destruct v as [| | | | | |fields]; try (intros H; injection H as <-; now right).
    destruct (Json.lookup fields k); [discriminate|].
    intros H. injection H as <-. now left. }
  assert (Hraise : forall x,
             (pusher <- getitem payload "pusher" ;;
              author <- getitem pusher "name" ;;
              ref <- getitem payload "ref" ;;
              pieces <- Json.split ref "/" ;;
              let to_branch := PyStr.last_item pieces in
              head_commit <- getitem payload "head_commit" ;;
              ts <- getitem head_commit "timestamp" ;;
              Ok (author, to_branch, ts)) = Raise x ->
             x = KeyError \/ x = TypeError \/ x = AttributeError).
  { intros x.
    destruct (getitem payload "pusher") as [p|x1] eqn:E1; cbn [bind];
      [|intros H; injection H as <-; destruct (Hget _ _ _ E1); tauto].
    destruct (getitem p "name") as [a|x2] eqn:E2; cbn [bind];
      [|intros H; injection H as <-; destruct (Hget _ _ _ E2); tauto].
    destruct (getitem payload "ref") as [r|x3] eqn:E3; cbn [bind];
      [|intros H; injection H as <-; destruct (Hget _ _ _ E3); tauto].
    destruct (Json.split r "/") as [pieces|x4] eqn:E4; cbn [bind];
      [|intros H; injection H as <-;
        destruct r; try discriminate; injection E4 as <-; tauto].
    destruct (getitem payload "head_commit") as [h|x5] eqn:E5; cbn [bind];
      [|intros H; injection H as <-; destruct (Hget _ _ _ E5); tauto].
    destruct (getitem h "timestamp") as [t|x6] eqn:E6; cbn [bind];
      [discriminate|intros H; injection H as <-;
                    destruct (Hget _ _ _ E6); tauto]. }
  destruct (bind (getitem payload "pusher") _)
    as [[[author to_branch] ts]|x] eqn:E.
  - destruct (bind (call_format_timestamp host ts) _); discriminate.
  - destruct (Hraise x eq_refl) as [-> | [-> | ->]];
      [discriminate | intros H; injection H as <-; now left
       | intros H; injection H as <-; now right].
Qed.

Lemma get_obj (fields : list (string * json)) (k : string)
      (default : json) :
  get (JObj fields) k default
  = Ok (match Json.lookup fields k with Some x => x | None => default end).
Proof. unfold get. now destruct (Json.lookup fields k). Qed.

Lemma pull_request_fields_ok (pr author from_branch to_branch ts : json)
      (stamp : string) :
  at_path pr ["user"; "login"] = Some author ->
  at_path pr ["head"; "ref"] = Some from_branch ->
  at_path pr ["base"; "ref"] = Some to_branch ->
  at_path pr [stamp] = Some ts ->
  pull_request_fields pr stamp = Ok (author, from_branch, to_branch, ts).
Proof.
  intros Hu Hh Hb Hs. unfold pull_request_fields.
  destruct (at_path_getitem_2 _ _ _ _ Hu) as (u & Hu1 & Hu2).
  destruct (at_path_getitem_2 _ _ _ _ Hh) as (h & Hh1 & Hh2).
  destruct (at_path_getitem_2 _ _ _ _ Hb) as (b & Hb1 & Hb2).
  rewrite Hu1. cbn [bind]. rewrite Hu2. cbn [bind].
  rewrite Hh1. cbn [bind]. rewrite Hh2. cbn [bind].
  rewrite Hb1. cbn [bind]. rewrite Hb2. cbn [bind].
  rewrite (at_path_getitem_1 _ _ _ Hs). reflexivity.
Qed.

Lemma handle_pull_request_merged
      (fields : list (string * json))
      (pr author from_branch to_branch : json) (ts when : string)
      (d : doc) :
  Json.lookup fields "action" = Some (JStr "closed") ->
  Json.lookup fields "pull_request" = Some pr ->
  at_path pr ["merged"] = Some (JBool true) ->
  at_path pr ["user"; "login"] = Some author ->
  at_path pr ["head"; "ref"] = Some from_branch ->
  at_path pr ["base"; "ref"] = Some to_branch ->
  at_path pr ["merged_at"] = Some (JStr ts) ->
  format_timestamp host ts = Ok when ->
  handle_pull_request host str_of (JObj fields) d
  = Next (mkdoc (inserted_at d)
                (merged_sentence (fmt str_of author)
                                 (fmt str_of from_branch)
                                 (fmt str_of to_branch) when)).
Proof.
  intros Ha Hpr Hm Hu Hh Hb Hs Hw. unfold handle_pull_request.
  rewrite !get_obj, Ha, Hpr. cbn [bind eq_str].
  change (String.eqb "closed" "opened") with false.
  change (String.eqb "closed" "closed") with true. cbv iota.
  destruct (at_path_1 _ _ _ Hm) as (prf & -> & Hl).
  rewrite get_obj, Hl. cbn [bind truthy].
  unfold pull_request_branch.
  rewrite (pull_request_fields_ok _ _ _ _ _ _ Hu Hh Hb Hs).
  cbn [call_format_timestamp]. rewrite Hw. reflexivity.
Qed.

Lemma handle_pull_request_other_action
      (fields : list (string * json)) (d : doc) :
  Json.lookup fields "action" <> Some (JStr "opened") ->
  Json.lookup fields "action" <> Some (JStr "closed") ->
  handle_pull_request host str_of (JObj fields) d
  = Return (jsonify_status "ignored-pull-action" 200).
Proof.
  intros Hopened Hclosed. unfold handle_pull_request.
  rewrite !get_obj. cbn [bind].
  assert (Hneq : forall s,
             Json.lookup fields "action" <> Some (JStr s) ->
             s <> EmptyString ->
             eq_str (match Json.lookup fields "action" with
                     | Some x => x
                     | None => JStr EmptyString
                     end) s = false).
  { intros s Hs Hne. destruct (Json.lookup fields "action") as [a|].
    - destruct a; try reflexivity. cbn [eq_str].
      apply String.eqb_neq. congruence.
    - cbn [eq_str]. apply String.eqb_neq. congruence. }
  rewrite (Hneq "opened" Hopened) by discriminate.
  rewrite (Hneq "closed" Hclosed) by discriminate.
  reflexivity.
Qed.

Lemma handle_pull_request_unmerged
      (fields : list (string * json)) (d : doc) :
  closed_unmerged fields ->
  handle_pull_request host str_of (JObj fields) d
  = Return (jsonify_status "ignored-pull-action" 200).
Proof.
  intros (Ha & Hpr). unfold handle_pull_request.
  rewrite !get_obj, Ha. cbn [bind eq_str].
  change (String.eqb "closed" "opened") with false.
  change (String.eqb "closed" "closed") with true. cbv iota.
  destruct Hpr as [-> | (pr & -> & Hm)].
  - reflexivity.
  - rewrite get_obj.
    destruct Hm as [-> | (m & -> & Hfalse)]; cbn [bind];
      [reflexivity | now rewrite Hfalse].
Qed.

End Handler.

End HandlerFacts.
(** * What a stored delivery has passed through *)

Module StoredFacts.
Import HandlerFacts.

Lemma getitem_at_path (v x : json) (k : string) :
  getitem v k = Ok x -> at_path v [k] = Some x.
Proof.
  destruct v as [| | | | | |fields]; cbn [getitem]; try discriminate.
  cbn [at_path]. destruct (Json.lookup fields k) as [y|]; [|discriminate].
  intros H. now injection H as ->.
Qed.

Lemma getitem_at_path_2 (v inner x : json) (k1 k2 : string) :
  getitem v k1 = Ok inner -> getitem inner k2 = Ok x ->
  at_path v [k1; k2] = Some x.
Proof.
  intros H1 H2. apply getitem_at_path in H2.
  destruct v as [| | | | | |fields]; cbn [getitem] in H1; try discriminate.
  cbn [at_path] in *. destruct (Json.lookup fields k1) as [y|]; [|discriminate].
  injection H1 as ->. exact H2.
Qed.

Lemma pull_request_fields_inv (pr author from_branch to_branch ts : json)
      (stamp : string) :
  pull_request_fields pr stamp = Ok (author, from_branch, to_branch, ts) ->
  at_path pr ["user"; "login"] = Some author
  /\ at_path pr ["head"; "ref"] = Some from_branch
  /\ at_path pr ["base"; "ref"] = Some to_branch
  /\ at_path pr [stamp] = Some ts.
Proof.
  unfold pull_request_fields.
  destruct (getitem pr "user") as [user|e] eqn:E1; cbn [bind]; [|discriminate].
  destruct (getitem user "login") as [a|e] eqn:E2; cbn [bind]; [|discriminate].
  destruct (getitem pr "head") as [head|e] eqn:E3; cbn [bind]; [|discriminate].
  destruct (getitem head "ref") as [f|e] eqn:E4; cbn [bind]; [|discriminate].
  destruct (getitem pr "base") as [base|e] eqn:E5; cbn [bind]; [|discriminate].
  destruct (getitem base "ref") as [t|e] eqn:E6; cbn [bind]; [|discriminate].
  destruct (getitem pr stamp) as [s|e] eqn:E7; cbn [bind]; [|discriminate].
  intros H. injection H as -> -> -> ->.
  split; [exact (getitem_at_path_2 _ _ _ _ _ E1 E2)|].
  split; [exact (getitem_at_path_2 _ _ _ _ _ E3 E4)|].
  split; [exact (getitem_at_path_2 _ _ _ _ _ E5 E6)|].
  exact (getitem_at_path _ _ _ E7).
Qed.

Section Stored.

Variable SECRET_TOKEN : string.
Variable host : Datetime.platform.
Variable str_of : json -> string.

(** The push branch falls through to the insert only with the three
    fields read and the timestamp normalised. *)
Lemma handle_push_stored (payload : json) (d d' : doc) :
  handle_push host str_of payload d = Next d' ->
  exists (author : json) (ref ts when : string),
    at_path payload ["pusher"; "name"] = Some author
    /\ at_path payload ["ref"] = Some (JStr ref)
    /\ at_path payload ["head_commit"; "timestamp"] = Some (JStr ts)
    /\ format_timestamp host ts = Ok when
    /\ d' = mkdoc (inserted_at d)
                  (pushed_sentence (fmt str_of author) (last_segment ref)
                                   when).
Proof.
  unfold handle_push.
  destruct (getitem payload "pusher") as [pusher|e] eqn:E1; cbn [bind];
    [|destruct e; discriminate].
  destruct (getitem pusher "name") as [author|e] eqn:E2; cbn [bind];
    [|destruct e; discriminate].
  destruct (getitem payload "ref") as [ref|e] eqn:E3; cbn [bind];
    [|destruct e; discriminate].
  destruct ref as [| | | |ref| |]; cbn [Json.split bind]; try discriminate.
  destruct (getitem payload "head_commit") as [head_commit|e] eqn:E4;
    cbn [bind]; [|destruct e; discriminate].
  destruct (getitem head_commit "timestamp") as [ts|e] eqn:E5; cbn [bind];
    [|destruct e; discriminate].
  destruct ts as [| | | |ts| |]; cbn [call_format_timestamp bind];
    try discriminate.
  destruct (format_timestamp host ts) as [when|e] eqn:Ew; cbn [bind];
    [|discriminate].
  intros H. injection H as <-.
  exists author, ref, ts, when.
  split; [exact (getitem_at_path_2 _ _ _ _ _ E1 E2)|].
  split; [exact (getitem_at_path _ _ _ E3)|].
  split; [exact (getitem_at_path_2 _ _ _ _ _ E4 E5)|].
  split; [exact Ew|].
  unfold set_formatted. rewrite last_item_split. reflexivity.
Qed.

Lemma pull_request_branch_stored (pr : json) (stamp : string)
      (text : json -> json -> json -> string -> string) (d d' : doc) :
  pull_request_branch host pr stamp text d = Next d' ->
  exists (author from_branch to_branch : json) (ts when : string),
    at_path pr ["user"; "login"] = Some author
    /\ at_path pr ["head"; "ref"] = Some from_branch
    /\ at_path pr ["base"; "ref"] = Some to_branch
    /\ at_path pr [stamp] = Some (JStr ts)
    /\ format_timestamp host ts = Ok when
    /\ d' = mkdoc (inserted_at d) (text author from_branch to_branch when).
Proof.
  unfold pull_request_branch.
  destruct (pull_request_fields pr stamp)
    as [[[[author from_branch] to_branch] ts]|e] eqn:Ef;
    [|destruct e; discriminate].
  destruct ts as [| | | |ts| |]; cbn [call_format_timestamp bind];
    try discriminate.
  destruct (format_timestamp host ts) as [when|e] eqn:Ew; cbn [bind];
    [|discriminate].
  intros H. injection H as <-.
  destruct (pull_request_fields_inv _ _ _ _ _ _ Ef) as (Ha & Hf & Ht & Hs).
  exists author, from_branch, to_branch, ts, when.
  repeat (split; [assumption|]). reflexivity.
Qed.

Lemma eq_str_true (v : json) (s : string) :
  eq_str v s = true -> v = JStr s.
Proof.
  destruct v; cbn [eq_str]; try discriminate.
  intros H. apply String.eqb_eq in H. now subst.
Qed.

(** The pull-request branch falls through to the insert only for an opened
    pull request, or a closed one whose [merged] is truthy, with the four
    fields read and the timestamp normalised. *)
Lemma handle_pull_request_stored (payload : json) (d d' : doc) :
  handle_pull_request host str_of payload d = Next d' ->
  exists (ts when sentence : string),
    classified str_of (Some "pull_request") payload ts when sentence
    /\ format_timestamp host ts = Ok when
    /\ d' = mkdoc (inserted_at d) sentence.
Proof.
  unfold handle_pull_request.
  destruct payload as [| | | | | |fields];
    try (cbn [get bind]; discriminate).
  rewrite !get_obj. cbn [bind].
  destruct (Json.lookup fields "action") as [action|] eqn:Eaction.
  2:{ cbn [eq_str String.eqb]. discriminate. }
  destruct (eq_str action "opened") eqn:Eopened.
  - apply eq_str_true in Eopened. subst action.
    intros H.
    destruct (pull_request_branch_stored _ _ _ _ _ H)
      as (author & from_branch & to_branch & ts & when
          & Ha & Hf & Ht & Hs & Hw & ->).
    destruct (Json.lookup fields "pull_request") as [pr|] eqn:Epr;
      [|discriminate Ha].
    exists ts, when, (opened_text str_of author from_branch to_branch when).
    split; [|split; [exact Hw|reflexivity]].
    right. split; [reflexivity|].
    exists fields, pr, author, from_branch, to_branch.
    repeat (split; [assumption || reflexivity|]).
    left. repeat (split; [assumption || reflexivity|]). reflexivity.
  - destruct (eq_str action "closed") eqn:Eclosed.
    2:{ cbn [bind]. discriminate. }
    apply eq_str_true in Eclosed. subst action.
    destruct (Json.lookup fields "pull_request") as [pr|] eqn:Epr.
    2:{ cbn [get Json.lookup bind truthy]. discriminate. }
    destruct pr as [| | | | | |prf]; cbn [get bind]; try discriminate.
    destruct (Json.lookup prf "merged") as [m|] eqn:Em; cbn [bind truthy];
      [|discriminate].
    destruct (truthy m) eqn:Etruthy; [|discriminate].
    intros H.
    destruct (pull_request_branch_stored _ _ _ _ _ H)
      as (author & from_branch & to_branch & ts & when
          & Ha & Hf & Ht & Hs & Hw & ->).
    exists ts, when, (merged_text str_of author from_branch to_branch when).
    split; [|split; [exact Hw|reflexivity]].
    right. split; [reflexivity|].
    exists fields, (JObj prf), author, from_branch, to_branch.
    repeat (split; [assumption || reflexivity|]).
    right. split; [exact Eaction|]. split.
    + exists m. cbn [at_path]. rewrite Em. split; [reflexivity|exact Etruthy].
    + split; [exact Hs|reflexivity].
Qed.

(** A delivery changes the collection only when its signature is accepted,
    its body is a JSON value, and that value has been classified and its
    timestamp normalised; the document appended carries the sentence. *)
Lemma handle_webhook_stored (utcnow : Z) (req : request)
      (collection : list doc) :
  snd (handle_webhook SECRET_TOKEN host str_of utcnow req collection)
  = collection
  \/ exists (payload : json) (ts when sentence : string),
       verify_signature SECRET_TOKEN (data req) (X_Hub_Signature req)
       = Ok true
       /\ get_json req = Some payload
       /\ classified str_of (X_GitHub_Event req) payload ts when sentence
       /\ format_timestamp host ts = Ok when
       /\ handle_webhook SECRET_TOKEN host str_of utcnow req collection
          = (Ok (jsonify_status "stored" 201),
             (collection ++ [mkdoc utcnow sentence])%list).
Proof.
  unfold handle_webhook.
  destruct (verify_signature SECRET_TOKEN (data req) (X_Hub_Signature req))
    as [[|]|e] eqn:Hsig; [| now left | now left].
  destruct (get_json req) as [payload|] eqn:Hjson; [|now left].
  assert (Hevent : forall name : string,
             String.eqb (match X_GitHub_Event req with
                         | Some e => e
                         | None => EmptyString
                         end) name = true ->
             name <> EmptyString ->
             X_GitHub_Event req = Some name).
  { intros name Heq Hne. apply String.eqb_eq in Heq.
    destruct (X_GitHub_Event req) as [e|]; congruence. }
  destruct (String.eqb _ "push") eqn:Epush.
  - destruct (handle_push host str_of payload (mkdoc utcnow EmptyString))
      as [d'|r|e] eqn:Hpush;
      [|destruct payload; now left | destruct payload; now left].
    destruct (handle_push_stored _ _ _ Hpush)
      as (author & ref & ts & when & Ha & Hr & Ht & Hw & ->).
    right. exists payload, ts, when,
      (pushed_sentence (fmt str_of author) (last_segment ref) when).
    split; [reflexivity|]. split; [reflexivity|]. split.
    { left. split; [apply (Hevent "push" Epush); discriminate|].
      now exists author, ref. }
    split; [exact Hw|].
    destruct payload; try reflexivity. discriminate Ha.
  - destruct (String.eqb _ "pull_request") eqn:Epr;
      [|destruct payload; now left].
    destruct (handle_pull_request host str_of payload
                                  (mkdoc utcnow EmptyString))
      as [d'|r|e] eqn:Hpr;
      [|destruct payload; now left | destruct payload; now left].
    destruct (handle_pull_request_stored _ _ _ Hpr)
      as (ts & when & sentence & Hc & Hw & ->).
    right. exists payload, ts, when, sentence.
    split; [reflexivity|]. split; [reflexivity|]. split.
    { rewrite (Hevent "pull_request" Epr) by discriminate. exact Hc. }
    split; [exact Hw|].
    destruct payload; try reflexivity.
    destruct Hc as [(Hx & _) | (_ & fields & ? & ? & ? & ? & Hp & _)];
      discriminate.
Qed.

End Stored.

Lemma classified_sentence (str_of : json -> string) (event : option string)
      (payload : json) (ts when sentence : string) :
  classified str_of event payload ts when sentence ->
  event_sentence when sentence.
Proof.
  intros [(_ & author & ref & _ & _ & _ & ->)
         | (_ & fields & pr & author & from_branch & to_branch
            & _ & _ & _ & _ & _
            & [(_ & _ & ->) | (_ & _ & _ & ->)])]; constructor.
Qed.

End StoredFacts.

(** * Test vectors of the runtime model *)

Example sha1_abc :
  Hmac.hexlify (Sha1.sha1 (PyStr.encode "abc"))
  = "a9993e364706816aba3e25717850c26c9cd0d89d".
Proof. vm_compute. reflexivity. Qed.

Example sha1_empty :
  Hmac.hexlify (Sha1.sha1 [])
  = "da39a3ee5e6b4b0d3255bfef95601890afd80709".
Proof. vm_compute. reflexivity. Qed.

Example sha1_two_blocks :
  Hmac.hexlify
    (Sha1.sha1
       (PyStr.encode "abcdbcdecdefdefgefghfghighijhijkijkljklmklmnlmnomnopnopq"))
  = "84983e441c3bd26ebaae4aa1f95129e5e54670f1".
Proof. vm_compute. reflexivity. Qed.

Example hmac_sha1_fox :
  Hmac.hexdigest (PyStr.encode "key")
                 (PyStr.encode "The quick brown fox jumps over the lazy dog")
  = "de7c9b85b8b78aa6bc8a7a36f70a90701c9db4d9".
Proof. vm_compute. reflexivity. Qed.

Example calendar_round_trip :
  Datetime.ord2ymd (Datetime.ymd2ord 2024 2 29) = (2024, 2, 29)
  /\ Datetime.ord2ymd Datetime.MAXORDINAL = (9999, 12, 31)
  /\ Datetime.ord2ymd 1 = (1, 1, 1).
Proof. repeat split. Qed.

(** A digest text with a character outside ASCII is refused by
    [hmac.compare_digest] with [TypeError], which [verify_signature] does not
    catch. *)
Example verify_signature_non_ascii_digest :
  verify_signature "s3cret" []
    (Some ("sha1=" ++ String (ascii_of_N 195) (String (ascii_of_N 169) EmptyString)))
  = Raise TypeError.
Proof. vm_compute. reflexivity. Qed.

(** An unparseable timestamp is a formatting failure, told apart from a
    missing field by its status. *)
Example push_unparseable_timestamp :
  handle_webhook EmptyString utc_host plain_str_of 0
    (unsigned_delivery "push"
       (JObj [("pusher", JObj [("name", JStr "alice")]);
              ("ref", JStr "refs/heads/main");
              ("head_commit", JObj [("timestamp", JStr "yesterday")])])) []
  = (Ok (jsonify_status "error-formatting" 200), []).
Proof. vm_compute. reflexivity. Qed.

(** A bad signature is answered 403 before anything else is looked at. *)
Example bad_signature_forbidden :
  handle_webhook "s3cret" utc_host plain_str_of 0
    (mkrequest [] (Some "sha1=00") (Some "push") (Some alice_push)) []
  = (Ok (abort 403 "Invalid signature"), []).
Proof. vm_compute. reflexivity. Qed.

(** Texts outside the documented grammar that the interpreter's parser
    lets through, and texts at the edge of the supported dates: the model
    returns what the interpreter returns. *)
Example fromisoformat_lenient :
  map Datetime.fromisoformat
      ["2021-04-01T21:30:00 +00:00"; "2021-04-01T21:30:00x+05:30";
       "2021-04-02T12:00:00.+05:30"; "2021-04-01T21:30:00+0530";
       "2021-04-01T21:30:00+05"; "20210401T213000+00:00";
       "2021-W13-4T21:30+00:00"; "2021-04-01T21:30:00.5+00:00";
       "2025-06-05T01:15:00+00:00:00.999999";
       "2021-04-01T21:30:00.123456 and more+01:00"]
  = map Ok
        [Datetime.mkdatetime 2021 4 1 21 30 0 0 (Some 0);
         Datetime.mkdatetime 2021 4 1 21 30 0 0 (Some 19800000000);
         Datetime.mkdatetime 2021 4 2 12 0 0 0 (Some 19800000000);
         Datetime.mkdatetime 2021 4 1 21 30 0 0 (Some 19800000000);
         Datetime.mkdatetime 2021 4 1 21 30 0 0 (Some 18000000000);
         Datetime.mkdatetime 2021 4 1 21 30 0 0 (Some 0);
         Datetime.mkdatetime 2021 4 1 21 30 0 0 (Some 0);
         Datetime.mkdatetime 2021 4 1 21 30 0 500000 (Some 0);
         Datetime.mkdatetime 2025 6 5 1 15 0 0 (Some 0);
         Datetime.mkdatetime 2021 4 1 21 30 0 123456 (Some 3600000000)].
Proof. vm_compute. reflexivity. Qed.

Example format_timestamp_edges :
  map (format_timestamp utc_host)
      ["0001-01-01T00:00:00+00:00:00.000001"; "0001-01-01T00:00:00";
       "0001-01-02T00:00:00"; "9999-12-31T23:59:59"; "2021-04-01";
       "2021-04-01T24:00:00Z"; "2025-06-05T01:15:00+00:00:00.999999";
       "2025-06-05T01:14:59Z"]
  = [Ok "1st January 1 - 12:00 AM UTC"; Raise ValueError;
     Ok "2nd January 1 - 12:00 AM UTC"; Ok "31st December 9999 - 11:59 PM UTC";
     Ok "1st April 2021 - 12:00 AM UTC"; Raise ValueError;
     Ok "5th June 2025 - 01:15 AM UTC"; Ok "5th June 2025 - 01:14 AM UTC"]
  /\ map (format_timestamp ist_host)
         ["9999-12-31T23:59:59"; "9999-12-31T18:29:59"; "0001-01-02T00:00:00";
          "0001-01-01T00:00:00"]
     = [Raise ValueError; Ok "31st December 9999 - 12:59 PM UTC";
        Ok "1st January 1 - 06:30 PM UTC"; Raise ValueError].
Proof. split; vm_compute; reflexivity. Qed.

(** * The signature verifier *)

(** C1.  With a non-empty secret, [verify_signature] returns true on the
    header [sha1=] followed by the hex digest of HMAC-SHA1(secret, body), and
    false on every header [sha1=<hex>] whose hex text differs from it: in
    particular on the genuine header presented with a body whose HMAC
    differs, and on the hex text of the digest with any one of its 160 bits
    flipped. *)
Theorem verify_signature_hmac (secret : string) (body : list byte) :
  secret <> EmptyString ->
  let key := PyStr.encode secret in
  let mac := Hmac.hexdigest key body in
  verify_signature secret body (Some (sha1_header mac)) = Ok true
  /\ (forall digest : string,
         is_hex digest = true -> digest <> mac ->
         verify_signature secret body (Some (sha1_header digest)) = Ok false)
  /\ (forall body' : list byte,
         Hmac.hexdigest key body' <> mac ->
         verify_signature secret body' (Some (sha1_header mac)) = Ok false)
  /\ (forall i : nat,
         (i < 160)%nat ->
         verify_signature secret body
           (Some (sha1_header (Hmac.hexlify (flip_bit i (Hmac.digest key body)))))
         = Ok false).
Proof.
  intros Hsecret key mac.
  assert (Hmac_hex : is_hex mac = true) by apply hexlify_is_hex.
  repeat split.
  - rewrite (verify_signature_well_formed secret body mac Hsecret Hmac_hex).
    fold key. fold mac. now rewrite String.eqb_refl.
  - intros digest Hhex Hneq.
    rewrite (verify_signature_well_formed secret body digest Hsecret Hhex).
    fold key. fold mac. f_equal. apply String.eqb_neq. congruence.
  - intros body' Hneq.
    rewrite (verify_signature_well_formed secret body' mac Hsecret Hmac_hex).
    fold key. f_equal. now apply String.eqb_neq.
  - intros i Hi.
    rewrite (verify_signature_well_formed secret body _ Hsecret
               (hexlify_is_hex _)).
    fold key. fold mac. f_equal. apply String.eqb_neq.
    unfold mac, Hmac.hexdigest. intros Heq.
    apply hexlify_injective in Heq. symmetry in Heq. revert Heq.
    apply flip_bit_changes. rewrite digest_length. lia.
Qed.

Lemma verify_signature_hmac_witness :
  "s3cret" <> EmptyString
  /\ verify_signature "s3cret" []
       (Some "sha1=3e48575537919d9187078407ecb88e44b1d674e4") = Ok true
  /\ verify_signature "s3cret" []
       (Some "sha1=3e48575537919d9187078407ecb88e44b1d674e5") = Ok false
  /\ verify_signature "s3cret" [x00]
       (Some "sha1=3e48575537919d9187078407ecb88e44b1d674e4") = Ok false
  /\ verify_signature "s3cret" []
       (Some "sha1=3f48575537919d9187078407ecb88e44b1d674e4") = Ok false.
Proof.
  assert (Hsecret : "s3cret" <> EmptyString) by discriminate.
  destruct (verify_signature_hmac "s3cret" [] Hsecret)
    as (Hgood & Hdigest & Hbody & Hflip).
  split; [exact Hsecret|]. split; [exact Hgood|]. split; [|split].
  - apply (Hdigest "3e48575537919d9187078407ecb88e44b1d674e5");
      [reflexivity | vm_compute; discriminate].
  - apply (Hbody [x00]). vm_compute. discriminate.
  - exact (Hflip 0%nat ltac:(lia)).
Defined.

(** C2.  [verify_signature] returns true for every body and every header
    value, absent and empty included, when the secret is empty or unset; and
    with any secret it returns true when the header is absent. *)
Theorem verify_signature_permissive :
  (forall (environ : string -> option string) (body : list byte)
          (header : option string),
      environ "SECRET_TOKEN" = None
      \/ environ "SECRET_TOKEN" = Some EmptyString ->
      verify_signature (SECRET_TOKEN_of environ) body header = Ok true)
  /\ (forall (secret : string) (body : list byte),
         verify_signature secret body None = Ok true).
Proof.
  split.
  - intros environ body header Henv.
    assert (Hsecret : SECRET_TOKEN_of environ = EmptyString).
    { unfold SECRET_TOKEN_of, getenv. destruct Henv as [-> | ->]; reflexivity. }
    rewrite Hsecret. destruct header as [header|]; reflexivity.
  - reflexivity.
Qed.

Lemma verify_signature_permissive_witness :
  (fun _ : string => @None string) "SECRET_TOKEN" = None
  /\ verify_signature (SECRET_TOKEN_of (fun _ => None)) [x01; x02]
       (Some "sha1=not-even-hex") = Ok true
  /\ verify_signature "s3cret" [x01; x02] None = Ok true.
Proof.
  destruct verify_signature_permissive as [Hunset Habsent].
  split; [reflexivity|]. split.
  - apply Hunset. left. reflexivity.
  - apply Habsent.
Defined.

(** C7 as stated fails on the empty header value: it is present, it has no
    [=], and with a secret configured the verifier accepts it. *)
Lemma verify_signature_empty_header_accepted :
  occurrences "=" EmptyString = 0%nat
  /\ verify_signature "s3cret" [] (Some EmptyString) = Ok true.
Proof. split; reflexivity. Qed.

(** C7, amended.  With a non-empty secret, every non-empty header that is not
    of the form [sha1=<digest>] (no [=], more than one [=], or a tag before
    the [=] other than [sha1]) makes [verify_signature] return false; no
    exception is raised. *)
Theorem verify_signature_rejects_malformed
        (secret : string) (body : list byte) (header : string) :
  secret <> EmptyString ->
  header <> EmptyString ->
  occurrences "=" header <> 1%nat
  \/ (exists tag digest : string,
         header = (tag ++ String "=" digest)%string
         /\ occurrences "=" tag = 0%nat
         /\ tag <> "sha1") ->
  verify_signature secret body (Some header) = Ok false.
Proof.
  intros Hsecret Hheader Hshape.
  unfold verify_signature.
  rewrite (truthy_nonempty secret Hsecret), (truthy_nonempty header Hheader).
  cbn [negb orb].
  destruct Hshape as [Hcount | (tag & digest & -> & Htag & Hne)].
  - rewrite unpack2_other; [reflexivity|].
    rewrite split_length. lia.
  - rewrite (split_at_first_sep "=" tag digest Htag).
    destruct (PyStr.split digest "=") as [|d [|d' ds]] eqn:E.
    + now destruct (split_not_nil "=" digest).
    + cbn [PyStr.unpack2].
      apply String.eqb_neq in Hne. now rewrite Hne.
    + reflexivity.
Qed.

Lemma verify_signature_rejects_malformed_witness :
  verify_signature "s3cret" [] (Some "sha1") = Ok false
  /\ verify_signature "s3cret" [] (Some "sha1=ab=cd") = Ok false
  /\ verify_signature "s3cret" []
       (Some "md5=3e48575537919d9187078407ecb88e44b1d674e4") = Ok false.
Proof.
  assert (Hsecret : "s3cret" <> EmptyString) by discriminate.
  split; [|split].
  - apply verify_signature_rejects_malformed;
      [exact Hsecret | discriminate | left; vm_compute; discriminate].
  - apply verify_signature_rejects_malformed;
      [exact Hsecret | discriminate | left; vm_compute; discriminate].
  - apply verify_signature_rejects_malformed;
      [exact Hsecret | discriminate | right].
    exists "md5", "3e48575537919d9187078407ecb88e44b1d674e4".
    split; [reflexivity | split; [reflexivity | discriminate]].
Defined.

(** * The timestamp normaliser: claims *)

(** C5 as stated fails at the edge of the supported dates: the timestamp
    parses and carries an explicit offset, but its UTC instant lies before
    year 1 and the conversion raises [OverflowError]. *)
Lemma format_timestamp_overflow :
  Datetime.fromisoformat (ts_fixed "0001-01-01T00:00:00+01:00")
  = Ok (Datetime.mkdatetime 1 1 1 0 0 0 0 (Some 3600000000))
  /\ format_timestamp utc_host "0001-01-01T00:00:00+01:00"
     = Raise OverflowError.
Proof. split; vm_compute; reflexivity. Qed.

(** C5, amended.  For every timestamp that [fromisoformat] parses (after the
    rewriting of a trailing [Z]) with a UTC offset, and whose UTC date lies
    within the years 1 to 9999, [format_timestamp] returns
    [{day}{ordinalSuffix} {FullMonthName} {Year} - {hh}:{mm} {AM|PM} UTC],
    with two-digit 12-hour time, of the valid UTC datetime denoting the same
    instant; a trailing [Z] stands for the offset [+00:00]; and the two
    examples of the specification evaluate as stated. *)
Theorem format_timestamp_utc :
  (forall (host : Datetime.platform) (iso_ts : string)
          (dt : Datetime.datetime) (off : Z),
      Datetime.fromisoformat (ts_fixed iso_ts) = Ok dt ->
      Datetime.tzinfo dt = Some off ->
      0 < (Datetime.to_micro dt - off) / Datetime.US_PER_DAY
        <= Datetime.MAXORDINAL ->
      exists u : Datetime.datetime,
        format_timestamp host iso_ts = Ok (rendered host u)
        /\ Datetime.check_fields u = true
        /\ Datetime.tzinfo u = Datetime.utc
        /\ Datetime.to_micro u = Datetime.to_micro dt - off
        /\ forall v : Datetime.datetime,
             Datetime.check_fields v = true ->
             Datetime.to_micro v = Datetime.to_micro dt - off ->
             same_clock u v)
  /\ (forall body : string,
         occurrences "Z" body = 0%nat ->
         ts_fixed (body ++ "Z") = (body ++ "+00:00")%string)
  /\ (forall host : Datetime.platform,
         format_timestamp host "2025-06-05T01:15:53Z"
         = Ok "5th June 2025 - 01:15 AM UTC")
  /\ (forall host : Datetime.platform,
         format_timestamp host "2025-01-21T13:05:00+05:30"
         = Ok "21st January 2025 - 07:35 AM UTC").
Proof.
  split; [|split; [|split]].
  - intros host iso_ts dt off Hparse Htz Hrange.
    destruct (NormalizerFacts.format_timestamp_in_range host iso_ts dt Hparse)
      as (u & Hu & Hv & Hutc & Hmicro).
    + rewrite Htz. discriminate.
    + unfold utcoffset_us. now rewrite Htz.
    + exists u. unfold utcoffset_us in Hmicro. rewrite Htz in Hmicro.
      split; [exact Hu|]. split; [exact Hv|]. split; [exact Hutc|].
      split; [exact Hmicro|].
      intros v Hvalid Hsame.
      apply DatetimeFacts.to_micro_injective; [exact Hv | exact Hvalid | lia].
  - exact NormalizerFacts.ts_fixed_trailing_z.
  - intros [lo [|]]; vm_compute; reflexivity.
  - intros [lo [|]]; vm_compute; reflexivity.
Qed.

Lemma format_timestamp_utc_witness :
  exists u : Datetime.datetime,
    format_timestamp utc_host "2025-01-21T13:05:00+05:30"
    = Ok (rendered utc_host u)
    /\ Datetime.check_fields u = true
    /\ Datetime.tzinfo u = Datetime.utc
    /\ Datetime.to_micro u
       = Datetime.to_micro
           (Datetime.mkdatetime 2025 1 21 13 5 0 0 (Some 19800000000))
         - 19800000000.
Proof.
  destruct format_timestamp_utc as (Hgeneral & _).
  destruct (Hgeneral utc_host "2025-01-21T13:05:00+05:30"
                     (Datetime.mkdatetime 2025 1 21 13 5 0 0
                                          (Some 19800000000))
                     19800000000)
    as (u & Hu & Hv & Hutc & Hmicro & _);
    [| | |exists u; split; [exact Hu|]; split; [exact Hv|];
          split; [exact Hutc|exact Hmicro]].
  - vm_compute. reflexivity.
  - reflexivity.
  - vm_compute. split; [reflexivity | discriminate].
Defined.

(** C6.  For a day of the month from 1 to 31 the suffix chosen by
    [format_timestamp] is [th] for 11 to 13 and otherwise follows the last
    digit (1 [st], 2 [nd], 3 [rd], anything else [th]); the text returned by
    [format_timestamp] starts with such a day and its suffix; and days 1, 11,
    12, 13, 21, 22, 23 and 24 read 1st, 11th, 12th, 13th, 21st, 22nd, 23rd
    and 24th. *)
Theorem ordinal_suffix_rule :
  (forall d : Z,
      1 <= d <= 31 ->
      suffix d
      = if (11 <=? d) && (d <=? 13) then "th"
        else if d mod 10 =? 1 then "st"
        else if d mod 10 =? 2 then "nd"
        else if d mod 10 =? 3 then "rd"
        else "th")
  /\ (forall (host : Datetime.platform) (iso_ts out : string),
         format_timestamp host iso_ts = Ok out ->
         exists (u : Datetime.datetime) (rest : string),
           1 <= Datetime.day u <= 31
           /\ out = (PyStr.str_of_nonneg (Datetime.day u)
                     ++ suffix (Datetime.day u) ++ rest)%string)
  /\ map (fun d => (PyStr.str_of_nonneg d ++ suffix d)%string)
         [1; 11; 12; 13; 21; 22; 23; 24]
     = ["1st"; "11th"; "12th"; "13th"; "21st"; "22nd"; "23rd"; "24th"].
Proof.
  split; [|split].
  - intros d Hd. rewrite NormalizerFacts.suffix_spec. unfold ordinal_suffix.
    destruct ((11 <=? d) && (d <=? 13)); [reflexivity|].
    destruct (d mod 10 =? 1) eqn:E1; [apply Z.eqb_eq in E1; now rewrite E1|].
    destruct (d mod 10 =? 2) eqn:E2; [apply Z.eqb_eq in E2; now rewrite E2|].
    destruct (d mod 10 =? 3) eqn:E3; [apply Z.eqb_eq in E3; now rewrite E3|].
    apply Z.eqb_neq in E1, E2, E3.
    destruct (d mod 10) as [|p|p]; [reflexivity| |reflexivity].
    destruct p as [[q|q|]|[q|q|]|]; try reflexivity; try lia;
      destruct q; reflexivity.
  - intros host iso_ts out Hout.
    destruct (NormalizerFacts.format_timestamp_ok host iso_ts out Hout)
      as (u & Hv & ->).
    destruct (DatetimeFacts.check_fields_ranges u Hv)
      as (_ & _ & Hday & _).
    pose proof (NormalizerFacts.days_in_month_le_31
                  (Datetime.year u) (Datetime.month u)).
    exists u. eexists. split; [lia|].
    unfold rendered. rewrite <- NormalizerFacts.suffix_spec. reflexivity.
  - vm_compute. reflexivity.
Qed.

Lemma ordinal_suffix_rule_witness :
  1 <= 22 <= 31
  /\ suffix 22 = "nd"
  /\ exists (u : Datetime.datetime) (rest : string),
       1 <= Datetime.day u <= 31
       /\ "22nd January 2025 - 07:35 AM UTC"
          = (PyStr.str_of_nonneg (Datetime.day u)
             ++ suffix (Datetime.day u) ++ rest)%string.
Proof.
  destruct ordinal_suffix_rule as (Hrule & Hout & _).
  split; [lia|]. split.
  - exact (Hrule 22 ltac:(lia)).
  - apply (Hout utc_host "2025-01-22T13:05:00+05:30").
    vm_compute. reflexivity.
Defined.

(** C10.  The timestamp [2025-06-05T01:15:53] has neither a trailing [Z] nor
    an offset and parses to a naive datetime; [format_timestamp] does not
    fail on it but renders the instant obtained by subtracting the host's
    local UTC offset, so that two hosts return different texts for it. *)
Theorem naive_timestamp_host_dependent :
  let iso_ts := "2025-06-05T01:15:53" in
  let dt := Datetime.mkdatetime 2025 6 5 1 15 53 0 None in
  PyStr.endswith iso_ts "Z" = false
  /\ Datetime.fromisoformat (ts_fixed iso_ts) = Ok dt
  /\ (forall host : Datetime.platform,
         -86400 < Datetime.local_utcoffset host dt < 86400 ->
         exists u : Datetime.datetime,
           format_timestamp host iso_ts = Ok (rendered host u)
           /\ Datetime.to_micro u
              = Datetime.to_micro dt
                - Datetime.local_utcoffset host dt * Datetime.US_PER_SECOND)
  /\ format_timestamp utc_host iso_ts = Ok "5th June 2025 - 01:15 AM UTC"
  /\ format_timestamp ist_host iso_ts = Ok "4th June 2025 - 07:45 PM UTC".
Proof.
  intros iso_ts dt.
  assert (Hparse : Datetime.fromisoformat (ts_fixed iso_ts) = Ok dt)
    by (vm_compute; reflexivity).
  split; [reflexivity|]. split; [exact Hparse|].
  split; [|split; vm_compute; reflexivity].
  intros host Hlocal.
  destruct (NormalizerFacts.format_timestamp_in_range host iso_ts dt Hparse)
    as (u & Hu & _ & _ & Hmicro).
  - intros _. exact Hlocal.
  - unfold utcoffset_us. cbn [Datetime.tzinfo dt].
    assert (Hdt : Datetime.to_micro dt = 63884769353000000)
      by (vm_compute; reflexivity).
    rewrite Hdt.
    unfold Datetime.US_PER_DAY, Datetime.US_PER_SECOND, Datetime.MAXORDINAL.
    Z.div_mod_to_equations. lia.
  - exists u. split; [exact Hu|]. exact Hmicro.
Qed.

Lemma naive_timestamp_host_dependent_witness :
  -86400 < 19800 < 86400
  /\ exists u : Datetime.datetime,
       format_timestamp ist_host "2025-06-05T01:15:53"
       = Ok (rendered ist_host u)
       /\ Datetime.to_micro u
          = Datetime.to_micro (Datetime.mkdatetime 2025 6 5 1 15 53 0 None)
            - 19800 * Datetime.US_PER_SECOND.
Proof.
  split; [lia|].
  destruct naive_timestamp_host_dependent as (_ & _ & Hhosts & _).
  cbv zeta in Hhosts.
  assert (Hoff : Datetime.local_utcoffset
                   ist_host (Datetime.mkdatetime 2025 6 5 1 15 53 0 None)
                 = 19800) by (vm_compute; reflexivity).
  destruct (Hhosts ist_host) as (u & Hu & Hmicro).
  - rewrite Hoff. lia.
  - exists u. split; [exact Hu|]. rewrite Hoff in Hmicro. exact Hmicro.
Defined.

(** * The webhook handler: claims *)




(** C4 as stated fails: a close whose [merged] is a non-empty string is
    stored although [merged] is not [true], because the handler tests
    [merged] for truth and not for being [true]; and a pull_request payload
    that is not an object is not ignored, [AttributeError] escapes. *)
Lemma pull_request_claim_counterexample :
  at_path (bob_pull_request "closed" (JStr "no")) ["pull_request"; "merged"]
  = Some (JStr "no")
  /\ handle_webhook EmptyString utc_host plain_str_of 0
       (unsigned_delivery "pull_request" (bob_pull_request "closed" (JStr "no")))
       []
     = (Ok (jsonify_status "stored" 201),
        [mkdoc 0 (merged_sentence "bob" "feature" "main"
                                  "2nd April 2021 - 12:00 PM UTC")])
  /\ handle_webhook EmptyString utc_host plain_str_of 0
       (unsigned_delivery "pull_request" (JArr [])) []
     = (Raise AttributeError, []).
Proof. split; [|split]; vm_compute; reflexivity. Qed.

(** C4, amended.  For a verified pull_request delivery whose payload is an
    object: when the action is [closed], [pull_request.merged] is [true] and
    [user.login], [head.ref], [base.ref] and a string [merged_at] that
    [format_timestamp] normalises are present, the handler answers 201 and
    appends exactly ["{author}" merged branch "{fromBranch}" to "{toBranch}"
    on {normalizedTimestamp}]; when the action is neither [opened] nor
    [closed], or is [closed] with the pull request absent or [merged] absent
    or false, the handler answers 200 [ignored-pull-action] and stores
    nothing. *)
Theorem pull_request_classification
        (secret : string) (host : Datetime.platform) (str_of : json -> string)
        (utcnow : Z) (req : request) (fields : list (string * json))
        (collection : list doc) :
  X_GitHub_Event req = Some "pull_request" ->
  get_json req = Some (JObj fields) ->
  verify_signature secret (data req) (X_Hub_Signature req) = Ok true ->
  (forall (pr author from_branch to_branch : json) (ts when : string),
      Json.lookup fields "action" = Some (JStr "closed") ->
      Json.lookup fields "pull_request" = Some pr ->
      at_path pr ["merged"] = Some (JBool true) ->
      at_path pr ["user"; "login"] = Some author ->
      at_path pr ["head"; "ref"] = Some from_branch ->
      at_path pr ["base"; "ref"] = Some to_branch ->
      at_path pr ["merged_at"] = Some (JStr ts) ->
      format_timestamp host ts = Ok when ->
      handle_webhook secret host str_of utcnow req collection
      = (Ok (jsonify_status "stored" 201),
         (collection
            ++ [mkdoc utcnow
                      (merged_sentence (fmt str_of author)
                                       (fmt str_of from_branch)
                                       (fmt str_of to_branch) when)])%list))
  /\ (Json.lookup fields "action" <> Some (JStr "opened") ->
      Json.lookup fields "action" <> Some (JStr "closed") ->
      handle_webhook secret host str_of utcnow req collection
      = (Ok (jsonify_status "ignored-pull-action" 200), collection))
  /\ (closed_unmerged fields ->
      handle_webhook secret host str_of utcnow req collection
      = (Ok (jsonify_status "ignored-pull-action" 200), collection)).
Proof.
  intros Hevent Hjson Hsig.
  assert (Hdispatch :
            handle_webhook secret host str_of utcnow req collection
            = match handle_pull_request host str_of (JObj fields)
                                        (mkdoc utcnow EmptyString) with
              | Next d' =>
                  (Ok (jsonify_status "stored" 201), insert_one collection d')
              | Return r => (Ok r, collection)
              | Throw e => (Raise e, collection)
              end).
  { rewrite (HandlerFacts.handle_webhook_dispatch
               secret host str_of utcnow req (JObj fields) collection
               Hsig Hjson) by discriminate.
    rewrite Hevent. reflexivity. }
  rewrite Hdispatch. split; [|split].
  - intros pr author from_branch to_branch ts when Ha Hpr Hm Hu Hh Hb Hs Hw.
    now rewrite (HandlerFacts.handle_pull_request_merged
                   host str_of fields pr author from_branch to_branch ts when
                   _ Ha Hpr Hm Hu Hh Hb Hs Hw).
  - intros Hopened Hclosed.
    now rewrite (HandlerFacts.handle_pull_request_other_action
                   host str_of fields _ Hopened Hclosed).
  - intros Hunmerged.
    now rewrite (HandlerFacts.handle_pull_request_unmerged
                   host str_of fields _ Hunmerged).
Qed.

Lemma pull_request_classification_witness :
  handle_webhook EmptyString utc_host plain_str_of 7
    (unsigned_delivery "pull_request" (bob_pull_request "closed" (JBool true)))
    []
  = (Ok (jsonify_status "stored" 201),
     [mkdoc 7 (merged_sentence "bob" "feature" "main"
                               "2nd April 2021 - 12:00 PM UTC")])
  /\ handle_webhook EmptyString utc_host plain_str_of 7
       (unsigned_delivery "pull_request"
                          (bob_pull_request "labeled" (JBool false))) []
     = (Ok (jsonify_status "ignored-pull-action" 200), [])
  /\ handle_webhook EmptyString utc_host plain_str_of 7
       (unsigned_delivery "pull_request"
                          (bob_pull_request "closed" (JBool false))) []
     = (Ok (jsonify_status "ignored-pull-action" 200), []).
Proof.
  split; [|split].
  - destruct (pull_request_classification
                EmptyString utc_host plain_str_of 7
                (unsigned_delivery "pull_request"
                                   (bob_pull_request "closed" (JBool true)))
                (fields_of (bob_pull_request "closed" (JBool true))) []
                eq_refl eq_refl eq_refl) as (Hmerged & _).
    apply (Hmerged
             (JObj [("merged", JBool true);
                    ("user", JObj [("login", JStr "bob")]);
                    ("head", JObj [("ref", JStr "feature")]);
                    ("base", JObj [("ref", JStr "main")]);
                    ("created_at", JStr "2021-04-01T09:00:00Z");
                    ("merged_at", JStr "2021-04-02T12:00:00Z")])
             (JStr "bob") (JStr "feature") (JStr "main")
             "2021-04-02T12:00:00Z" "2nd April 2021 - 12:00 PM UTC");
      vm_compute; reflexivity.
  - destruct (pull_request_classification
                EmptyString utc_host plain_str_of 7
                (unsigned_delivery "pull_request"
                                   (bob_pull_request "labeled" (JBool false)))
                (fields_of (bob_pull_request "labeled" (JBool false))) []
                eq_refl eq_refl eq_refl) as (_ & Hother & _).
    apply Hother; vm_compute; discriminate.
  - destruct (pull_request_classification
                EmptyString utc_host plain_str_of 7
                (unsigned_delivery "pull_request"
                                   (bob_pull_request "closed" (JBool false)))
                (fields_of (bob_pull_request "closed" (JBool false))) []
                eq_refl eq_refl eq_refl) as (_ & _ & Hunmerged).
    apply Hunmerged. split; [reflexivity|]. right.
    eexists. split; [reflexivity|]. right.
    exists (JBool false). split; reflexivity.
Defined.

(** C8.  Whatever the delivery, the handler either leaves the collection
    unchanged, or answers 201 after appending one document, and then the
    signature of this delivery was accepted, its body is a JSON value that
    was classified (a push, an opened pull request or a closed one with a
    truthy [merged], with every field read from this payload), and
    [formatted] is the sentence built from those fields and from what
    [format_timestamp] returned for the payload's own timestamp field,
    hence not empty; so a collection without empty [formatted] fields stays
    one. *)
Theorem store_invariant
        (secret : string) (host : Datetime.platform) (str_of : json -> string)
        (utcnow : Z) (req : request) (collection : list doc) :
  let outcome := handle_webhook secret host str_of utcnow req collection in
  (snd outcome = collection
   \/ exists (payload : json) (ts when sentence : string),
        verify_signature secret (data req) (X_Hub_Signature req) = Ok true
        /\ get_json req = Some payload
        /\ classified str_of (X_GitHub_Event req) payload ts when sentence
        /\ format_timestamp host ts = Ok when
        /\ event_sentence when sentence
        /\ sentence <> EmptyString
        /\ outcome = (Ok (jsonify_status "stored" 201),
                      (collection ++ [mkdoc utcnow sentence])%list))
  /\ (Forall (fun d => formatted d <> EmptyString) collection ->
      Forall (fun d => formatted d <> EmptyString) (snd outcome)).
Proof.
  intros outcome. subst outcome.
  destruct (StoredFacts.handle_webhook_stored
              secret host str_of utcnow req collection)
    as [Hsame | (payload & ts & when & sentence
                 & Hsig & Hjson & Hclass & Hw & Heq)].
  - split; [now left|]. now rewrite Hsame.
  - pose proof (StoredFacts.classified_sentence _ _ _ _ _ _ Hclass) as Hs.
    pose proof (HandlerFacts.event_sentence_nonempty when sentence Hs) as Hne.
    split.
    + right. exists payload, ts, when, sentence.
      split; [exact Hsig|]. split; [exact Hjson|]. split; [exact Hclass|].
      split; [exact Hw|]. split; [exact Hs|]. split; [exact Hne|exact Heq].
    + intros Hall. rewrite Heq. cbn [snd].
      apply Forall_app. split; [exact Hall|].
      constructor; [exact Hne | constructor].
Qed.

Lemma store_invariant_witness :
  Forall (fun d => formatted d <> EmptyString)
         [mkdoc 1 "seed"]
  /\ Forall (fun d => formatted d <> EmptyString)
            (snd (handle_webhook EmptyString utc_host plain_str_of 7
                    (unsigned_delivery "push" alice_push) [mkdoc 1 "seed"])).
Proof.
  assert (Hseed : Forall (fun d => formatted d <> EmptyString)
                         [mkdoc 1 "seed"])
    by (constructor; [discriminate | constructor]).
  split; [exact Hseed|].
  destruct (store_invariant EmptyString utc_host plain_str_of 7
              (unsigned_delivery "push" alice_push) [mkdoc 1 "seed"])
    as (_ & Hinv).
  exact (Hinv Hseed).
Defined.

(** C9.  There are push deliveries in which every required field is present
    but a value has the wrong type, [ref] a number or [pusher] a string, for
    which the handler neither stores nor answers [ignored-key-error]: the
    exception escapes it, because only [KeyError] is turned into an ignore;
    the exceptions that escape the push branch are exactly of the kinds
    [TypeError] and [AttributeError]. *)
Theorem wrong_type_escapes :
  (at_path push_numeric_ref ["pusher"; "name"] = Some (JStr "alice")
   /\ at_path push_numeric_ref ["ref"] = Some (JInt 5)
   /\ at_path push_numeric_ref ["head_commit"; "timestamp"]
      = Some (JStr "2021-04-01T21:30:00Z")
   /\ forall (secret : string) (host : Datetime.platform)
             (str_of : json -> string) (utcnow : Z) (collection : list doc),
        handle_webhook secret host str_of utcnow
                       (unsigned_delivery "push" push_numeric_ref) collection
        = (Raise AttributeError, collection))
  /\ (at_path push_string_pusher ["pusher"] = Some (JStr "alice")
      /\ at_path push_string_pusher ["ref"] = Some (JStr "refs/heads/main")
      /\ at_path push_string_pusher ["head_commit"; "timestamp"]
         = Some (JStr "2021-04-01T21:30:00Z")
      /\ forall (secret : string) (host : Datetime.platform)
                (str_of : json -> string) (utcnow : Z) (collection : list doc),
           handle_webhook secret host str_of utcnow
                          (unsigned_delivery "push" push_string_pusher)
                          collection
           = (Raise TypeError, collection))
  /\ (forall (host : Datetime.platform) (str_of : json -> string)
             (payload : json) (d : doc) (e : exn),
         handle_push host str_of payload d = Throw e ->
         e = TypeError \/ e = AttributeError).
Proof.
  split; [|split].
  - split; [reflexivity|]. split; [reflexivity|]. split; [reflexivity|].
    intros secret host str_of utcnow collection. reflexivity.
  - split; [reflexivity|]. split; [reflexivity|]. split; [reflexivity|].
    intros secret host str_of utcnow collection. reflexivity.
  - exact HandlerFacts.handle_push_throw.
Qed.

Lemma wrong_type_escapes_witness :
  handle_push utc_host plain_str_of push_numeric_ref (mkdoc 0 EmptyString)
  = Throw AttributeError
  /\ (AttributeError = TypeError \/ AttributeError = AttributeError).
Proof.
  destruct wrong_type_escapes as (_ & _ & Hescape).
  assert (Hthrow : handle_push utc_host plain_str_of push_numeric_ref
                               (mkdoc 0 EmptyString) = Throw AttributeError)
    by reflexivity.
  split; [exact Hthrow|].
  exact (Hescape utc_host plain_str_of push_numeric_ref _ _ Hthrow).
Defined.

(** * The event store *)

Module StoreFacts.

Lemma insert_desc_perm (d : doc) (l : list doc) :
  Permutation (insert_desc d l) (d :: l).
Proof.
  induction l as [|x rest IH]; cbn [insert_desc]; [reflexivity|].
  destruct (inserted_at x <=? inserted_at d); [reflexivity|].
  rewrite IH. apply perm_swap.
Qed.

Lemma find_sorted_desc_perm (collection : list doc) :
  Permutation (find_sorted_desc collection) collection.
Proof.
  induction collection as [|d rest IH]; [reflexivity|].
  cbn [find_sorted_desc fold_right]. rewrite insert_desc_perm.
  now apply perm_skip.
Qed.

Lemma insert_desc_sorted (d : doc) (l : list doc) :
  StronglySorted newer_or_equal l ->
  StronglySorted newer_or_equal (insert_desc d l).
Proof.
  induction l as [|x rest IH]; cbn [insert_desc]; intros Hs.
  - constructor; [constructor | constructor].
  - apply StronglySorted_inv in Hs. destruct Hs as [Hrest Hx].
    destruct (inserted_at x <=? inserted_at d) eqn:E.
    + apply Z.leb_le in E. constructor.
      * constructor; assumption.
      * constructor; [exact E|].
        rewrite Forall_forall in *. intros y Hy.
        specialize (Hx y Hy). unfold newer_or_equal in *. lia.
    + apply Z.leb_gt in E. constructor; [now apply IH|].
      rewrite Forall_forall in *. intros y Hy.
      apply (Permutation_in _ (insert_desc_perm d rest)) in Hy.
      destruct Hy as [<- | Hy]; [unfold newer_or_equal; lia | now apply Hx].
Qed.

Lemma find_sorted_desc_sorted (collection : list doc) :
  StronglySorted newer_or_equal (find_sorted_desc collection).
Proof.
  induction collection as [|d rest IH]; [constructor|].
  cbn [find_sorted_desc fold_right]. now apply insert_desc_sorted.
Qed.

Lemma sorted_app (l1 l2 : list doc) :
  StronglySorted newer_or_equal (l1 ++ l2) ->
  StronglySorted newer_or_equal l1
  /\ forall a b, In a l1 -> In b l2 -> newer_or_equal a b.
Proof.
  induction l1 as [|x rest IH]; cbn [app]; intros Hs.
  - split; [constructor | intros a b []].
  - apply StronglySorted_inv in Hs. destruct Hs as [Hrest Hx].
    destruct (IH Hrest) as [Hs1 Hcross]. split.
    + constructor; [exact Hs1|].
      rewrite Forall_forall in *. intros y Hy. apply Hx, in_or_app. now left.
    + intros a b [<- | Ha] Hb.
      * rewrite Forall_forall in Hx. apply Hx, in_or_app. now right.
      * now apply Hcross.
Qed.


End StoreFacts.

(** X1.  [get_events] answers 200 with as many texts as there are documents,
    but never more than fifty; on an empty collection it answers the empty
    list. *)
Theorem get_events_length (collection : list doc) :
  List.length (fst (get_events collection))
  = Nat.min 50 (List.length collection)
  /\ snd (get_events collection) = 200.
Proof.
  split; [|reflexivity].
  unfold get_events. cbn [fst].
  rewrite length_map, length_firstn.
  now rewrite (Permutation_length (StoreFacts.find_sorted_desc_perm collection)).
Qed.

(** X2.  [get_events] returns the newest fifty, newest first: its texts
    are the [formatted] fields of fifty documents of the collection (of all
    of them when there are fewer), each document used once, in
    non-increasing order of [inserted_at], and no document left out is
    later than one returned. *)
Theorem get_events_newest_first (collection : list doc) :
  exists docs rest : list doc,
    fst (get_events collection) = map formatted docs
    /\ List.length docs = Nat.min 50 (List.length collection)
    /\ Permutation (docs ++ rest) collection
    /\ StronglySorted newer_or_equal docs
    /\ forall a b, In a docs -> In b rest -> inserted_at b <= inserted_at a.
Proof.
  exists (firstn 50 (find_sorted_desc collection)),
         (skipn 50 (find_sorted_desc collection)).
  split; [reflexivity|].
  split.
  { rewrite length_firstn.
    now rewrite (Permutation_length
                   (StoreFacts.find_sorted_desc_perm collection)). }
  rewrite firstn_skipn. split; [apply StoreFacts.find_sorted_desc_perm|].
  apply StoreFacts.sorted_app. rewrite firstn_skipn.
  apply StoreFacts.find_sorted_desc_sorted.
Qed.

(** * The signature verifier: further properties *)

Module SignatureFacts.

Lemma split_concat (sep : ascii) (s : string) :
  String.concat (String sep EmptyString) (PyStr.split s sep) = s.
Proof.
  induction s as [|c rest IH]; [reflexivity|].
  cbn [PyStr.split].
  destruct (PyStr.split rest sep) as [|piece pieces] eqn:E;
    [now destruct (split_not_nil sep rest)|].
  destruct (Ascii.eqb c sep) eqn:Ec.
  - apply Ascii.eqb_eq in Ec. subst c.
    change (String.concat (String sep EmptyString)
                          (EmptyString :: piece :: pieces))
      with (String sep (String.concat (String sep EmptyString)
                                      (piece :: pieces))).
    now rewrite IH.
  - destruct pieces as [|p ps].
    + cbn [String.concat] in *. now rewrite IH.
    + change (String.concat (String sep EmptyString)
                            (String c piece :: p :: ps))
        with (String c (String.concat (String sep EmptyString)
                                      (piece :: p :: ps))).
      now rewrite IH.
Qed.

Lemma split_pieces (sep : ascii) (s : string) :
  Forall (fun piece => occurrences sep piece = 0%nat) (PyStr.split s sep).
Proof.
  induction s as [|c rest IH]; [repeat constructor|].
  cbn [PyStr.split].
  destruct (PyStr.split rest sep) as [|piece pieces] eqn:E;
    [now destruct (split_not_nil sep rest)|].
  destruct (Ascii.eqb c sep) eqn:Ec.
  - constructor; [reflexivity | exact IH].
  - apply Forall_cons_iff in IH. destruct IH as [Hp Hps].
    constructor; [|exact Hps]. cbn [occurrences]. now rewrite Ec.
Qed.

(** A text that splits in two is its two pieces around one separator. *)
Lemma split_two (sep : ascii) (s a b : string) :
  PyStr.split s sep = [a; b] ->
  s = (a ++ String sep b)%string
  /\ occurrences sep a = 0%nat /\ occurrences sep b = 0%nat.
Proof.
  intros H. pose proof (split_concat sep s) as Hc.
  pose proof (split_pieces sep s) as Hp. rewrite H in Hc, Hp.
  apply Forall_cons_iff in Hp. destruct Hp as [Ha Hb].
  apply Forall_cons_iff in Hb. destruct Hb as [Hb _].
  cbn [String.concat] in Hc. now rewrite <- Hc.
Qed.

Lemma unpack2_ok {A : Type} (xs : list A) (a b : A) :
  PyStr.unpack2 xs = Ok (a, b) -> xs = [a; b].
Proof.
  destruct xs as [|x [|y [|z xs]]]; cbn; try discriminate.
  intros H. now injection H as -> ->.
Qed.

Lemma truthy_true (s : string) : PyStr.truthy s = true -> s <> EmptyString.
Proof. destruct s; [discriminate | discriminate]. Qed.

(** What [verify_signature] does once a secret is configured and the header
    splits into the tag [sha1] and a digest text. *)
Lemma verify_signature_sha1 (secret : string) (body : list byte)
      (digest : string) :
  secret <> EmptyString -> occurrences "=" digest = 0%nat ->
  verify_signature secret body (Some (sha1_header digest))
  = Hmac.compare_digest (Hmac.hexdigest (PyStr.encode secret) body) digest.
Proof.
  intros Hsecret Hocc.
  assert (Hsplit : PyStr.split (sha1_header digest) "=" = ["sha1"; digest]).
  { change (sha1_header digest) with ("sha1" ++ String "=" digest)%string.
    rewrite (split_at_first_sep "=" "sha1" digest eq_refl).
    now rewrite (split_without_sep "=" digest Hocc). }
  unfold verify_signature.
  rewrite (truthy_nonempty secret Hsecret), Hsplit. reflexivity.
Qed.

(** The cases of [verify_signature] on a header, with a secret configured. *)
Lemma verify_signature_cases (secret : string) (body : list byte)
      (header : string) :
  secret <> EmptyString -> header <> EmptyString ->
  verify_signature secret body (Some header) = Ok false
  \/ exists digest,
       header = sha1_header digest /\ occurrences "=" digest = 0%nat.
Proof.
  intros Hsecret Hheader. unfold verify_signature.
  rewrite (truthy_nonempty secret Hsecret), (truthy_nonempty header Hheader).
  cbn [negb orb].
  destruct (PyStr.unpack2 (PyStr.split header "=")) as [[sha_name signature]|e]
    eqn:E.
  - apply unpack2_ok in E. apply split_two in E.
    destruct E as (-> & Hname & Hsig).
    destruct (String.eqb sha_name "sha1") eqn:En; [|now left].
    apply String.eqb_eq in En. subst sha_name. right. now exists signature.
  - left. destruct (PyStr.split header "=") as [|x [|y [|z xs]]];
      cbn in E; try discriminate; injection E as <-; reflexivity.
Qed.

(** The only exception of [verify_signature]. *)
Lemma verify_signature_raise_inv (secret : string) (body : list byte)
      (header : option string) (e : exn) :
  verify_signature secret body header = Raise e ->
  e = TypeError
  /\ secret <> EmptyString
  /\ exists digest : string,
       header = Some (sha1_header digest)
       /\ occurrences "=" digest = 0%nat
       /\ PyStr.isascii digest = false.
Proof.
  intros Hraise.
  destruct header as [header|]; [|discriminate].
  destruct secret as [|c secret]; [discriminate|].
  destruct header as [|h header]; [discriminate|].
  assert (Hsecret : String c secret <> EmptyString) by discriminate.
  destruct (verify_signature_cases
              (String c secret) body (String h header) Hsecret)
    as [Hfalse | (digest & Hheader & Hocc)]; [discriminate| |].
  - rewrite Hfalse in Hraise. discriminate.
  - rewrite Hheader in Hraise.
    rewrite (verify_signature_sha1 _ body digest Hsecret Hocc) in Hraise.
    unfold Hmac.compare_digest in Hraise.
    assert (Hmac_ascii : PyStr.isascii
                           (Hmac.hexdigest (PyStr.encode (String c secret)) body)
                         = true)
      by apply is_hex_plain, hexlify_is_hex.
    rewrite Hmac_ascii in Hraise. cbn [andb] in Hraise.
    destruct (PyStr.isascii digest) eqn:Ed; [discriminate|].
    injection Hraise as <-.
    split; [reflexivity|]. split; [exact Hsecret|].
    exists digest. now rewrite Hheader.
Qed.

Lemma isascii_app (a b : string) :
  PyStr.isascii (a ++ b) = PyStr.isascii a && PyStr.isascii b.
Proof.
  induction a as [|c rest IH]; [reflexivity|].
  cbn [append PyStr.isascii]. now rewrite IH, andb_assoc.
Qed.

(** A pure-ASCII header other than the genuine one is refused. *)
Lemma verify_signature_refuses (secret : string) (body : list byte)
      (header : string) :
  secret <> EmptyString -> header <> EmptyString ->
  PyStr.isascii header = true ->
  header <> sha1_header (Hmac.hexdigest (PyStr.encode secret) body) ->
  verify_signature secret body (Some header) = Ok false.
Proof.
  intros Hsecret Hheader Hascii Hne.
  destruct (verify_signature_cases secret body header Hsecret Hheader)
    as [Hfalse | (digest & -> & Hocc)]; [exact Hfalse|].
  rewrite (verify_signature_sha1 _ body digest Hsecret Hocc).
  unfold sha1_header in Hascii. rewrite isascii_app in Hascii.
  apply andb_prop in Hascii. destruct Hascii as [_ Hd].
  rewrite compare_digest_ascii;
    [|apply is_hex_plain, hexlify_is_hex | exact Hd].
  f_equal. apply String.eqb_neq. intros Heq. apply Hne. now rewrite Heq.
Qed.

End SignatureFacts.

(** X3.  For a secret that [str.encode()] encodes, [verify_signature]
    raises exactly in one situation: the secret is not empty, the header is
    [sha1=] followed by a digest text without [=], and that text is not
    pure ASCII; the exception is then the [TypeError] of
    [hmac.compare_digest].  (A secret holding a lone surrogate is no string
    of the model: its [encode()] raises [UnicodeEncodeError] at the same
    place.) *)
Theorem verify_signature_raises
        (secret : string) (body : list byte) (header : option string)
        (e : exn) :
  PyStr.encodable secret = true ->
  (verify_signature secret body header = Raise e
   <-> e = TypeError
       /\ secret <> EmptyString
       /\ exists digest : string,
            header = Some (sha1_header digest)
            /\ occurrences "=" digest = 0%nat
            /\ PyStr.isascii digest = false).
Proof.
  intros _. split.
  - apply SignatureFacts.verify_signature_raise_inv.
  - intros (-> & Hsecret & digest & -> & Hocc & Hascii).
    rewrite (SignatureFacts.verify_signature_sha1 _ body digest Hsecret Hocc).
    unfold Hmac.compare_digest. rewrite Hascii. now rewrite andb_false_r.
Qed.

Lemma verify_signature_raises_witness :
  PyStr.encodable "s3cret" = true
  /\ verify_signature "s3cret" []
       (Some (sha1_header (String (ascii_of_N 195)
                                  (String (ascii_of_N 169) EmptyString))))
     = Raise TypeError.
Proof.
  split; [reflexivity|].
  apply (proj2 (verify_signature_raises "s3cret" [] _ TypeError eq_refl)).
  split; [reflexivity|]. split; [discriminate|].
  exists (String (ascii_of_N 195) (String (ascii_of_N 169) EmptyString)).
  split; [reflexivity|]. split; reflexivity.
Defined.

(** X4.  With a secret configured, the only non-empty header that
    [verify_signature] accepts is [sha1=] followed by the hex digest of
    HMAC-SHA1(secret, body). *)
Theorem verify_signature_accepts_only_genuine
        (secret : string) (body : list byte) (header : string) :
  secret <> EmptyString -> header <> EmptyString ->
  (verify_signature secret body (Some header) = Ok true
   <-> header = sha1_header (Hmac.hexdigest (PyStr.encode secret) body)).
Proof.
  intros Hsecret Hheader. split.
  - intros Hok.
    destruct (SignatureFacts.verify_signature_cases secret body header
                Hsecret Hheader) as [Hfalse | (digest & -> & Hocc)].
    + rewrite Hfalse in Hok. discriminate.
    + rewrite (SignatureFacts.verify_signature_sha1 _ body digest Hsecret Hocc)
        in Hok.
      unfold Hmac.compare_digest in Hok.
      destruct (PyStr.isascii _ && PyStr.isascii digest); [|discriminate].
      injection Hok as Hok. apply String.eqb_eq in Hok. now rewrite Hok.
  - intros ->.
    rewrite (verify_signature_well_formed
               secret body (Hmac.hexdigest (PyStr.encode secret) body) Hsecret
               (hexlify_is_hex _)).
    now rewrite String.eqb_refl.
Qed.

Lemma verify_signature_accepts_only_genuine_witness :
  verify_signature "s3cret" []
    (Some "sha1=3e48575537919d9187078407ecb88e44b1d674e4") = Ok true
  <-> "sha1=3e48575537919d9187078407ecb88e44b1d674e4"
      = sha1_header (Hmac.hexdigest (PyStr.encode "s3cret") []).
Proof.
  apply (verify_signature_accepts_only_genuine
           "s3cret" [] "sha1=3e48575537919d9187078407ecb88e44b1d674e4");
    discriminate.
Defined.

(** * The timestamp normaliser: further properties *)

(** X5.  A trailing [Z] means exactly the offset [+00:00]: for a text without
    any other [Z], [format_timestamp] gives the same outcome with either
    ending. *)
Theorem format_timestamp_z_is_zero_offset
        (host : Datetime.platform) (body : string) :
  occurrences "Z" body = 0%nat ->
  format_timestamp host (body ++ "Z")
  = format_timestamp host (body ++ "+00:00").
Proof.
  intros Hbody. unfold format_timestamp.
  rewrite (NormalizerFacts.ts_fixed_trailing_z body Hbody).
  now rewrite NormalizerMore.ts_fixed_offset.
Qed.

Lemma format_timestamp_z_is_zero_offset_witness :
  format_timestamp utc_host ("2025-06-05T01:15:53" ++ "Z")
  = format_timestamp utc_host ("2025-06-05T01:15:53" ++ "+00:00").
Proof.
  apply (format_timestamp_z_is_zero_offset utc_host "2025-06-05T01:15:53").
  reflexivity.
Defined.

(** X6.  For a timestamp parsed with a UTC offset, [format_timestamp] raises
    [OverflowError] exactly when the UTC date of its instant falls outside
    the years 1 to 9999, and returns a text exactly when it falls inside. *)
Theorem format_timestamp_overflow_iff
        (host : Datetime.platform) (iso_ts : string)
        (dt : Datetime.datetime) (off : Z) :
  Datetime.fromisoformat (ts_fixed iso_ts) = Ok dt ->
  Datetime.tzinfo dt = Some off ->
  (format_timestamp host iso_ts = Raise OverflowError
   <-> ~ supported_instant (Datetime.to_micro dt - off))
  /\ ((exists out, format_timestamp host iso_ts = Ok out)
      <-> supported_instant (Datetime.to_micro dt - off)).
Proof.
  intros Hparse Htz.
  destruct (NormalizerMore.format_timestamp_outcome host iso_ts dt Hparse)
    as [(Hn & _) | [(_ & Hs & Hr) | (_ & Hs & u & Hr & _)]];
    [congruence | |]; unfold utcoffset_us in Hs; rewrite Htz in Hs;
    rewrite Hr.
  - split; split; try tauto.
    + intros (out & H). discriminate.
  - split; split; try tauto; try discriminate.
    intros _. now exists (rendered host u).
Qed.

Lemma format_timestamp_overflow_iff_witness :
  format_timestamp utc_host "9999-12-31T23:30:00-01:00" = Raise OverflowError
  <-> ~ supported_instant
        (Datetime.to_micro
           (Datetime.mkdatetime 9999 12 31 23 30 0 0 (Some (-3600000000)))
         - -3600000000).
Proof.
  apply (format_timestamp_overflow_iff
           utc_host "9999-12-31T23:30:00-01:00"
           (Datetime.mkdatetime 9999 12 31 23 30 0 0 (Some (-3600000000)))
           (-3600000000)).
  - vm_compute. reflexivity.
  - reflexivity.
Defined.

(** X7.  [format_timestamp] raises nothing but [ValueError] and
    [OverflowError]; a text that [fromisoformat] rejects gives
    [ValueError]. *)
Theorem format_timestamp_exceptions
        (host : Datetime.platform) (iso_ts : string) :
  (forall e : exn,
      format_timestamp host iso_ts = Raise e ->
      e = ValueError \/ e = OverflowError)
  /\ (forall e : exn,
         Datetime.fromisoformat (ts_fixed iso_ts) = Raise e ->
         format_timestamp host iso_ts = Raise ValueError).
Proof.
  split.
  - intros e Hraise.
    destruct (Datetime.fromisoformat (ts_fixed iso_ts)) as [dt|e'] eqn:Hparse.
    + destruct (NormalizerMore.format_timestamp_outcome host iso_ts dt Hparse)
        as [(_ & _ & Hr) | [(_ & _ & Hr) | (_ & _ & u & Hr & _)]];
        rewrite Hr in Hraise; try discriminate;
        injection Hraise as <-; tauto.
    + unfold format_timestamp in Hraise. rewrite Hparse in Hraise.
      cbn [bind] in Hraise. injection Hraise as <-.
      left. exact (NormalizerFacts.fromisoformat_raises _ _ Hparse).
  - intros e Hparse. unfold format_timestamp. rewrite Hparse. cbn [bind].
    now rewrite (NormalizerFacts.fromisoformat_raises _ _ Hparse).
Qed.

Lemma format_timestamp_exceptions_witness :
  format_timestamp utc_host "yesterday" = Raise ValueError
  /\ (OverflowError = ValueError \/ OverflowError = OverflowError).
Proof.
  destruct (format_timestamp_exceptions utc_host "yesterday") as (_ & Hbad).
  destruct (format_timestamp_exceptions utc_host "0001-01-01T00:00:00+01:00")
    as (Honly & _).
  split.
  - apply (Hbad ValueError). vm_compute. reflexivity.
  - apply Honly. vm_compute. reflexivity.
Defined.

(** X8.  The text depends only on the minute of the instant: two timestamps
    with UTC offsets whose instants fall in the same minute, whatever their
    offsets, seconds and fractions, are rendered alike. *)
Theorem format_timestamp_same_minute
        (host : Datetime.platform) (ts1 ts2 : string)
        (dt1 dt2 : Datetime.datetime) (off1 off2 : Z) (out1 out2 : string) :
  Datetime.fromisoformat (ts_fixed ts1) = Ok dt1 ->
  Datetime.tzinfo dt1 = Some off1 ->
  Datetime.fromisoformat (ts_fixed ts2) = Ok dt2 ->
  Datetime.tzinfo dt2 = Some off2 ->
  (Datetime.to_micro dt1 - off1) / US_PER_MINUTE
  = (Datetime.to_micro dt2 - off2) / US_PER_MINUTE ->
  format_timestamp host ts1 = Ok out1 ->
  format_timestamp host ts2 = Ok out2 ->
  out1 = out2.
Proof.
  intros Hp1 Htz1 Hp2 Htz2 Hmin Ho1 Ho2.
  destruct (NormalizerMore.format_timestamp_outcome host ts1 dt1 Hp1)
    as [(_ & _ & Hr) | [(_ & _ & Hr) | (_ & _ & u1 & Hr1 & Hv1 & Hm1)]];
    try (rewrite Hr in Ho1; discriminate).
  destruct (NormalizerMore.format_timestamp_outcome host ts2 dt2 Hp2)
    as [(_ & _ & Hr) | [(_ & _ & Hr) | (_ & _ & u2 & Hr2 & Hv2 & Hm2)]];
    try (rewrite Hr in Ho2; discriminate).
  rewrite Hr1 in Ho1. rewrite Hr2 in Ho2.
  injection Ho1 as <-. injection Ho2 as <-.
  unfold utcoffset_us in Hm1, Hm2. rewrite Htz1 in Hm1. rewrite Htz2 in Hm2.
  apply NormalizerMore.same_minute_rendered; [exact Hv1 | exact Hv2 |].
  now rewrite Hm1, Hm2.
Qed.

Lemma format_timestamp_same_minute_witness :
  "21st January 2025 - 07:35 AM UTC" = "21st January 2025 - 07:35 AM UTC".
Proof.
  apply (format_timestamp_same_minute
           utc_host "2025-01-21T13:05:00+05:30" "2025-01-21T02:35:59.500-05:00"
           (Datetime.mkdatetime 2025 1 21 13 5 0 0 (Some 19800000000))
           (Datetime.mkdatetime 2025 1 21 2 35 59 500000 (Some (-18000000000)))
           19800000000 (-18000000000));
    vm_compute; reflexivity.
Defined.

(** * The webhook handler: further properties *)

Module HandlerMore.

Lemma getitem_raises (v : json) (k : string) (e : exn) :
  getitem v k = Raise e -> e = KeyError \/ e = TypeError.
Proof.
  unfold getitem.
  destruct v as [| | | | | |fields];
    try (intros H; injection H as <-; now right).
  destruct (Json.lookup fields k); [discriminate|].
  intros H. injection H as <-. now left.
Qed.

Lemma get_raises (v : json) (k : string) (default : json) (e : exn) :
  get v k default = Raise e -> e = AttributeError.
Proof.
  unfold get.
  destruct v as [| | | | | |fields];
    try (intros H; now injection H as <-).
  destruct (Json.lookup fields k); discriminate.
Qed.

Lemma pull_request_fields_raises (pr : json) (stamp : string) (e : exn) :
  pull_request_fields pr stamp = Raise e -> e = KeyError \/ e = TypeError.
Proof.
  unfold pull_request_fields.
  repeat match goal with
         | |- bind (getitem ?v ?k) _ = Raise e -> _ =>
             let E := fresh "E" in
             destruct (getitem v k) eqn:E; cbn [bind];
             [|intros H; injection H as <-; exact (getitem_raises _ _ _ E)]
         end.
  discriminate.
Qed.

Lemma pull_request_fields_missing (pr : json) (stamp : string) :
  pull_request_key_missing pr stamp ->
  pull_request_fields pr stamp = Raise KeyError.
Proof.
  unfold pull_request_fields.
  intros [Hu | [(Hu & Hh) | [(Hu & Hh & Hb) | (Hu & Hh & Hb & Hs)]]].
  - destruct (HandlerFacts.key_absent_2 _ _ _ Hu) as [-> | (u & -> & Hn)];
      [reflexivity|].
    cbn [bind]. now rewrite Hn.
  - destruct (HandlerFacts.at_path_some_2 _ _ _ Hu) as (u & a & -> & Ha).
    cbn [bind]. rewrite Ha. cbn [bind].
    destruct (HandlerFacts.key_absent_2 _ _ _ Hh) as [-> | (h & -> & Hn)];
      [reflexivity|].
    cbn [bind]. now rewrite Hn.
  - destruct (HandlerFacts.at_path_some_2 _ _ _ Hu) as (u & a & -> & Ha).
    cbn [bind]. rewrite Ha. cbn [bind].
    destruct (HandlerFacts.at_path_some_2 _ _ _ Hh) as (h & f & -> & Hf).
    cbn [bind]. rewrite Hf. cbn [bind].
    destruct (HandlerFacts.key_absent_2 _ _ _ Hb) as [-> | (b & -> & Hn)];
      [reflexivity|].
    cbn [bind]. now rewrite Hn.
  - destruct (HandlerFacts.at_path_some_2 _ _ _ Hu) as (u & a & -> & Ha).
    cbn [bind]. rewrite Ha. cbn [bind].
    destruct (HandlerFacts.at_path_some_2 _ _ _ Hh) as (h & f & -> & Hf).
    cbn [bind]. rewrite Hf. cbn [bind].
    destruct (HandlerFacts.at_path_some_2 _ _ _ Hb) as (b & t & -> & Ht).
    cbn [bind]. rewrite Ht. cbn [bind].
    now rewrite (HandlerFacts.key_absent_1 _ _ Hs).
Qed.

(** The text after the last [/]. *)
Lemma last_segment_spec (s : string) :
  occurrences "/" (last_segment s) = 0%nat
  /\ exists prefix,
       s = (prefix ++ last_segment s)%string
       /\ (prefix = EmptyString \/ exists p, prefix = (p ++ "/")%string).
Proof.
  induction s as [|c rest IH];
    [split; [reflexivity|]; exists EmptyString; split; [reflexivity|now left]|].
  cbn [last_segment].
  destruct (0 <? occurrences "/" rest)%nat eqn:Eo.
  - destruct IH as (Hocc & prefix & Hrest & Hp). split; [exact Hocc|].
    exists (String c prefix). split; [cbn [append]; now rewrite <- Hrest|].
    right. destruct Hp as [-> | (p & ->)].
    + apply Nat.ltb_lt in Eo. cbn [append] in Hrest. rewrite <- Hrest in Hocc.
      lia.
    + now exists (String c p).
  - apply Nat.ltb_ge in Eo.
    destruct (Ascii.eqb c "/") eqn:Ec.
    + apply Ascii.eqb_eq in Ec. subst c. split; [lia|].
      exists "/". split; [reflexivity|]. right. now exists EmptyString.
    + split; [cbn [occurrences]; rewrite Ec; lia|].
      exists EmptyString. split; [reflexivity|now left].
Qed.

Section Handler.

Variable SECRET_TOKEN : string.
Variable host : Datetime.platform.
Variable str_of : json -> string.

Lemma call_format_timestamp_fails (ts : json) :
  unformattable host ts ->
  exists e, call_format_timestamp host ts = Raise e.
Proof.
  intros Hbad. destruct ts as [| | | |iso_ts| |];
    try (now exists AttributeError).
  exact (Hbad iso_ts eq_refl).
Qed.

Lemma handle_push_return (payload : json) (d : doc) (r : response) :
  handle_push host str_of payload d = Return r ->
  r = jsonify_status "ignored-key-error" 200
  \/ r = jsonify_status "error-formatting" 200.
Proof.
  unfold handle_push.
  destruct (bind (getitem payload "pusher") _) as [[[author branch] ts]|e].
  - destruct (bind (call_format_timestamp host ts) _); [discriminate|].
    intros H. injection H as <-. now right.
  - destruct e; try discriminate. intros H. injection H as <-. now left.
Qed.

Lemma pull_request_branch_return (pr : json) (stamp : string)
      (text : json -> json -> json -> string -> string) (d : doc)
      (r : response) :
  pull_request_branch host pr stamp text d = Return r ->
  r = jsonify_status "ignored-key-error" 200
  \/ r = jsonify_status "error-formatting" 200.
Proof.
  unfold pull_request_branch.
  destruct (pull_request_fields pr stamp) as [[[[a f] t] ts]|e].
  - destruct (bind (call_format_timestamp host ts) _); [discriminate|].
    intros H. injection H as <-. now right.
  - destruct e; try discriminate. intros H. injection H as <-. now left.
Qed.

Lemma pull_request_branch_throw (pr : json) (stamp : string)
      (text : json -> json -> json -> string -> string) (d : doc) (e : exn) :
  pull_request_branch host pr stamp text d = Throw e -> e = TypeError.
Proof.
  unfold pull_request_branch.
  destruct (pull_request_fields pr stamp) as [[[[a f] t] ts]|x] eqn:E.
  - destruct (bind (call_format_timestamp host ts) _); discriminate.
  - destruct (pull_request_fields_raises _ _ _ E) as [-> | ->];
      [discriminate|]. intros H. now injection H as <-.
Qed.

Lemma handle_pull_request_return (payload : json) (d : doc) (r : response) :
  handle_pull_request host str_of payload d = Return r ->
  r = jsonify_status "ignored-key-error" 200
  \/ r = jsonify_status "error-formatting" 200
  \/ r = jsonify_status "ignored-pull-action" 200.
Proof.
  unfold handle_pull_request.
  destruct (bind (get payload "action" _) _) as [[action pr]|e];
    [|discriminate].
  destruct (eq_str action "opened").
  - intros H. apply pull_request_branch_return in H. tauto.
  - destruct (if eq_str action "closed" then _ else _) as [[|]|e];
      [|intros H; injection H as <-; tauto | discriminate].
    intros H. apply pull_request_branch_return in H. tauto.
Qed.

Lemma handle_pull_request_throw (payload : json) (d : doc) (e : exn) :
  handle_pull_request host str_of payload d = Throw e ->
  e = TypeError \/ e = AttributeError.
Proof.
  unfold handle_pull_request.
  destruct (get payload "action" (JStr EmptyString)) as [action|x] eqn:Ea;
    cbn [bind];
    [|intros H; injection H as <-; right; exact (get_raises _ _ _ _ Ea)].
  destruct (get payload "pull_request" (JObj [])) as [pr|x] eqn:Ep;
    cbn [bind];
    [|intros H; injection H as <-; right; exact (get_raises _ _ _ _ Ep)].
  destruct (eq_str action "opened").
  - intros H. left. exact (pull_request_branch_throw _ _ _ _ _ H).
  - destruct (eq_str action "closed").
    + destruct (get pr "merged" (JBool false)) as [m|x] eqn:Em; cbn [bind];
        [|intros H; injection H as <-; right; exact (get_raises _ _ _ _ Em)].
      destruct (truthy m); [|discriminate].
      intros H. left. exact (pull_request_branch_throw _ _ _ _ _ H).
    + discriminate.
Qed.

(** Every way [handle_webhook] can end. *)
Lemma handle_webhook_cases (utcnow : Z) (req : request)
      (collection : list doc) :
  (exists sentence,
      handle_webhook SECRET_TOKEN host str_of utcnow req collection
      = (Ok (jsonify_status "stored" 201),
         (collection ++ [mkdoc utcnow sentence])%list))
  \/ (exists r,
         handle_webhook SECRET_TOKEN host str_of utcnow req collection
         = (Ok r, collection)
         /\ In r [abort 403 "Invalid signature";
                  jsonify_status "no-json-payload" 400;
                  jsonify_status "ignored-key-error" 200;
                  jsonify_status "error-formatting" 200;
                  jsonify_status "ignored-pull-action" 200;
                  jsonify_status "ignored-event" 200])
  \/ (exists e,
         handle_webhook SECRET_TOKEN host str_of utcnow req collection
         = (Raise e, collection)
         /\ (e = TypeError \/ e = AttributeError)).
Proof.
  unfold handle_webhook.
  destruct (verify_signature SECRET_TOKEN (data req) (X_Hub_Signature req))
    as [[|]|e] eqn:Ev.
  - assert (Hflow : forall outcome : flow doc,
               (forall d', outcome = Next d' -> inserted_at d' = utcnow) ->
               (forall r, outcome = Return r ->
                          r = jsonify_status "ignored-key-error" 200
                          \/ r = jsonify_status "error-formatting" 200
                          \/ r = jsonify_status "ignored-pull-action" 200
                          \/ r = jsonify_status "ignored-event" 200) ->
               (forall e, outcome = Throw e ->
                          e = TypeError \/ e = AttributeError) ->
               (exists sentence,
                   match outcome with
                   | Next d' => (Ok (jsonify_status "stored" 201),
                                 insert_one collection d')
                   | Return r => (Ok r, collection)
                   | Throw e => (Raise e, collection)
                   end
                   = (Ok (jsonify_status "stored" 201),
                      (collection ++ [mkdoc utcnow sentence])%list))
               \/ (exists r,
                      match outcome with
                      | Next d' => (Ok (jsonify_status "stored" 201),
                                    insert_one collection d')
                      | Return r => (Ok r, collection)
                      | Throw e => (Raise e, collection)
                      end = (Ok r, collection)
                      /\ In r [abort 403 "Invalid signature";
                               jsonify_status "no-json-payload" 400;
                               jsonify_status "ignored-key-error" 200;
                               jsonify_status "error-formatting" 200;
                               jsonify_status "ignored-pull-action" 200;
                               jsonify_status "ignored-event" 200])
               \/ (exists e,
                      match outcome with
                      | Next d' => (Ok (jsonify_status "stored" 201),
                                    insert_one collection d')
                      | Return r => (Ok r, collection)
                      | Throw e => (Raise e, collection)
                      end = (Raise e, collection)
                      /\ (e = TypeError \/ e = AttributeError))).
    { intros [d'|r|e] Hn Hr He.
      - left. exists (formatted d'). unfold insert_one.
        destruct d' as [t f]. pose proof (Hn _ eq_refl) as Ht.
        cbn [inserted_at formatted] in *. now subst t.
      - right. left. exists r. split; [reflexivity|].
        cbn [In]. destruct (Hr r eq_refl) as [-> | [-> | [-> | ->]]]; tauto.
      - right. right. exists e. split; [reflexivity|]. now apply He. }
    assert (Hnojson :
              (exists r,
                  (Ok (jsonify_status "no-json-payload" 400), collection)
                  = (Ok r, collection)
                  /\ In r [abort 403 "Invalid signature";
                           jsonify_status "no-json-payload" 400;
                           jsonify_status "ignored-key-error" 200;
                           jsonify_status "error-formatting" 200;
                           jsonify_status "ignored-pull-action" 200;
                           jsonify_status "ignored-event" 200]))
      by (eexists; split; [reflexivity | cbn [In]; tauto]).
    destruct (get_json req) as [payload|]; [|right; left; exact Hnojson].
    destruct payload; try (right; left; exact Hnojson);
      apply Hflow;
      (destruct (String.eqb _ "push");
       [|destruct (String.eqb _ "pull_request")]);
      try (intros d' H;
           first [apply HandlerFacts.handle_push_next in H
                 |apply HandlerFacts.handle_pull_request_next in H
                 |discriminate H];
           destruct H as (ts & when & _ & _ & Ht); exact Ht);
      try (intros r H;
           first [apply handle_push_return in H
                 |apply handle_pull_request_return in H
                 |injection H as <-]; tauto);
      try (intros e H;
           first [apply HandlerFacts.handle_push_throw in H
                 |apply handle_pull_request_throw in H
                 |discriminate H]; exact H).
  - right. left. eexists. split; [reflexivity|]. cbn [In]. tauto.
  - right. right. exists e. split; [reflexivity|].
    left. exact (proj1 (SignatureFacts.verify_signature_raise_inv _ _ _ _ Ev)).
Qed.

End Handler.

End HandlerMore.

(** * The webhook handler: further properties *)

(** X9.  A verified pull_request delivery with action [opened] whose pull
    request holds [user.login], [head.ref], [base.ref] and a string
    [created_at] that [format_timestamp] normalises is answered 201 and
    stored as ["{author}" submitted a pull request from "{fromBranch}" to
    "{toBranch}" on {normalizedTimestamp}]. *)
Theorem pull_request_opened_stored
        (secret : string) (host : Datetime.platform) (str_of : json -> string)
        (utcnow : Z) (req : request) (fields : list (string * json))
        (collection : list doc)
        (pr author from_branch to_branch : json) (ts when : string) :
  X_GitHub_Event req = Some "pull_request" ->
  get_json req = Some (JObj fields) ->
  verify_signature secret (data req) (X_Hub_Signature req) = Ok true ->
  Json.lookup fields "action" = Some (JStr "opened") ->
  Json.lookup fields "pull_request" = Some pr ->
  at_path pr ["user"; "login"] = Some author ->
  at_path pr ["head"; "ref"] = Some from_branch ->
  at_path pr ["base"; "ref"] = Some to_branch ->
  at_path pr ["created_at"] = Some (JStr ts) ->
  format_timestamp host ts = Ok when ->
  handle_webhook secret host str_of utcnow req collection
  = (Ok (jsonify_status "stored" 201),
     (collection
        ++ [mkdoc utcnow
                  (submitted_sentence (fmt str_of author)
                                      (fmt str_of from_branch)
                                      (fmt str_of to_branch) when)])%list).
Proof.
  intros Hevent Hjson Hsig Ha Hpr Hu Hh Hb Hs Hw.
  rewrite (HandlerFacts.handle_webhook_dispatch
             secret host str_of utcnow req (JObj fields) collection Hsig Hjson)
    by discriminate.
  rewrite Hevent.
  change (String.eqb "pull_request" "push") with false.
  change (String.eqb "pull_request" "pull_request") with true. cbv iota.
  unfold handle_pull_request.
  rewrite !HandlerFacts.get_obj, Ha, Hpr. cbn [bind eq_str].
  change (String.eqb "opened" "opened") with true. cbv iota.
  unfold pull_request_branch.
  rewrite (HandlerFacts.pull_request_fields_ok _ _ _ _ _ _ Hu Hh Hb Hs).
  cbn [call_format_timestamp]. rewrite Hw. reflexivity.
Qed.

Lemma pull_request_opened_stored_witness :
  handle_webhook EmptyString utc_host plain_str_of 7
    (unsigned_delivery "pull_request" (bob_pull_request "opened" (JBool false)))
    []
  = (Ok (jsonify_status "stored" 201),
     [mkdoc 7 (submitted_sentence "bob" "feature" "main"
                                  "1st April 2021 - 09:00 AM UTC")]).
Proof.
  apply (pull_request_opened_stored
           EmptyString utc_host plain_str_of 7
           (unsigned_delivery "pull_request"
                              (bob_pull_request "opened" (JBool false)))
           (fields_of (bob_pull_request "opened" (JBool false))) []
           (JObj [("merged", JBool false);
                  ("user", JObj [("login", JStr "bob")]);
                  ("head", JObj [("ref", JStr "feature")]);
                  ("base", JObj [("ref", JStr "main")]);
                  ("created_at", JStr "2021-04-01T09:00:00Z");
                  ("merged_at", JStr "2021-04-02T12:00:00Z")])
           (JStr "bob") (JStr "feature") (JStr "main")
           "2021-04-01T09:00:00Z" "1st April 2021 - 09:00 AM UTC");
    vm_compute; reflexivity.
Defined.

(** X10.  A verified pull_request delivery that is [opened], or [closed]
    with a truthy [merged], and whose pull request (the empty object when the
    key is absent) lacks one of [user.login], [head.ref], [base.ref] or its
    timestamp field at an absent key, is answered 200 [ignored-key-error] and
    nothing is stored. *)
Theorem pull_request_missing_key_ignored
        (secret : string) (host : Datetime.platform) (str_of : json -> string)
        (utcnow : Z) (req : request) (fields : list (string * json))
        (collection : list doc) :
  X_GitHub_Event req = Some "pull_request" ->
  get_json req = Some (JObj fields) ->
  verify_signature secret (data req) (X_Hub_Signature req) = Ok true ->
  let pr := match Json.lookup fields "pull_request" with
            | Some x => x
            | None => JObj []
            end in
  (Json.lookup fields "action" = Some (JStr "opened")
   /\ pull_request_key_missing pr "created_at")
  \/ (Json.lookup fields "action" = Some (JStr "closed")
      /\ (exists prf m, pr = JObj prf /\ Json.lookup prf "merged" = Some m
                        /\ truthy m = true)
      /\ pull_request_key_missing pr "merged_at") ->
  handle_webhook secret host str_of utcnow req collection
  = (Ok (jsonify_status "ignored-key-error" 200), collection).
Proof.
  intros Hevent Hjson Hsig pr Hcase.
  rewrite (HandlerFacts.handle_webhook_dispatch
             secret host str_of utcnow req (JObj fields) collection Hsig Hjson)
    by discriminate.
  rewrite Hevent.
  change (String.eqb "pull_request" "push") with false.
  change (String.eqb "pull_request" "pull_request") with true. cbv iota.
  unfold handle_pull_request. rewrite !HandlerFacts.get_obj. fold pr.
  destruct Hcase as [(Ha & Hmiss) | (Ha & (prf & m & Hpr & Hm & Ht) & Hmiss)];
    rewrite Ha; cbn [bind eq_str].
  - change (String.eqb "opened" "opened") with true. cbv iota.
    unfold pull_request_branch.
    now rewrite (HandlerMore.pull_request_fields_missing _ _ Hmiss).
  - change (String.eqb "closed" "opened") with false.
    change (String.eqb "closed" "closed") with true. cbv iota.
    rewrite Hpr in *. rewrite HandlerFacts.get_obj, Hm. cbn [bind].
    rewrite Ht. unfold pull_request_branch.
    now rewrite (HandlerMore.pull_request_fields_missing _ _ Hmiss).
Qed.

Lemma pull_request_missing_key_ignored_witness :
  handle_webhook EmptyString utc_host plain_str_of 7
    (unsigned_delivery "pull_request" (JObj [("action", JStr "opened")])) []
  = (Ok (jsonify_status "ignored-key-error" 200), []).
Proof.
  apply (pull_request_missing_key_ignored
           EmptyString utc_host plain_str_of 7
           (unsigned_delivery "pull_request" (JObj [("action", JStr "opened")]))
           [("action", JStr "opened")] [] eq_refl eq_refl eq_refl).
  left. split; [reflexivity|]. left. reflexivity.
Defined.

(** X11.  A verified push delivery whose payload holds [pusher.name], a
    string [ref] and a [head_commit.timestamp] that cannot be formatted (not
    a string, or a string [format_timestamp] raises on) is answered 200
    [error-formatting] and nothing is stored. *)
Theorem push_unformattable_timestamp
        (secret : string) (host : Datetime.platform) (str_of : json -> string)
        (utcnow : Z) (req : request) (payload : json)
        (collection : list doc) (author ts : json) (ref : string) :
  X_GitHub_Event req = Some "push" ->
  get_json req = Some payload ->
  verify_signature secret (data req) (X_Hub_Signature req) = Ok true ->
  at_path payload ["pusher"; "name"] = Some author ->
  at_path payload ["ref"] = Some (JStr ref) ->
  at_path payload ["head_commit"; "timestamp"] = Some ts ->
  unformattable host ts ->
  handle_webhook secret host str_of utcnow req collection
  = (Ok (jsonify_status "error-formatting" 200), collection).
Proof.
  intros Hevent Hjson Hsig Hauthor Href Hts Hbad.
  destruct (HandlerFacts.at_path_getitem_2 _ _ _ _ Hauthor)
    as (pusher & Hp1 & Hp2).
  destruct (HandlerFacts.at_path_getitem_2 _ _ _ _ Hts)
    as (head_commit & Hh1 & Hh2).
  pose proof (HandlerFacts.at_path_getitem_1 _ _ _ Href) as Hr.
  destruct (HandlerMore.call_format_timestamp_fails host ts Hbad) as (e & He).
  rewrite (HandlerFacts.handle_webhook_dispatch
             secret host str_of utcnow req payload collection Hsig Hjson)
    by (intros ->; discriminate).
  rewrite Hevent. change (String.eqb "push" "push") with true. cbv iota.
  unfold handle_push.
  rewrite Hp1. cbn [bind]. rewrite Hp2. cbn [bind]. rewrite Hr.
  cbn [bind Json.split]. rewrite Hh1. cbn [bind]. rewrite Hh2.
  cbn [bind]. rewrite He. reflexivity.
Qed.

Lemma push_unformattable_timestamp_witness :
  handle_webhook EmptyString utc_host plain_str_of 7
    (unsigned_delivery "push"
       (JObj [("pusher", JObj [("name", JStr "alice")]);
              ("ref", JStr "refs/heads/main");
              ("head_commit", JObj [("timestamp", JInt 1617312600)])])) []
  = (Ok (jsonify_status "error-formatting" 200), []).
Proof.
  apply (push_unformattable_timestamp
           EmptyString utc_host plain_str_of 7 _
           (JObj [("pusher", JObj [("name", JStr "alice")]);
                  ("ref", JStr "refs/heads/main");
                  ("head_commit", JObj [("timestamp", JInt 1617312600)])])
           [] (JStr "alice") (JInt 1617312600) "refs/heads/main");
    try reflexivity.
  intros iso_ts H. discriminate H.
Defined.

(** X12.  A verified pull_request delivery that is [opened], or [closed] with
    a truthy [merged], whose pull request holds the three names but a
    timestamp field that cannot be formatted, is answered 200
    [error-formatting] and nothing is stored. *)
Theorem pull_request_unformattable_timestamp
        (secret : string) (host : Datetime.platform) (str_of : json -> string)
        (utcnow : Z) (req : request) (fields prf : list (string * json))
        (collection : list doc) (stamp : string)
        (author from_branch to_branch ts : json) :
  X_GitHub_Event req = Some "pull_request" ->
  get_json req = Some (JObj fields) ->
  verify_signature secret (data req) (X_Hub_Signature req) = Ok true ->
  Json.lookup fields "pull_request" = Some (JObj prf) ->
  (Json.lookup fields "action" = Some (JStr "opened")
   /\ stamp = "created_at")
  \/ (Json.lookup fields "action" = Some (JStr "closed")
      /\ (exists m, Json.lookup prf "merged" = Some m /\ truthy m = true)
      /\ stamp = "merged_at") ->
  at_path (JObj prf) ["user"; "login"] = Some author ->
  at_path (JObj prf) ["head"; "ref"] = Some from_branch ->
  at_path (JObj prf) ["base"; "ref"] = Some to_branch ->
  at_path (JObj prf) [stamp] = Some ts ->
  unformattable host ts ->
  handle_webhook secret host str_of utcnow req collection
  = (Ok (jsonify_status "error-formatting" 200), collection).
Proof.
  intros Hevent Hjson Hsig Hpr Hcase Hu Hh Hb Hs Hbad.
  destruct (HandlerMore.call_format_timestamp_fails host ts Hbad) as (e & He).
  rewrite (HandlerFacts.handle_webhook_dispatch
             secret host str_of utcnow req (JObj fields) collection Hsig Hjson)
    by discriminate.
  rewrite Hevent.
  change (String.eqb "pull_request" "push") with false.
  change (String.eqb "pull_request" "pull_request") with true. cbv iota.
  unfold handle_pull_request. rewrite !HandlerFacts.get_obj, Hpr.
  destruct Hcase as [(Ha & ->) | (Ha & (m & Hm & Ht) & ->)];
    rewrite Ha; cbn [bind eq_str].
  - change (String.eqb "opened" "opened") with true. cbv iota.
    unfold pull_request_branch.
    rewrite (HandlerFacts.pull_request_fields_ok _ _ _ _ _ _ Hu Hh Hb Hs).
    now rewrite He.
  - change (String.eqb "closed" "opened") with false.
    change (String.eqb "closed" "closed") with true. cbv iota.
    rewrite HandlerFacts.get_obj, Hm. cbn [bind]. rewrite Ht.
    unfold pull_request_branch.
    rewrite (HandlerFacts.pull_request_fields_ok _ _ _ _ _ _ Hu Hh Hb Hs).
    now rewrite He.
Qed.

Lemma pull_request_unformattable_timestamp_witness :
  handle_webhook EmptyString utc_host plain_str_of 7
    (unsigned_delivery "pull_request"
       (JObj [("action", JStr "closed");
              ("pull_request",
               JObj [("merged", JBool true);
                     ("user", JObj [("login", JStr "bob")]);
                     ("head", JObj [("ref", JStr "feature")]);
                     ("base", JObj [("ref", JStr "main")]);
                     ("merged_at", JNull)])])) []
  = (Ok (jsonify_status "error-formatting" 200), []).
Proof.
  apply (pull_request_unformattable_timestamp
           EmptyString utc_host plain_str_of 7 _
           [("action", JStr "closed");
            ("pull_request",
             JObj [("merged", JBool true);
                   ("user", JObj [("login", JStr "bob")]);
                   ("head", JObj [("ref", JStr "feature")]);
                   ("base", JObj [("ref", JStr "main")]);
                   ("merged_at", JNull)])]
           [("merged", JBool true);
            ("user", JObj [("login", JStr "bob")]);
            ("head", JObj [("ref", JStr "feature")]);
            ("base", JObj [("ref", JStr "main")]);
            ("merged_at", JNull)]
           [] "merged_at" (JStr "bob") (JStr "feature") (JStr "main") JNull);
    try reflexivity.
  - right. split; [reflexivity|]. split; [|reflexivity].
    exists (JBool true). split; reflexivity.
  - intros iso_ts H. discriminate H.
Defined.

(** X13.  The branch a stored push sentence names never contains [/]: it is
    what follows the last [/] of [ref], so a ref without [/] is taken whole
    and a branch name with a [/] in it is cut to its last part. *)
Theorem push_branch_has_no_slash
        (secret : string) (host : Datetime.platform) (str_of : json -> string)
        (utcnow : Z) (req : request) (payload : json)
        (collection : list doc) (author : json) (ref ts when : string) :
  X_GitHub_Event req = Some "push" ->
  get_json req = Some payload ->
  verify_signature secret (data req) (X_Hub_Signature req) = Ok true ->
  at_path payload ["pusher"; "name"] = Some author ->
  at_path payload ["ref"] = Some (JStr ref) ->
  at_path payload ["head_commit"; "timestamp"] = Some (JStr ts) ->
  format_timestamp host ts = Ok when ->
  exists branch prefix : string,
    handle_webhook secret host str_of utcnow req collection
    = (Ok (jsonify_status "stored" 201),
       (collection
          ++ [mkdoc utcnow (pushed_sentence (fmt str_of author) branch when)])%list)
    /\ occurrences "/" branch = 0%nat
    /\ ref = (prefix ++ branch)%string
    /\ (prefix = EmptyString \/ exists p, prefix = (p ++ "/")%string).
Proof.
  intros Hevent Hjson Hsig Hauthor Href Hts Hwhen.
  destruct (HandlerFacts.at_path_getitem_2 _ _ _ _ Hauthor)
    as (pusher & Hp1 & Hp2).
  destruct (HandlerFacts.at_path_getitem_2 _ _ _ _ Hts)
    as (head_commit & Hh1 & Hh2).
  pose proof (HandlerFacts.at_path_getitem_1 _ _ _ Href) as Hr.
  destruct (HandlerMore.last_segment_spec ref) as (Hocc & prefix & Hsplit & Hp).
  exists (last_segment ref), prefix.
  split; [|split; [exact Hocc | split; [exact Hsplit | exact Hp]]].
  rewrite (HandlerFacts.handle_webhook_dispatch
             secret host str_of utcnow req payload collection Hsig Hjson)
    by (intros ->; discriminate).
  rewrite Hevent. change (String.eqb "push" "push") with true. cbv iota.
  rewrite (HandlerFacts.handle_push_ok host str_of payload pusher author
             head_commit ref ts when _ Hp1 Hp2 Hr Hh1 Hh2 Hwhen).
  reflexivity.
Qed.

Lemma push_branch_has_no_slash_witness :
  exists branch prefix : string,
    handle_webhook EmptyString utc_host plain_str_of 7
      (unsigned_delivery "push"
         (JObj [("pusher", JObj [("name", JStr "alice")]);
                ("ref", JStr "refs/heads/feature/login");
                ("head_commit",
                 JObj [("timestamp", JStr "2021-04-01T21:30:00Z")])])) []
    = (Ok (jsonify_status "stored" 201),
       [mkdoc 7 (pushed_sentence "alice" branch
                                 "1st April 2021 - 09:30 PM UTC")])
    /\ occurrences "/" branch = 0%nat
    /\ "refs/heads/feature/login" = (prefix ++ branch)%string
    /\ (prefix = EmptyString \/ exists p, prefix = (p ++ "/")%string).
Proof.
  apply (push_branch_has_no_slash
           EmptyString utc_host plain_str_of 7 _
           (JObj [("pusher", JObj [("name", JStr "alice")]);
                  ("ref", JStr "refs/heads/feature/login");
                  ("head_commit",
                   JObj [("timestamp", JStr "2021-04-01T21:30:00Z")])])
           [] (JStr "alice") "refs/heads/feature/login"
           "2021-04-01T21:30:00Z" "1st April 2021 - 09:30 PM UTC");
    vm_compute; reflexivity.
Defined.

(** X14.  Every delivery ends in one of three ways: answered 201 [stored]
    with exactly one document appended, stamped with the clock reading;
    answered with one of the six other responses (403, 400
    [no-json-payload], 200 [ignored-key-error], [error-formatting],
    [ignored-pull-action], [ignored-event]) with the collection untouched; or
    with an exception and the collection untouched.  Documents already
    stored are never changed or removed. *)
Theorem handle_webhook_responses
        (secret : string) (host : Datetime.platform) (str_of : json -> string)
        (utcnow : Z) (req : request) (collection : list doc) :
  (exists sentence : string,
      handle_webhook secret host str_of utcnow req collection
      = (Ok (jsonify_status "stored" 201),
         (collection ++ [mkdoc utcnow sentence])%list))
  \/ (exists r : response,
         handle_webhook secret host str_of utcnow req collection
         = (Ok r, collection)
         /\ In r [abort 403 "Invalid signature";
                  jsonify_status "no-json-payload" 400;
                  jsonify_status "ignored-key-error" 200;
                  jsonify_status "error-formatting" 200;
                  jsonify_status "ignored-pull-action" 200;
                  jsonify_status "ignored-event" 200])
  \/ (exists e : exn,
         handle_webhook secret host str_of utcnow req collection
         = (Raise e, collection)).
Proof.
  destruct (HandlerMore.handle_webhook_cases
              secret host str_of utcnow req collection)
    as [Hstored | [Hother | (e & He & _)]].
  - now left.
  - right. now left.
  - right. right. now exists e.
Qed.

(** X15.  For a pull_request payload, the only exceptions that escape the
    classification are [AttributeError] and [TypeError]: a [KeyError] of a
    lookup and every exception of [format_timestamp] is turned into a
    response.  [AttributeError] escapes exactly when the payload is not an
    object, or the action is [closed] and [pull_request] is present but is
    not an object. *)
Theorem pull_request_escaping_exceptions
        (host : Datetime.platform) (str_of : json -> string)
        (payload : json) (d : doc) (e : exn) :
  handle_pull_request host str_of payload d = Throw e ->
  (e = TypeError \/ e = AttributeError)
  /\ (e = AttributeError
      <-> (forall fields, payload <> JObj fields)
          \/ exists (fields : list (string * json)) (pr : json),
               payload = JObj fields
               /\ Json.lookup fields "action" = Some (JStr "closed")
               /\ Json.lookup fields "pull_request" = Some pr
               /\ forall prf, pr <> JObj prf).
Proof.
  intros Hthrow.
  split; [exact (HandlerMore.handle_pull_request_throw
                   host str_of payload d e Hthrow)|].
  unfold handle_pull_request in Hthrow.
  destruct payload as [| | | | | |fields];
    try (cbn [get bind] in Hthrow; injection Hthrow as <-;
         split; [intros _; left; intros fields; discriminate | reflexivity]).
  rewrite !HandlerFacts.get_obj in Hthrow. cbn [bind] in Hthrow.
  assert (Hobj : forall A : Prop,
             (forall fields' : list (string * json),
                 JObj fields <> JObj fields') -> A).
  { intros A H. exfalso. exact (H fields eq_refl). }
  destruct (eq_str _ "opened") eqn:Eopened.
  - pose proof (HandlerMore.pull_request_branch_throw _ _ _ _ _ _ Hthrow)
      as ->.
    split; [discriminate|].
    intros [H | (fields' & pr & Hp & Haction & _)]; [exact (Hobj _ H)|].
    injection Hp as <-. rewrite Haction in Eopened. discriminate.
  - destruct (eq_str _ "closed") eqn:Eclosed.
    + assert (Haction : Json.lookup fields "action" = Some (JStr "closed")).
      { destruct (Json.lookup fields "action") as [action|].
        - apply StoredFacts.eq_str_true in Eclosed. now subst.
        - cbn in Eclosed. discriminate. }
      destruct (Json.lookup fields "pull_request") as [pr|] eqn:Epr.
      * destruct pr as [| | | | | |prf];
          try (cbn [get bind] in Hthrow; injection Hthrow as <-;
               split; [|reflexivity]; intros _; right;
               eexists fields, _;
               split; [reflexivity|];
               split; [exact Haction|];
               split; [exact Epr|intros prf; discriminate]).
        cbn [get bind] in Hthrow.
        destruct (Json.lookup prf "merged") as [m|]; cbn [bind] in Hthrow;
          [|discriminate].
        destruct (truthy m); [|discriminate].
        pose proof (HandlerMore.pull_request_branch_throw _ _ _ _ _ _ Hthrow)
          as ->.
        split; [discriminate|].
        intros [H | (fields' & pr & Hp & _ & Hpr & Hno)]; [exact (Hobj _ H)|].
        injection Hp as <-. rewrite Epr in Hpr. injection Hpr as <-.
        exfalso. exact (Hno prf eq_refl).
      * cbn [get bind Json.lookup truthy] in Hthrow. discriminate.
    + cbn [bind] in Hthrow. discriminate.
Qed.

Lemma pull_request_escaping_exceptions_witness :
  (AttributeError = TypeError \/ AttributeError = AttributeError)
  /\ (AttributeError = AttributeError
      <-> (forall fields, JArr [] <> JObj fields)
          \/ exists (fields : list (string * json)) (pr : json),
               JArr [] = JObj fields
               /\ Json.lookup fields "action" = Some (JStr "closed")
               /\ Json.lookup fields "pull_request" = Some pr
               /\ forall prf, pr <> JObj prf).
Proof.
  apply (pull_request_escaping_exceptions
           utc_host plain_str_of (JArr []) (mkdoc 0 EmptyString)
           AttributeError).
  reflexivity.
Defined.

(** X16.  With a secret configured, a delivery whose signature header is
    non-empty, pure ASCII and different from [sha1=] followed by the hex
    HMAC-SHA1 of the raw body is answered 403 and nothing is stored,
    whatever its event type and body. *)
Theorem forged_delivery_forbidden
        (secret : string) (host : Datetime.platform) (str_of : json -> string)
        (utcnow : Z) (req : request) (collection : list doc)
        (header : string) :
  secret <> EmptyString ->
  X_Hub_Signature req = Some header ->
  header <> EmptyString ->
  PyStr.isascii header = true ->
  header <> sha1_header (Hmac.hexdigest (PyStr.encode secret) (data req)) ->
  handle_webhook secret host str_of utcnow req collection
  = (Ok (abort 403 "Invalid signature"), collection).
Proof.
  intros Hsecret Hsig Hheader Hascii Hne. unfold handle_webhook.
  rewrite Hsig.
  now rewrite (SignatureFacts.verify_signature_refuses
                 secret (data req) header Hsecret Hheader Hascii Hne).
Qed.

Lemma forged_delivery_forbidden_witness :
  handle_webhook "s3cret" utc_host plain_str_of 0
    (mkrequest [] (Some "sha1=3e48575537919d9187078407ecb88e44b1d674e5")
               (Some "push") (Some alice_push)) []
  = (Ok (abort 403 "Invalid signature"), []).
Proof.
  apply (forged_delivery_forbidden
           "s3cret" utc_host plain_str_of 0
           (mkrequest [] (Some "sha1=3e48575537919d9187078407ecb88e44b1d674e5")
                      (Some "push") (Some alice_push)) []
           "sha1=3e48575537919d9187078407ecb88e44b1d674e5").
  - discriminate.
  - reflexivity.
  - discriminate.
  - vm_compute. reflexivity.
  - vm_compute. discriminate.
Defined.

(** X17.  Once the signature is accepted, a body that is not JSON, or is the
    JSON value null, is answered 400 [no-json-payload] whatever the event
    type; and any other JSON value, the empty object and the other falsy
    values included, sent with an event type that is neither [push] nor
    [pull_request] (or with none), is answered 200 [ignored-event].  Nothing
    is stored in either case. *)
Theorem handle_webhook_unhandled
        (secret : string) (host : Datetime.platform) (str_of : json -> string)
        (utcnow : Z) (req : request) (collection : list doc) :
  verify_signature secret (data req) (X_Hub_Signature req) = Ok true ->
  (get_json req = None \/ get_json req = Some JNull ->
   handle_webhook secret host str_of utcnow req collection
   = (Ok (jsonify_status "no-json-payload" 400), collection))
  /\ (forall payload : json,
         get_json req = Some payload -> payload <> JNull ->
         X_GitHub_Event req <> Some "push" ->
         X_GitHub_Event req <> Some "pull_request" ->
         handle_webhook secret host str_of utcnow req collection
         = (Ok (jsonify_status "ignored-event" 200), collection)).
Proof.
  intros Hsig. split.
  - intros Hjson. unfold handle_webhook. rewrite Hsig.
    destruct Hjson as [-> | ->]; reflexivity.
  - intros payload Hjson Hnull Hpush Hpr.
    rewrite (HandlerFacts.handle_webhook_dispatch
               secret host str_of utcnow req payload collection Hsig Hjson
               Hnull).
    destruct (X_GitHub_Event req) as [event|].
    + destruct (String.eqb event "push") eqn:E1;
        [apply String.eqb_eq in E1; congruence|].
      destruct (String.eqb event "pull_request") eqn:E2;
        [apply String.eqb_eq in E2; congruence|].
      reflexivity.
    + reflexivity.
Qed.

Lemma handle_webhook_unhandled_witness :
  handle_webhook EmptyString utc_host plain_str_of 0
    (mkrequest [] None (Some "push") (Some JNull)) []
  = (Ok (jsonify_status "no-json-payload" 400), [])
  /\ handle_webhook EmptyString utc_host plain_str_of 0
       (mkrequest [] None (Some "ping") (Some (JObj []))) []
     = (Ok (jsonify_status "ignored-event" 200), []).
Proof.
  split.
  - destruct (handle_webhook_unhandled
                EmptyString utc_host plain_str_of 0
                (mkrequest [] None (Some "push") (Some JNull)) [] eq_refl)
      as (Hnull & _).
    apply Hnull. right. reflexivity.
  - destruct (handle_webhook_unhandled
                EmptyString utc_host plain_str_of 0
                (mkrequest [] None (Some "ping") (Some (JObj []))) [] eq_refl)
      as (_ & Hevent).
    apply (Hevent (JObj [])); [reflexivity | discriminate ..].
Defined.


